(** * SrikurGBC: a shallow embedding of the Game Boy core in Rocq

    Bytes and 16-bit words are modelled as [Z] with their wrap-around
    written out; fixed-size Rust arrays and [Vec]s are stdpp lists, and an
    index out of range (a Rust panic) is [None] in the [option] result of
    the operation that performs it. *)

From Stdlib Require Import ZArith Lia Bool.
From stdpp Require Import base list.
Open Scope Z_scope.

(** Exhaustive checking over a finite range of integers. *)
Fixpoint Zrange (lo : Z) (k : nat) : list Z :=
  match k with
  | O => []
  | S k' => lo :: Zrange (lo + 1) k'
  end.

Lemma Zrange_all (P : Z -> bool) (k : nat) :
  forall lo, forallb P (Zrange lo k) = true ->
  forall v, lo <= v < lo + Z.of_nat k -> P v = true.
Proof.
  induction k as [|k IH]; simpl; intros lo Hall v Hv; [lia|].
  apply andb_true_iff in Hall as [H0 Hrest].
  destruct (Z.eq_dec v lo) as [->|Hne]; [exact H0|].
  apply (IH (lo + 1)); [exact Hrest | lia].
Qed.

Lemma Zrange_all_Z (P : Z -> bool) (lo n : Z) :
  forallb P (Zrange lo (Z.to_nat n)) = true ->
  forall v, lo <= v < lo + n -> P v = true.
Proof.
  intros Hall v Hv. apply (Zrange_all P (Z.to_nat n) lo Hall). lia.
Qed.

(** ** src/system/registers.rs *)
Module Registers.

Record FlagsRegister := {
  zero : bool;
  subtract : bool;
  half_carry : bool;
  carry : bool;
}.

Definition b2z (b : bool) : Z := if b then 1 else 0.

(** [impl From<FlagsRegister> for u8] *)
Definition flags_to_u8 (flag : FlagsRegister) : Z :=
  Z.lor (Z.lor (Z.lor (Z.shiftl (b2z (zero flag)) 7)
                      (Z.shiftl (b2z (subtract flag)) 6))
               (Z.shiftl (b2z (half_carry flag)) 5))
        (Z.shiftl (b2z (carry flag)) 4).

(** [impl From<u8> for FlagsRegister] *)
Definition flags_from_u8 (byte : Z) : FlagsRegister := {|
  zero := negb (Z.land (Z.shiftr byte 7) 1 =? 0);
  subtract := negb (Z.land (Z.shiftr byte 6) 1 =? 0);
  half_carry := negb (Z.land (Z.shiftr byte 5) 1 =? 0);
  carry := negb (Z.land (Z.shiftr byte 4) 1 =? 0);
|}.

Record Registers := {
  a : Z; b : Z; c : Z; d : Z; e : Z;
  f : FlagsRegister;
  h : Z; l : Z;
}.

Definition get_af (r : Registers) : Z := Z.lor (Z.shiftl (a r) 8) (flags_to_u8 (f r)).
Definition get_bc (r : Registers) : Z := Z.lor (Z.shiftl (b r) 8) (c r).
Definition get_de (r : Registers) : Z := Z.lor (Z.shiftl (d r) 8) (e r).
Definition get_hl (r : Registers) : Z := Z.lor (Z.shiftl (h r) 8) (l r).

Definition hi_byte (value : Z) : Z := Z.shiftr (Z.land value 0xFF00) 8.
Definition lo_byte (value : Z) : Z := Z.land value 0xFF.

Definition set_af (r : Registers) (value : Z) : Registers :=
  {| a := hi_byte value; b := b r; c := c r; d := d r; e := e r;
     f := flags_from_u8 (lo_byte value); h := h r; l := l r |}.
Definition set_bc (r : Registers) (value : Z) : Registers :=
  {| a := a r; b := hi_byte value; c := lo_byte value; d := d r; e := e r;
     f := f r; h := h r; l := l r |}.
Definition set_de (r : Registers) (value : Z) : Registers :=
  {| a := a r; b := b r; c := c r; d := hi_byte value; e := lo_byte value;
     f := f r; h := h r; l := l r |}.
Definition set_hl (r : Registers) (value : Z) : Registers :=
  {| a := a r; b := b r; c := c r; d := d r; e := e r;
     f := f r; h := hi_byte value; l := lo_byte value |}.

Definition new : Registers :=
  {| a := 0; b := 0; c := 0; d := 0; e := 0;
     f := {| zero := false; subtract := false; half_carry := false; carry := false |};
     h := 0; l := 0 |}.

(** The pair getter after the pair setter, as a function of [v] alone. *)
Definition pair_roundtrip (v : Z) : Z := Z.lor (Z.shiftl (hi_byte v) 8) (lo_byte v).
Definition af_roundtrip (v : Z) : Z :=
  Z.lor (Z.shiftl (hi_byte v) 8) (flags_to_u8 (flags_from_u8 (lo_byte v))).

Lemma get_bc_set_bc r v : get_bc (set_bc r v) = pair_roundtrip v.
Proof. reflexivity. Qed.
Lemma get_de_set_de r v : get_de (set_de r v) = pair_roundtrip v.
Proof. reflexivity. Qed.
Lemma get_hl_set_hl r v : get_hl (set_hl r v) = pair_roundtrip v.
Proof. reflexivity. Qed.
Lemma get_af_set_af r v : get_af (set_af r v) = af_roundtrip v.
Proof. reflexivity. Qed.

Lemma pair_roundtrip_u16 v : 0 <= v < 65536 -> pair_roundtrip v = v.
Proof.
  intros Hv. apply Z.eqb_eq.
  apply (Zrange_all_Z (fun v => pair_roundtrip v =? v) 0 65536); [vm_compute; reflexivity | lia].
Qed.

Lemma af_roundtrip_u16 v : 0 <= v < 65536 -> af_roundtrip v = Z.land v 0xFFF0.
Proof.
  intros Hv. apply Z.eqb_eq.
  apply (Zrange_all_Z (fun v => af_roundtrip v =? Z.land v 0xFFF0) 0 65536);
    [vm_compute; reflexivity | lia].
Qed.

Lemma flags_roundtrip_u8 byte : 0 <= byte < 256 ->
  flags_to_u8 (flags_from_u8 (Z.land byte 0xF0)) = Z.land byte 0xF0.
Proof.
  intros Hb. apply Z.eqb_eq.
  apply (Zrange_all_Z
           (fun byte => flags_to_u8 (flags_from_u8 (Z.land byte 0xF0)) =? Z.land byte 0xF0)
           0 256); [vm_compute; reflexivity | lia].
Qed.

End Registers.

(** ** Shared helpers for Rust arrays and [match] ranges *)

(** [lo..=hi] in a [match] on an address. *)
Definition in_range (x lo hi : Z) : bool := (lo <=? x) && (x <=? hi).

(** [xs[i]]: a panic (out of range) is [None]. *)
Definition index (xs : list Z) (i : Z) : option Z :=
  if 0 <=? i then xs !! Z.to_nat i else None.

(** [xs[i] = v]: a panic (out of range) is [None]. *)
Definition store (xs : list Z) (i v : Z) : option (list Z) :=
  if (0 <=? i) && (i <? Z.of_nat (length xs)) then Some (<[Z.to_nat i := v]> xs) else None.

Lemma index_store xs i v xs' :
  store xs i v = Some xs' -> index xs' i = Some v.
Proof.
  unfold store, index. destruct (_ && _) eqn:E; [|discriminate].
  intros [= <-]. apply andb_true_iff in E as [E1 E2].
  rewrite E1. apply Z.ltb_lt in E2. apply list_lookup_insert_eq. lia.
Qed.

Lemma store_in_range xs i v :
  0 <= i < Z.of_nat (length xs) -> exists xs', store xs i v = Some xs'.
Proof.
  intros Hi. unfold store.
  replace ((0 <=? i) && (i <? Z.of_nat (length xs))) with true; [eauto|].
  symmetry. apply andb_true_iff. split; [apply Z.leb_le | apply Z.ltb_lt]; lia.
Qed.

(** Settles the [in_range] tests of a goal when the address is known to
    lie in, or outside, each range. *)
Ltac decide_ranges :=
  repeat match goal with
  | |- context [in_range ?x ?lo ?hi] =>
      let E := fresh "E" in
      destruct (in_range x lo hi) eqn:E; unfold in_range in E;
      [ apply andb_true_iff in E; rewrite !Z.leb_le in E
      | apply andb_false_iff in E; destruct E as [E|E]; apply Z.leb_gt in E ];
      try (exfalso; lia)
  end.

(** Settle, by arithmetic on the context, each range test and each
    comparison with a constant that one way or the other is decided. *)
Ltac settle_addr :=
  repeat match goal with
  | |- context [in_range ?x ?lo ?hi] =>
      first [ replace (in_range x lo hi) with true
                by (symmetry; unfold in_range; rewrite andb_true_iff, !Z.leb_le; lia)
            | replace (in_range x lo hi) with false
                by (symmetry; unfold in_range; rewrite andb_false_iff, !Z.leb_gt; lia) ]
  | |- context [?x =? ?c] =>
      first [ replace (x =? c) with true by (symmetry; apply Z.eqb_eq; lia)
            | replace (x =? c) with false by (symmetry; apply Z.eqb_neq; lia) ]
  end; cbn [orb andb negb].

(** ** src/system/rtc.rs *)
Module Rtc.

Record RealTimeClock := { s : Z; m : Z; hh : Z; dl : Z; dh : Z; zero : Z }.

(** [RealTimeClock::tick]; [now] is [SystemTime::now()] in seconds since
    the epoch, and the [u64] subtraction panics when [now < zero]. *)
Definition tick (r : RealTimeClock) (now : Z) : option RealTimeClock :=
  let d := now - zero r in
  if d <? 0 then None else
  let days := (d / 3600 / 24) mod 2 ^ 16 in
  let dh' := if days <=? 0xFF then dh r
             else if days <=? 0x1FF then Z.lor (dh r) 0x01
             else Z.lor (Z.lor (dh r) 0x01) 0x80 in
  Some {| s := d mod 60; m := d / 60 mod 60; hh := d / 3600 mod 24;
          dl := days mod 256; dh := dh'; zero := zero r |}.

Definition read_rtc (r : RealTimeClock) (address : Z) : option Z :=
  if address =? 0x08 then Some (s r)
  else if address =? 0x09 then Some (m r)
  else if address =? 0x0a then Some (hh r)
  else if address =? 0x0b then Some (dl r)
  else if address =? 0x0c then Some (dh r)
  else None.

Definition write_rtc (r : RealTimeClock) (address value : Z) : option RealTimeClock :=
  let '(Build_RealTimeClock s0 m0 h0 dl0 dh0 z0) := r in
  if address =? 0x08 then Some (Build_RealTimeClock value m0 h0 dl0 dh0 z0)
  else if address =? 0x09 then Some (Build_RealTimeClock s0 value h0 dl0 dh0 z0)
  else if address =? 0x0a then Some (Build_RealTimeClock s0 m0 value dl0 dh0 z0)
  else if address =? 0x0b then Some (Build_RealTimeClock s0 m0 h0 value dh0 z0)
  else if address =? 0x0c then Some (Build_RealTimeClock s0 m0 h0 dl0 value z0)
  else None.

End Rtc.

(** ** src/system/cartridge.rs (the mapper state; file I/O and the
    save path are left out) *)
Module Cartridge.

Inductive Mode := Rom | Ram.
Inductive MBC := MBCNone | MBC1 | MBC2 | MBC3 | MBC5.

Record Cartridge := {
  game_rom : list Z;
  game_ram : list Z;
  ram_enabled : bool;
  bank_mode : Mode;
  rtc : Rtc.RealTimeClock;
  rom_bank : Z;
  ram_bank : Z;
  bank : Z;
  mbc : MBC;
}.

Definition with_ram (c : Cartridge) (ram : list Z) : Cartridge :=
  {| game_rom := game_rom c; game_ram := ram; ram_enabled := ram_enabled c;
     bank_mode := bank_mode c; rtc := rtc c; rom_bank := rom_bank c;
     ram_bank := ram_bank c; bank := bank c; mbc := mbc c |}.
Definition with_enabled (c : Cartridge) (en : bool) : Cartridge :=
  {| game_rom := game_rom c; game_ram := game_ram c; ram_enabled := en;
     bank_mode := bank_mode c; rtc := rtc c; rom_bank := rom_bank c;
     ram_bank := ram_bank c; bank := bank c; mbc := mbc c |}.
Definition with_mode (c : Cartridge) (md : Mode) : Cartridge :=
  {| game_rom := game_rom c; game_ram := game_ram c; ram_enabled := ram_enabled c;
     bank_mode := md; rtc := rtc c; rom_bank := rom_bank c;
     ram_bank := ram_bank c; bank := bank c; mbc := mbc c |}.
Definition with_rtc (c : Cartridge) (r : Rtc.RealTimeClock) : Cartridge :=
  {| game_rom := game_rom c; game_ram := game_ram c; ram_enabled := ram_enabled c;
     bank_mode := bank_mode c; rtc := r; rom_bank := rom_bank c;
     ram_bank := ram_bank c; bank := bank c; mbc := mbc c |}.
Definition with_rom_bank (c : Cartridge) (v : Z) : Cartridge :=
  {| game_rom := game_rom c; game_ram := game_ram c; ram_enabled := ram_enabled c;
     bank_mode := bank_mode c; rtc := rtc c; rom_bank := v;
     ram_bank := ram_bank c; bank := bank c; mbc := mbc c |}.
Definition with_ram_bank (c : Cartridge) (v : Z) : Cartridge :=
  {| game_rom := game_rom c; game_ram := game_ram c; ram_enabled := ram_enabled c;
     bank_mode := bank_mode c; rtc := rtc c; rom_bank := rom_bank c;
     ram_bank := v; bank := bank c; mbc := mbc c |}.
Definition with_bank (c : Cartridge) (v : Z) : Cartridge :=
  {| game_rom := game_rom c; game_ram := game_ram c; ram_enabled := ram_enabled c;
     bank_mode := bank_mode c; rtc := rtc c; rom_bank := rom_bank c;
     ram_bank := ram_bank c; bank := v; mbc := mbc c |}.

(** [fn rom_bank] and [fn ram_bank] of MBC1 (named apart from the fields). *)
Definition mbc1_rom_bank (c : Cartridge) : Z :=
  match bank_mode c with Rom => Z.land (bank c) 0x7F | Ram => Z.land (bank c) 0x1F end.
Definition mbc1_ram_bank (c : Cartridge) : Z :=
  match bank_mode c with Rom => 0 | Ram => Z.shiftr (Z.land (bank c) 0x60) 5 end.

Definition read_byte_none (c : Cartridge) (address : Z) : option Z :=
  index (game_rom c) address.

Definition read_byte_mbc1 (c : Cartridge) (address : Z) : option Z :=
  if in_range address 0x0000 0x3FFF then index (game_rom c) address
  else if in_range address 0x4000 0x7FFF then
    index (game_rom c) (mbc1_rom_bank c * 0x4000 + address - 0x4000)
  else if in_range address 0xA000 0xBFFF then
    (if ram_enabled c then index (game_ram c) (mbc1_ram_bank c * 0x2000 + address - 0xA000)
     else Some 0x00)
  else Some 0xFF.

Definition read_byte_mbc2 (c : Cartridge) (address : Z) : option Z :=
  if in_range address 0x0000 0x3FFF then index (game_rom c) address
  else if in_range address 0x4000 0x7FFF then
    index (game_rom c) (rom_bank c * 0x4000 + address - 0x4000)
  else if in_range address 0xA000 0xA1FF then
    (if ram_enabled c then index (game_ram c) (address - 0xA000) else Some 0x00)
  else Some 0xFF.

Definition read_byte_mbc3 (c : Cartridge) (address : Z) : option Z :=
  if in_range address 0x0000 0x3FFF then index (game_rom c) address
  else if in_range address 0x4000 0x7FFF then
    index (game_rom c) (rom_bank c * 0x4000 + address - 0x4000)
  else if in_range address 0xA000 0xBFFF then
    (if ram_enabled c then
       (if ram_bank c <=? 0x03
        then index (game_ram c) (ram_bank c * 0x2000 + address - 0xA000)
        else Rtc.read_rtc (rtc c) (ram_bank c))
     else Some 0x00)
  else Some 0x00.

Definition read_byte_mbc5 (c : Cartridge) (address : Z) : option Z :=
  if in_range address 0x0000 0x3FFF then index (game_rom c) address
  else if in_range address 0x4000 0x7FFF then
    index (game_rom c) (rom_bank c * 0x4000 + address - 0x4000)
  else if in_range address 0xA000 0xBFFF then
    (if ram_enabled c then index (game_ram c) (ram_bank c * 0x2000 + address - 0xA000)
     else Some 0x00)
  else Some 0x00.

Definition store_ram (c : Cartridge) (i v : Z) : option Cartridge :=
  match store (game_ram c) i v with Some ram => Some (with_ram c ram) | None => None end.

Definition write_byte_mbc1 (c : Cartridge) (address value : Z) : option Cartridge :=
  if in_range address 0xA000 0xBFFF then
    (if ram_enabled c && negb (Nat.eqb (length (game_ram c)) 0)
     then store_ram c (mbc1_ram_bank c * 0x2000 + address - 0xA000) value
     else Some c)
  else if in_range address 0x0000 0x1FFF then
    Some (with_enabled c (Z.land value 0x0F =? 0x0A))
  else if in_range address 0x2000 0x3FFF then
    let value := Z.land value 0x1F in
    let value := if value =? 0x00 then 0x01 else value in
    Some (with_bank c (Z.lor (Z.land (bank c) 0x60) value))
  else if in_range address 0x4000 0x5FFF then
    Some (with_bank c (Z.lor (Z.land (bank c) 0x9F) (Z.shiftl (Z.land value 0x03) 5)))
  else if in_range address 0x6000 0x7FFF then
    (if value =? 0x00 then Some (with_mode c Rom)
     else if value =? 0x01 then Some (with_mode c Ram)
     else None)
  else Some c.

Definition write_byte_mbc2 (c : Cartridge) (address value : Z) : option Cartridge :=
  let value := Z.land value 0x0F in
  if in_range address 0xA000 0xA1FF then
    (if ram_enabled c then store_ram c (address - 0xA000) value else Some c)
  else if in_range address 0x0000 0x1FFF then
    (if Z.land address 0x0100 =? 0 then Some (with_enabled c (value =? 0x0a)) else Some c)
  else if in_range address 0x2000 0x3FFF then
    (if negb (Z.land address 0x0100 =? 0) then Some (with_rom_bank c value) else Some c)
  else Some c.

Definition write_byte_mbc3 (c : Cartridge) (address value now : Z) : option Cartridge :=
  if in_range address 0xA000 0xBFFF then
    (if ram_enabled c then
       (if ram_bank c <=? 0x03
        then store_ram c (ram_bank c * 0x2000 + address - 0xA000) value
        else match Rtc.write_rtc (rtc c) (ram_bank c) value with
             | Some r => Some (with_rtc c r) | None => None end)
     else Some c)
  else if in_range address 0x0000 0x1FFF then
    Some (with_enabled c (Z.land value 0x0F =? 0x0A))
  else if in_range address 0x2000 0x3FFF then
    let value := Z.land value 0x7F in
    let value := if value =? 0x00 then 0x01 else value in
    Some (with_rom_bank c value)
  else if in_range address 0x4000 0x5FFF then
    Some (with_ram_bank c (Z.land value 0x0F))
  else if in_range address 0x6000 0x7FFF then
    (if negb (Z.land value 0x01 =? 0) then
       match Rtc.tick (rtc c) now with Some r => Some (with_rtc c r) | None => None end
     else Some c)
  else Some c.

Definition write_byte_mbc5 (c : Cartridge) (address value : Z) : option Cartridge :=
  if in_range address 0xA000 0xBFFF then
    (if ram_enabled c
     then store_ram c (ram_bank c * 0x2000 + address - 0xA000) value
     else Some c)
  else if in_range address 0x0000 0x1FFF then
    Some (with_enabled c (Z.land value 0x0F =? 0x0A))
  else if in_range address 0x2000 0x2FFF then
    Some (with_rom_bank c (Z.lor (Z.land (rom_bank c) 0x100) value))
  else if in_range address 0x3000 0x3FFF then
    Some (with_rom_bank c (Z.lor (Z.land (rom_bank c) 0x0FF) (Z.shiftl (Z.land value 0x01) 8)))
  else if in_range address 0x4000 0x5FFF then
    Some (with_ram_bank c (Z.land value 0x0F))
  else Some c.

(** [Cartridge::read_byte] *)
Definition read_byte (c : Cartridge) (address : Z) : option Z :=
  match mbc c with
  | MBCNone => read_byte_none c address
  | MBC1 => read_byte_mbc1 c address
  | MBC2 => read_byte_mbc2 c address
  | MBC3 => read_byte_mbc3 c address
  | MBC5 => read_byte_mbc5 c address
  end.

(** [Cartridge::write_byte]; [now] is the wall-clock time read by the MBC3
    latch ([RealTimeClock::tick]). *)
Definition write_byte (c : Cartridge) (address value now : Z) : option Cartridge :=
  match mbc c with
  | MBCNone => Some c
  | MBC1 => write_byte_mbc1 c address value
  | MBC2 => write_byte_mbc2 c address value
  | MBC3 => write_byte_mbc3 c address value now
  | MBC5 => write_byte_mbc5 c address value
  end.

(** Which external-RAM index an address in A000-BFFF designates, when it
    designates one (MBC3 register selects above 3 designate the RTC). *)
Definition ram_index (c : Cartridge) (address : Z) : option Z :=
  match mbc c with
  | MBCNone => None
  | MBC1 => if in_range address 0xA000 0xBFFF
            then Some (mbc1_ram_bank c * 0x2000 + address - 0xA000) else None
  | MBC2 => if in_range address 0xA000 0xA1FF then Some (address - 0xA000) else None
  | MBC3 => if in_range address 0xA000 0xBFFF && (ram_bank c <=? 0x03)
            then Some (ram_bank c * 0x2000 + address - 0xA000) else None
  | MBC5 => if in_range address 0xA000 0xBFFF
            then Some (ram_bank c * 0x2000 + address - 0xA000) else None
  end.

Lemma store_ram_fields c i v c' :
  store_ram c i v = Some c' ->
  mbc c' = mbc c /\ ram_enabled c' = ram_enabled c /\ bank c' = bank c /\
  bank_mode c' = bank_mode c /\ ram_bank c' = ram_bank c /\ index (game_ram c') i = Some v.
Proof.
  unfold store_ram. destruct (store _ _ _) eqn:E; [|discriminate].
  intros [= <-]. simpl. repeat split. eapply index_store. exact E.
Qed.

Lemma store_ram_in_range c i v :
  0 <= i < Z.of_nat (length (game_ram c)) -> exists c', store_ram c i v = Some c'.
Proof.
  intros Hi. destruct (store_in_range (game_ram c) i v Hi) as [xs E].
  unfold store_ram. rewrite E. eauto.
Qed.

End Cartridge.

(** ** src/system/gpu.rs (the PPU state, its register file and its mode
    machine) *)
Module Gpu.

Definition Screen := list (list (list Z)).
Definition Palettes := list (list (list Z)).

Record GPU := {
  intflag : Z;                 (* interrupt_flag of the shared [intref] cell *)
  vram : list Z;
  screen_data : Screen;
  oam : list Z;
  lyc : Z;
  lcdc : Z;
  enable_ly_interrupt : bool;
  enable_m2_interrupt : bool;
  enable_m1_interrupt : bool;
  enable_m0_interrupt : bool;
  mode : Z;
  current_line : Z;
  window_x : Z;
  window_y : Z;
  bg_palette : Z;
  obp0_palette : Z;
  obp1_palette : Z;
  scroll_x : Z;
  scroll_y : Z;
  scanline_counter : Z;
  vblank : bool;
  hblank : bool;
  bgpi_index : Z;
  bgpi_auto_increment : bool;
  bgpd : Palettes;
  obpi_index : Z;
  obpi_auto_increment : bool;
  obpd : Palettes;
  vram_bank : Z;
}.

Definition white_screen : Screen := repeat (repeat [0xFF; 0xFF; 0xFF] 160) 144.
Definition zero_palettes : Palettes := repeat (repeat [0; 0; 0] 4) 8.

(** [GPU::new] *)
Definition new : GPU := {|
  intflag := 0; vram := repeat 0 (Z.to_nat 0x4000); screen_data := white_screen;
  oam := repeat 0 (Z.to_nat 0xA0); lyc := 0; lcdc := 0;
  enable_ly_interrupt := false; enable_m2_interrupt := false;
  enable_m1_interrupt := false; enable_m0_interrupt := false; mode := 0;
  current_line := 0; window_x := 0; window_y := 0; bg_palette := 0;
  obp0_palette := 0; obp1_palette := 0; scroll_x := 0; scroll_y := 0;
  scanline_counter := 456; vblank := false; hblank := false;
  bgpi_index := 0; bgpi_auto_increment := false; bgpd := zero_palettes;
  obpi_index := 0; obpi_auto_increment := false; obpd := zero_palettes;
  vram_bank := 0 |}.

(** One setter per field: [set_F g v] is [g] with field [F] replaced by [v]. *)
Definition set_intflag (g : GPU) (v : Z) : GPU := {| intflag := v; vram := vram g; screen_data := screen_data g; oam := oam g; lyc := lyc g; lcdc := lcdc g; enable_ly_interrupt := enable_ly_interrupt g; enable_m2_interrupt := enable_m2_interrupt g; enable_m1_interrupt := enable_m1_interrupt g; enable_m0_interrupt := enable_m0_interrupt g; mode := mode g; current_line := current_line g; window_x := window_x g; window_y := window_y g; bg_palette := bg_palette g; obp0_palette := obp0_palette g; obp1_palette := obp1_palette g; scroll_x := scroll_x g; scroll_y := scroll_y g; scanline_counter := scanline_counter g; vblank := vblank g; hblank := hblank g; bgpi_index := bgpi_index g; bgpi_auto_increment := bgpi_auto_increment g; bgpd := bgpd g; obpi_index := obpi_index g; obpi_auto_increment := obpi_auto_increment g; obpd := obpd g; vram_bank := vram_bank g |}.
Definition set_vram (g : GPU) (v : list Z) : GPU := {| intflag := intflag g; vram := v; screen_data := screen_data g; oam := oam g; lyc := lyc g; lcdc := lcdc g; enable_ly_interrupt := enable_ly_interrupt g; enable_m2_interrupt := enable_m2_interrupt g; enable_m1_interrupt := enable_m1_interrupt g; enable_m0_interrupt := enable_m0_interrupt g; mode := mode g; current_line := current_line g; window_x := window_x g; window_y := window_y g; bg_palette := bg_palette g; obp0_palette := obp0_palette g; obp1_palette := obp1_palette g; scroll_x := scroll_x g; scroll_y := scroll_y g; scanline_counter := scanline_counter g; vblank := vblank g; hblank := hblank g; bgpi_index := bgpi_index g; bgpi_auto_increment := bgpi_auto_increment g; bgpd := bgpd g; obpi_index := obpi_index g; obpi_auto_increment := obpi_auto_increment g; obpd := obpd g; vram_bank := vram_bank g |}.
Definition set_screen_data (g : GPU) (v : Screen) : GPU := {| intflag := intflag g; vram := vram g; screen_data := v; oam := oam g; lyc := lyc g; lcdc := lcdc g; enable_ly_interrupt := enable_ly_interrupt g; enable_m2_interrupt := enable_m2_interrupt g; enable_m1_interrupt := enable_m1_interrupt g; enable_m0_interrupt := enable_m0_interrupt g; mode := mode g; current_line := current_line g; window_x := window_x g; window_y := window_y g; bg_palette := bg_palette g; obp0_palette := obp0_palette g; obp1_palette := obp1_palette g; scroll_x := scroll_x g; scroll_y := scroll_y g; scanline_counter := scanline_counter g; vblank := vblank g; hblank := hblank g; bgpi_index := bgpi_index g; bgpi_auto_increment := bgpi_auto_increment g; bgpd := bgpd g; obpi_index := obpi_index g; obpi_auto_increment := obpi_auto_increment g; obpd := obpd g; vram_bank := vram_bank g |}.
Definition set_oam (g : GPU) (v : list Z) : GPU := {| intflag := intflag g; vram := vram g; screen_data := screen_data g; oam := v; lyc := lyc g; lcdc := lcdc g; enable_ly_interrupt := enable_ly_interrupt g; enable_m2_interrupt := enable_m2_interrupt g; enable_m1_interrupt := enable_m1_interrupt g; enable_m0_interrupt := enable_m0_interrupt g; mode := mode g; current_line := current_line g; window_x := window_x g; window_y := window_y g; bg_palette := bg_palette g; obp0_palette := obp0_palette g; obp1_palette := obp1_palette g; scroll_x := scroll_x g; scroll_y := scroll_y g; scanline_counter := scanline_counter g; vblank := vblank g; hblank := hblank g; bgpi_index := bgpi_index g; bgpi_auto_increment := bgpi_auto_increment g; bgpd := bgpd g; obpi_index := obpi_index g; obpi_auto_increment := obpi_auto_increment g; obpd := obpd g; vram_bank := vram_bank g |}.
Definition set_lyc (g : GPU) (v : Z) : GPU := {| intflag := intflag g; vram := vram g; screen_data := screen_data g; oam := oam g; lyc := v; lcdc := lcdc g; enable_ly_interrupt := enable_ly_interrupt g; enable_m2_interrupt := enable_m2_interrupt g; enable_m1_interrupt := enable_m1_interrupt g; enable_m0_interrupt := enable_m0_interrupt g; mode := mode g; current_line := current_line g; window_x := window_x g; window_y := window_y g; bg_palette := bg_palette g; obp0_palette := obp0_palette g; obp1_palette := obp1_palette g; scroll_x := scroll_x g; scroll_y := scroll_y g; scanline_counter := scanline_counter g; vblank := vblank g; hblank := hblank g; bgpi_index := bgpi_index g; bgpi_auto_increment := bgpi_auto_increment g; bgpd := bgpd g; obpi_index := obpi_index g; obpi_auto_increment := obpi_auto_increment g; obpd := obpd g; vram_bank := vram_bank g |}.
Definition set_lcdc (g : GPU) (v : Z) : GPU := {| intflag := intflag g; vram := vram g; screen_data := screen_data g; oam := oam g; lyc := lyc g; lcdc := v; enable_ly_interrupt := enable_ly_interrupt g; enable_m2_interrupt := enable_m2_interrupt g; enable_m1_interrupt := enable_m1_interrupt g; enable_m0_interrupt := enable_m0_interrupt g; mode := mode g; current_line := current_line g; window_x := window_x g; window_y := window_y g; bg_palette := bg_palette g; obp0_palette := obp0_palette g; obp1_palette := obp1_palette g; scroll_x := scroll_x g; scroll_y := scroll_y g; scanline_counter := scanline_counter g; vblank := vblank g; hblank := hblank g; bgpi_index := bgpi_index g; bgpi_auto_increment := bgpi_auto_increment g; bgpd := bgpd g; obpi_index := obpi_index g; obpi_auto_increment := obpi_auto_increment g; obpd := obpd g; vram_bank := vram_bank g |}.
Definition set_enable_ly_interrupt (g : GPU) (v : bool) : GPU := {| intflag := intflag g; vram := vram g; screen_data := screen_data g; oam := oam g; lyc := lyc g; lcdc := lcdc g; enable_ly_interrupt := v; enable_m2_interrupt := enable_m2_interrupt g; enable_m1_interrupt := enable_m1_interrupt g; enable_m0_interrupt := enable_m0_interrupt g; mode := mode g; current_line := current_line g; window_x := window_x g; window_y := window_y g; bg_palette := bg_palette g; obp0_palette := obp0_palette g; obp1_palette := obp1_palette g; scroll_x := scroll_x g; scroll_y := scroll_y g; scanline_counter := scanline_counter g; vblank := vblank g; hblank := hblank g; bgpi_index := bgpi_index g; bgpi_auto_increment := bgpi_auto_increment g; bgpd := bgpd g; obpi_index := obpi_index g; obpi_auto_increment := obpi_auto_increment g; obpd := obpd g; vram_bank := vram_bank g |}.
Definition set_enable_m2_interrupt (g : GPU) (v : bool) : GPU := {| intflag := intflag g; vram := vram g; screen_data := screen_data g; oam := oam g; lyc := lyc g; lcdc := lcdc g; enable_ly_interrupt := enable_ly_interrupt g; enable_m2_interrupt := v; enable_m1_interrupt := enable_m1_interrupt g; enable_m0_interrupt := enable_m0_interrupt g; mode := mode g; current_line := current_line g; window_x := window_x g; window_y := window_y g; bg_palette := bg_palette g; obp0_palette := obp0_palette g; obp1_palette := obp1_palette g; scroll_x := scroll_x g; scroll_y := scroll_y g; scanline_counter := scanline_counter g; vblank := vblank g; hblank := hblank g; bgpi_index := bgpi_index g; bgpi_auto_increment := bgpi_auto_increment g; bgpd := bgpd g; obpi_index := obpi_index g; obpi_auto_increment := obpi_auto_increment g; obpd := obpd g; vram_bank := vram_bank g |}.
Definition set_enable_m1_interrupt (g : GPU) (v : bool) : GPU := {| intflag := intflag g; vram := vram g; screen_data := screen_data g; oam := oam g; lyc := lyc g; lcdc := lcdc g; enable_ly_interrupt := enable_ly_interrupt g; enable_m2_interrupt := enable_m2_interrupt g; enable_m1_interrupt := v; enable_m0_interrupt := enable_m0_interrupt g; mode := mode g; current_line := current_line g; window_x := window_x g; window_y := window_y g; bg_palette := bg_palette g; obp0_palette := obp0_palette g; obp1_palette := obp1_palette g; scroll_x := scroll_x g; scroll_y := scroll_y g; scanline_counter := scanline_counter g; vblank := vblank g; hblank := hblank g; bgpi_index := bgpi_index g; bgpi_auto_increment := bgpi_auto_increment g; bgpd := bgpd g; obpi_index := obpi_index g; obpi_auto_increment := obpi_auto_increment g; obpd := obpd g; vram_bank := vram_bank g |}.
Definition set_enable_m0_interrupt (g : GPU) (v : bool) : GPU := {| intflag := intflag g; vram := vram g; screen_data := screen_data g; oam := oam g; lyc := lyc g; lcdc := lcdc g; enable_ly_interrupt := enable_ly_interrupt g; enable_m2_interrupt := enable_m2_interrupt g; enable_m1_interrupt := enable_m1_interrupt g; enable_m0_interrupt := v; mode := mode g; current_line := current_line g; window_x := window_x g; window_y := window_y g; bg_palette := bg_palette g; obp0_palette := obp0_palette g; obp1_palette := obp1_palette g; scroll_x := scroll_x g; scroll_y := scroll_y g; scanline_counter := scanline_counter g; vblank := vblank g; hblank := hblank g; bgpi_index := bgpi_index g; bgpi_auto_increment := bgpi_auto_increment g; bgpd := bgpd g; obpi_index := obpi_index g; obpi_auto_increment := obpi_auto_increment g; obpd := obpd g; vram_bank := vram_bank g |}.
Definition set_mode (g : GPU) (v : Z) : GPU := {| intflag := intflag g; vram := vram g; screen_data := screen_data g; oam := oam g; lyc := lyc g; lcdc := lcdc g; enable_ly_interrupt := enable_ly_interrupt g; enable_m2_interrupt := enable_m2_interrupt g; enable_m1_interrupt := enable_m1_interrupt g; enable_m0_interrupt := enable_m0_interrupt g; mode := v; current_line := current_line g; window_x := window_x g; window_y := window_y g; bg_palette := bg_palette g; obp0_palette := obp0_palette g; obp1_palette := obp1_palette g; scroll_x := scroll_x g; scroll_y := scroll_y g; scanline_counter := scanline_counter g; vblank := vblank g; hblank := hblank g; bgpi_index := bgpi_index g; bgpi_auto_increment := bgpi_auto_increment g; bgpd := bgpd g; obpi_index := obpi_index g; obpi_auto_increment := obpi_auto_increment g; obpd := obpd g; vram_bank := vram_bank g |}.
Definition set_current_line (g : GPU) (v : Z) : GPU := {| intflag := intflag g; vram := vram g; screen_data := screen_data g; oam := oam g; lyc := lyc g; lcdc := lcdc g; enable_ly_interrupt := enable_ly_interrupt g; enable_m2_interrupt := enable_m2_interrupt g; enable_m1_interrupt := enable_m1_interrupt g; enable_m0_interrupt := enable_m0_interrupt g; mode := mode g; current_line := v; window_x := window_x g; window_y := window_y g; bg_palette := bg_palette g; obp0_palette := obp0_palette g; obp1_palette := obp1_palette g; scroll_x := scroll_x g; scroll_y := scroll_y g; scanline_counter := scanline_counter g; vblank := vblank g; hblank := hblank g; bgpi_index := bgpi_index g; bgpi_auto_increment := bgpi_auto_increment g; bgpd := bgpd g; obpi_index := obpi_index g; obpi_auto_increment := obpi_auto_increment g; obpd := obpd g; vram_bank := vram_bank g |}.
Definition set_window_x (g : GPU) (v : Z) : GPU := {| intflag := intflag g; vram := vram g; screen_data := screen_data g; oam := oam g; lyc := lyc g; lcdc := lcdc g; enable_ly_interrupt := enable_ly_interrupt g; enable_m2_interrupt := enable_m2_interrupt g; enable_m1_interrupt := enable_m1_interrupt g; enable_m0_interrupt := enable_m0_interrupt g; mode := mode g; current_line := current_line g; window_x := v; window_y := window_y g; bg_palette := bg_palette g; obp0_palette := obp0_palette g; obp1_palette := obp1_palette g; scroll_x := scroll_x g; scroll_y := scroll_y g; scanline_counter := scanline_counter g; vblank := vblank g; hblank := hblank g; bgpi_index := bgpi_index g; bgpi_auto_increment := bgpi_auto_increment g; bgpd := bgpd g; obpi_index := obpi_index g; obpi_auto_increment := obpi_auto_increment g; obpd := obpd g; vram_bank := vram_bank g |}.
Definition set_window_y (g : GPU) (v : Z) : GPU := {| intflag := intflag g; vram := vram g; screen_data := screen_data g; oam := oam g; lyc := lyc g; lcdc := lcdc g; enable_ly_interrupt := enable_ly_interrupt g; enable_m2_interrupt := enable_m2_interrupt g; enable_m1_interrupt := enable_m1_interrupt g; enable_m0_interrupt := enable_m0_interrupt g; mode := mode g; current_line := current_line g; window_x := window_x g; window_y := v; bg_palette := bg_palette g; obp0_palette := obp0_palette g; obp1_palette := obp1_palette g; scroll_x := scroll_x g; scroll_y := scroll_y g; scanline_counter := scanline_counter g; vblank := vblank g; hblank := hblank g; bgpi_index := bgpi_index g; bgpi_auto_increment := bgpi_auto_increment g; bgpd := bgpd g; obpi_index := obpi_index g; obpi_auto_increment := obpi_auto_increment g; obpd := obpd g; vram_bank := vram_bank g |}.
Definition set_bg_palette (g : GPU) (v : Z) : GPU := {| intflag := intflag g; vram := vram g; screen_data := screen_data g; oam := oam g; lyc := lyc g; lcdc := lcdc g; enable_ly_interrupt := enable_ly_interrupt g; enable_m2_interrupt := enable_m2_interrupt g; enable_m1_interrupt := enable_m1_interrupt g; enable_m0_interrupt := enable_m0_interrupt g; mode := mode g; current_line := current_line g; window_x := window_x g; window_y := window_y g; bg_palette := v; obp0_palette := obp0_palette g; obp1_palette := obp1_palette g; scroll_x := scroll_x g; scroll_y := scroll_y g; scanline_counter := scanline_counter g; vblank := vblank g; hblank := hblank g; bgpi_index := bgpi_index g; bgpi_auto_increment := bgpi_auto_increment g; bgpd := bgpd g; obpi_index := obpi_index g; obpi_auto_increment := obpi_auto_increment g; obpd := obpd g; vram_bank := vram_bank g |}.
Definition set_obp0_palette (g : GPU) (v : Z) : GPU := {| intflag := intflag g; vram := vram g; screen_data := screen_data g; oam := oam g; lyc := lyc g; lcdc := lcdc g; enable_ly_interrupt := enable_ly_interrupt g; enable_m2_interrupt := enable_m2_interrupt g; enable_m1_interrupt := enable_m1_interrupt g; enable_m0_interrupt := enable_m0_interrupt g; mode := mode g; current_line := current_line g; window_x := window_x g; window_y := window_y g; bg_palette := bg_palette g; obp0_palette := v; obp1_palette := obp1_palette g; scroll_x := scroll_x g; scroll_y := scroll_y g; scanline_counter := scanline_counter g; vblank := vblank g; hblank := hblank g; bgpi_index := bgpi_index g; bgpi_auto_increment := bgpi_auto_increment g; bgpd := bgpd g; obpi_index := obpi_index g; obpi_auto_increment := obpi_auto_increment g; obpd := obpd g; vram_bank := vram_bank g |}.
Definition set_obp1_palette (g : GPU) (v : Z) : GPU := {| intflag := intflag g; vram := vram g; screen_data := screen_data g; oam := oam g; lyc := lyc g; lcdc := lcdc g; enable_ly_interrupt := enable_ly_interrupt g; enable_m2_interrupt := enable_m2_interrupt g; enable_m1_interrupt := enable_m1_interrupt g; enable_m0_interrupt := enable_m0_interrupt g; mode := mode g; current_line := current_line g; window_x := window_x g; window_y := window_y g; bg_palette := bg_palette g; obp0_palette := obp0_palette g; obp1_palette := v; scroll_x := scroll_x g; scroll_y := scroll_y g; scanline_counter := scanline_counter g; vblank := vblank g; hblank := hblank g; bgpi_index := bgpi_index g; bgpi_auto_increment := bgpi_auto_increment g; bgpd := bgpd g; obpi_index := obpi_index g; obpi_auto_increment := obpi_auto_increment g; obpd := obpd g; vram_bank := vram_bank g |}.
Definition set_scroll_x (g : GPU) (v : Z) : GPU := {| intflag := intflag g; vram := vram g; screen_data := screen_data g; oam := oam g; lyc := lyc g; lcdc := lcdc g; enable_ly_interrupt := enable_ly_interrupt g; enable_m2_interrupt := enable_m2_interrupt g; enable_m1_interrupt := enable_m1_interrupt g; enable_m0_interrupt := enable_m0_interrupt g; mode := mode g; current_line := current_line g; window_x := window_x g; window_y := window_y g; bg_palette := bg_palette g; obp0_palette := obp0_palette g; obp1_palette := obp1_palette g; scroll_x := v; scroll_y := scroll_y g; scanline_counter := scanline_counter g; vblank := vblank g; hblank := hblank g; bgpi_index := bgpi_index g; bgpi_auto_increment := bgpi_auto_increment g; bgpd := bgpd g; obpi_index := obpi_index g; obpi_auto_increment := obpi_auto_increment g; obpd := obpd g; vram_bank := vram_bank g |}.
Definition set_scroll_y (g : GPU) (v : Z) : GPU := {| intflag := intflag g; vram := vram g; screen_data := screen_data g; oam := oam g; lyc := lyc g; lcdc := lcdc g; enable_ly_interrupt := enable_ly_interrupt g; enable_m2_interrupt := enable_m2_interrupt g; enable_m1_interrupt := enable_m1_interrupt g; enable_m0_interrupt := enable_m0_interrupt g; mode := mode g; current_line := current_line g; window_x := window_x g; window_y := window_y g; bg_palette := bg_palette g; obp0_palette := obp0_palette g; obp1_palette := obp1_palette g; scroll_x := scroll_x g; scroll_y := v; scanline_counter := scanline_counter g; vblank := vblank g; hblank := hblank g; bgpi_index := bgpi_index g; bgpi_auto_increment := bgpi_auto_increment g; bgpd := bgpd g; obpi_index := obpi_index g; obpi_auto_increment := obpi_auto_increment g; obpd := obpd g; vram_bank := vram_bank g |}.
Definition set_scanline_counter (g : GPU) (v : Z) : GPU := {| intflag := intflag g; vram := vram g; screen_data := screen_data g; oam := oam g; lyc := lyc g; lcdc := lcdc g; enable_ly_interrupt := enable_ly_interrupt g; enable_m2_interrupt := enable_m2_interrupt g; enable_m1_interrupt := enable_m1_interrupt g; enable_m0_interrupt := enable_m0_interrupt g; mode := mode g; current_line := current_line g; window_x := window_x g; window_y := window_y g; bg_palette := bg_palette g; obp0_palette := obp0_palette g; obp1_palette := obp1_palette g; scroll_x := scroll_x g; scroll_y := scroll_y g; scanline_counter := v; vblank := vblank g; hblank := hblank g; bgpi_index := bgpi_index g; bgpi_auto_increment := bgpi_auto_increment g; bgpd := bgpd g; obpi_index := obpi_index g; obpi_auto_increment := obpi_auto_increment g; obpd := obpd g; vram_bank := vram_bank g |}.
Definition set_vblank (g : GPU) (v : bool) : GPU := {| intflag := intflag g; vram := vram g; screen_data := screen_data g; oam := oam g; lyc := lyc g; lcdc := lcdc g; enable_ly_interrupt := enable_ly_interrupt g; enable_m2_interrupt := enable_m2_interrupt g; enable_m1_interrupt := enable_m1_interrupt g; enable_m0_interrupt := enable_m0_interrupt g; mode := mode g; current_line := current_line g; window_x := window_x g; window_y := window_y g; bg_palette := bg_palette g; obp0_palette := obp0_palette g; obp1_palette := obp1_palette g; scroll_x := scroll_x g; scroll_y := scroll_y g; scanline_counter := scanline_counter g; vblank := v; hblank := hblank g; bgpi_index := bgpi_index g; bgpi_auto_increment := bgpi_auto_increment g; bgpd := bgpd g; obpi_index := obpi_index g; obpi_auto_increment := obpi_auto_increment g; obpd := obpd g; vram_bank := vram_bank g |}.
Definition set_hblank (g : GPU) (v : bool) : GPU := {| intflag := intflag g; vram := vram g; screen_data := screen_data g; oam := oam g; lyc := lyc g; lcdc := lcdc g; enable_ly_interrupt := enable_ly_interrupt g; enable_m2_interrupt := enable_m2_interrupt g; enable_m1_interrupt := enable_m1_interrupt g; enable_m0_interrupt := enable_m0_interrupt g; mode := mode g; current_line := current_line g; window_x := window_x g; window_y := window_y g; bg_palette := bg_palette g; obp0_palette := obp0_palette g; obp1_palette := obp1_palette g; scroll_x := scroll_x g; scroll_y := scroll_y g; scanline_counter := scanline_counter g; vblank := vblank g; hblank := v; bgpi_index := bgpi_index g; bgpi_auto_increment := bgpi_auto_increment g; bgpd := bgpd g; obpi_index := obpi_index g; obpi_auto_increment := obpi_auto_increment g; obpd := obpd g; vram_bank := vram_bank g |}.
Definition set_bgpi_index (g : GPU) (v : Z) : GPU := {| intflag := intflag g; vram := vram g; screen_data := screen_data g; oam := oam g; lyc := lyc g; lcdc := lcdc g; enable_ly_interrupt := enable_ly_interrupt g; enable_m2_interrupt := enable_m2_interrupt g; enable_m1_interrupt := enable_m1_interrupt g; enable_m0_interrupt := enable_m0_interrupt g; mode := mode g; current_line := current_line g; window_x := window_x g; window_y := window_y g; bg_palette := bg_palette g; obp0_palette := obp0_palette g; obp1_palette := obp1_palette g; scroll_x := scroll_x g; scroll_y := scroll_y g; scanline_counter := scanline_counter g; vblank := vblank g; hblank := hblank g; bgpi_index := v; bgpi_auto_increment := bgpi_auto_increment g; bgpd := bgpd g; obpi_index := obpi_index g; obpi_auto_increment := obpi_auto_increment g; obpd := obpd g; vram_bank := vram_bank g |}.
Definition set_bgpi_auto_increment (g : GPU) (v : bool) : GPU := {| intflag := intflag g; vram := vram g; screen_data := screen_data g; oam := oam g; lyc := lyc g; lcdc := lcdc g; enable_ly_interrupt := enable_ly_interrupt g; enable_m2_interrupt := enable_m2_interrupt g; enable_m1_interrupt := enable_m1_interrupt g; enable_m0_interrupt := enable_m0_interrupt g; mode := mode g; current_line := current_line g; window_x := window_x g; window_y := window_y g; bg_palette := bg_palette g; obp0_palette := obp0_palette g; obp1_palette := obp1_palette g; scroll_x := scroll_x g; scroll_y := scroll_y g; scanline_counter := scanline_counter g; vblank := vblank g; hblank := hblank g; bgpi_index := bgpi_index g; bgpi_auto_increment := v; bgpd := bgpd g; obpi_index := obpi_index g; obpi_auto_increment := obpi_auto_increment g; obpd := obpd g; vram_bank := vram_bank g |}.
Definition set_bgpd (g : GPU) (v : Palettes) : GPU := {| intflag := intflag g; vram := vram g; screen_data := screen_data g; oam := oam g; lyc := lyc g; lcdc := lcdc g; enable_ly_interrupt := enable_ly_interrupt g; enable_m2_interrupt := enable_m2_interrupt g; enable_m1_interrupt := enable_m1_interrupt g; enable_m0_interrupt := enable_m0_interrupt g; mode := mode g; current_line := current_line g; window_x := window_x g; window_y := window_y g; bg_palette := bg_palette g; obp0_palette := obp0_palette g; obp1_palette := obp1_palette g; scroll_x := scroll_x g; scroll_y := scroll_y g; scanline_counter := scanline_counter g; vblank := vblank g; hblank := hblank g; bgpi_index := bgpi_index g; bgpi_auto_increment := bgpi_auto_increment g; bgpd := v; obpi_index := obpi_index g; obpi_auto_increment := obpi_auto_increment g; obpd := obpd g; vram_bank := vram_bank g |}.
Definition set_obpi_index (g : GPU) (v : Z) : GPU := {| intflag := intflag g; vram := vram g; screen_data := screen_data g; oam := oam g; lyc := lyc g; lcdc := lcdc g; enable_ly_interrupt := enable_ly_interrupt g; enable_m2_interrupt := enable_m2_interrupt g; enable_m1_interrupt := enable_m1_interrupt g; enable_m0_interrupt := enable_m0_interrupt g; mode := mode g; current_line := current_line g; window_x := window_x g; window_y := window_y g; bg_palette := bg_palette g; obp0_palette := obp0_palette g; obp1_palette := obp1_palette g; scroll_x := scroll_x g; scroll_y := scroll_y g; scanline_counter := scanline_counter g; vblank := vblank g; hblank := hblank g; bgpi_index := bgpi_index g; bgpi_auto_increment := bgpi_auto_increment g; bgpd := bgpd g; obpi_index := v; obpi_auto_increment := obpi_auto_increment g; obpd := obpd g; vram_bank := vram_bank g |}.
Definition set_obpi_auto_increment (g : GPU) (v : bool) : GPU := {| intflag := intflag g; vram := vram g; screen_data := screen_data g; oam := oam g; lyc := lyc g; lcdc := lcdc g; enable_ly_interrupt := enable_ly_interrupt g; enable_m2_interrupt := enable_m2_interrupt g; enable_m1_interrupt := enable_m1_interrupt g; enable_m0_interrupt := enable_m0_interrupt g; mode := mode g; current_line := current_line g; window_x := window_x g; window_y := window_y g; bg_palette := bg_palette g; obp0_palette := obp0_palette g; obp1_palette := obp1_palette g; scroll_x := scroll_x g; scroll_y := scroll_y g; scanline_counter := scanline_counter g; vblank := vblank g; hblank := hblank g; bgpi_index := bgpi_index g; bgpi_auto_increment := bgpi_auto_increment g; bgpd := bgpd g; obpi_index := obpi_index g; obpi_auto_increment := v; obpd := obpd g; vram_bank := vram_bank g |}.
Definition set_obpd (g : GPU) (v : Palettes) : GPU := {| intflag := intflag g; vram := vram g; screen_data := screen_data g; oam := oam g; lyc := lyc g; lcdc := lcdc g; enable_ly_interrupt := enable_ly_interrupt g; enable_m2_interrupt := enable_m2_interrupt g; enable_m1_interrupt := enable_m1_interrupt g; enable_m0_interrupt := enable_m0_interrupt g; mode := mode g; current_line := current_line g; window_x := window_x g; window_y := window_y g; bg_palette := bg_palette g; obp0_palette := obp0_palette g; obp1_palette := obp1_palette g; scroll_x := scroll_x g; scroll_y := scroll_y g; scanline_counter := scanline_counter g; vblank := vblank g; hblank := hblank g; bgpi_index := bgpi_index g; bgpi_auto_increment := bgpi_auto_increment g; bgpd := bgpd g; obpi_index := obpi_index g; obpi_auto_increment := obpi_auto_increment g; obpd := v; vram_bank := vram_bank g |}.
Definition set_vram_bank (g : GPU) (v : Z) : GPU := {| intflag := intflag g; vram := vram g; screen_data := screen_data g; oam := oam g; lyc := lyc g; lcdc := lcdc g; enable_ly_interrupt := enable_ly_interrupt g; enable_m2_interrupt := enable_m2_interrupt g; enable_m1_interrupt := enable_m1_interrupt g; enable_m0_interrupt := enable_m0_interrupt g; mode := mode g; current_line := current_line g; window_x := window_x g; window_y := window_y g; bg_palette := bg_palette g; obp0_palette := obp0_palette g; obp1_palette := obp1_palette g; scroll_x := scroll_x g; scroll_y := scroll_y g; scanline_counter := scanline_counter g; vblank := vblank g; hblank := hblank g; bgpi_index := bgpi_index g; bgpi_auto_increment := bgpi_auto_increment g; bgpd := bgpd g; obpi_index := obpi_index g; obpi_auto_increment := obpi_auto_increment g; obpd := obpd g; vram_bank := v |}.

(** [self.intref.borrow_mut().set_interrupt(..)] with the interrupt's mask. *)
Definition request (g : GPU) (mask : Z) : GPU := set_intflag g (Z.lor (intflag g) mask).

Definition lcd_enabled (g : GPU) : bool := negb (Z.land (lcdc g) 0x80 =? 0).

(** [palette[r][c][k]] and [palette[r][c][k] = v] on the CGB palette memory. *)
Definition pal_get (p : Palettes) (r c k : Z) : option Z :=
  row ← p !! Z.to_nat r; col ← row !! Z.to_nat c; col !! Z.to_nat k.

Definition pal_set (p : Palettes) (r c k v : Z) : option Palettes :=
  row ← p !! Z.to_nat r; col ← row !! Z.to_nat c;
  if (Z.to_nat k <? length col)%nat
  then Some (<[Z.to_nat r := <[Z.to_nat c := <[Z.to_nat k := v]> col]> row]> p)
  else None.

(** The BGPD/OBPD write of one byte at palette index [index]. *)
Definition palette_write (p : Palettes) (index value : Z) : option Palettes :=
  let r := Z.shiftr index 3 in
  let c := Z.land (Z.shiftr index 1) 0x03 in
  if Z.land index 0x01 =? 0x00 then
    p1 ← pal_set p r c 0 (Z.land value 0x1F);
    old ← pal_get p1 r c 1;
    pal_set p1 r c 1 (Z.lor (Z.land old 0x18) (Z.shiftr value 5))
  else
    old ← pal_get p r c 1;
    p1 ← pal_set p r c 1 (Z.lor (Z.land old 0x07) (Z.shiftl (Z.land value 0x03) 3));
    pal_set p1 r c 2 (Z.land (Z.shiftr value 2) 0x1F).

(** The BGPD/OBPD read at palette index [index] ([u8 << n] drops the bits
    shifted out). *)
Definition palette_read (p : Palettes) (index : Z) : option Z :=
  let r := Z.shiftr index 3 in
  let c := Z.land (Z.shiftr index 1) 3 in
  if Z.land index 0x01 =? 0x00 then
    a ← pal_get p r c 0; b ← pal_get p r c 1;
    Some (Z.lor a (Z.shiftl b 5 mod 256))
  else
    a ← pal_get p r c 1; b ← pal_get p r c 2;
    Some (Z.lor (Z.shiftr a 3) (Z.shiftl b 2 mod 256)).

(** [Gpi::read] *)
Definition gpi_read (index : Z) (auto_increment : bool) : Z :=
  Z.lor (if auto_increment then 0x80 else 0x00) index.

(** [GPU::read_vram] and [GPU::write_vram] *)
Definition read_vram (g : GPU) (address : Z) : option Z :=
  index (vram g) (vram_bank g * 0x2000 + address - 0x8000).

Definition write_vram (g : GPU) (address value : Z) : option GPU :=
  match store (vram g) (vram_bank g * 0x2000 + address - 0x8000) value with
  | Some v => Some (set_vram g v) | None => None
  end.

(** [GPU::read_registers]; the [panic!] arm is [None]. *)
Definition read_registers (g : GPU) (address : Z) : option Z :=
  if address =? 0xFF40 then Some (lcdc g)
  else if address =? 0xFF41 then
    Some (Z.lor (Z.lor (Z.lor (Z.lor (Z.lor
      (if enable_ly_interrupt g then 0x40 else 0x00)
      (if enable_m2_interrupt g then 0x20 else 0x00))
      (if enable_m1_interrupt g then 0x10 else 0x00))
      (if enable_m0_interrupt g then 0x08 else 0x00))
      (if current_line g =? lyc g then 0x04 else 0x00))
      (mode g))
  else if address =? 0xFF42 then Some (scroll_y g)
  else if address =? 0xFF43 then Some (scroll_x g)
  else if address =? 0xFF44 then Some (current_line g)
  else if address =? 0xFF45 then Some (lyc g)
  else if address =? 0xFF47 then Some (bg_palette g)
  else if address =? 0xFF48 then Some (obp0_palette g)
  else if address =? 0xFF49 then Some (obp1_palette g)
  else if address =? 0xFF4A then Some (window_y g)
  else if address =? 0xFF4B then Some (window_x g)
  else if address =? 0xFF4F then Some (Z.lor 0xFE (vram_bank g))
  else if address =? 0xFF68 then Some (gpi_read (bgpi_index g) (bgpi_auto_increment g))
  else if address =? 0xFF69 then palette_read (bgpd g) (bgpi_index g)
  else if address =? 0xFF6A then Some (gpi_read (obpi_index g) (obpi_auto_increment g))
  else if address =? 0xFF6B then palette_read (obpd g) (obpi_index g)
  else None.

(** Turning the LCD off in the 0xFF40 arm of [write_registers]. *)
Definition lcd_off (g : GPU) : GPU :=
  set_vblank (set_screen_data (set_mode (set_current_line (set_scanline_counter g 0) 0) 0)
                white_screen) true.

(** [GPU::write_registers]; the [panic!] arm is [None]. *)
Definition write_registers (g : GPU) (address value : Z) : option GPU :=
  if address =? 0xFF40 then
    let g1 := set_lcdc g value in
    Some (if lcd_enabled g1 then g1 else lcd_off g1)
  else if address =? 0xFF41 then
    Some (set_enable_m0_interrupt (set_enable_m1_interrupt (set_enable_m2_interrupt
           (set_enable_ly_interrupt g (negb (Z.land value 0x40 =? 0x00)))
           (negb (Z.land value 0x20 =? 0x00))) (negb (Z.land value 0x10 =? 0x00)))
           (negb (Z.land value 0x08 =? 0x00)))
  else if address =? 0xFF42 then Some (set_scroll_y g value)
  else if address =? 0xFF43 then Some (set_scroll_x g value)
  else if address =? 0xFF44 then Some (set_current_line g 0)
  else if address =? 0xFF45 then Some (set_lyc g value)
  else if address =? 0xFF47 then Some (set_bg_palette g value)
  else if address =? 0xFF48 then Some (set_obp0_palette g value)
  else if address =? 0xFF49 then Some (set_obp1_palette g value)
  else if address =? 0xFF4A then Some (set_window_y g value)
  else if address =? 0xFF4B then Some (set_window_x g value)
  else if address =? 0xFF4F then Some (set_vram_bank g (Z.land value 0x01))
  else if address =? 0xFF68 then
    Some (set_bgpi_index (set_bgpi_auto_increment g (negb (Z.land value 0x80 =? 0x00)))
            (Z.land value 0x3f))
  else if address =? 0xFF69 then
    match palette_write (bgpd g) (bgpi_index g) value with
    | None => None
    | Some p =>
        let g1 := set_bgpd g p in
        Some (if bgpi_auto_increment g1
              then set_bgpi_index g1 (Z.land (bgpi_index g1 + 0x01) 0x3f) else g1)
    end
  else if address =? 0xFF6A then
    Some (set_obpi_index (set_obpi_auto_increment g (negb (Z.land value 0x80 =? 0x00)))
            (Z.land value 0x3f))
  else if address =? 0xFF6B then
    match palette_write (obpd g) (obpi_index g) value with
    | None => None
    | Some p =>
        let g1 := set_obpd g p in
        Some (if obpi_auto_increment g1
              then set_obpi_index g1 (Z.land (obpi_index g1 + 0x01) 0x3f) else g1)
    end
  else None.

Section ModeMachine.

(** [GPU::draw_scanline] renders the background/window and the sprites of
    line [current_line] into [screen_data]; its result is only the new
    framebuffer, so it is a parameter of the mode machine. *)
Variable draw_scanline : GPU -> Screen.

(** One round of the [for i in 0..c] loop of [update_graphics]. *)
Definition scan_step (cycles c i : Z) (g : GPU) : GPU :=
  let g1 := set_scanline_counter g
              (scanline_counter g + (if i =? c - 1 then cycles mod 80 else 80)) in
  let d := scanline_counter g1 in
  let g2 := set_scanline_counter g1 (d mod 456) in
  let g3 :=
    if negb (d =? scanline_counter g2) then
      let g' := set_current_line g2 (((current_line g2 + 1) mod 256) mod 154) in
      if enable_ly_interrupt g' && (current_line g' =? lyc g') then request g' 0x02 else g'
    else g2 in
  if current_line g3 >=? 144 then
    (if mode g3 =? 1 then g3
     else
       let g4 := request (set_vblank (set_mode g3 1) true) 0x01 in
       if enable_m1_interrupt g4 then request g4 0x02 else g4)
  else if scanline_counter g3 <=? 80 then
    (if mode g3 =? 2 then g3
     else
       let g4 := set_mode g3 2 in
       if enable_m2_interrupt g4 then request g4 0x02 else g4)
  else if scanline_counter g3 <=? 80 + 172 then set_mode g3 3
  else
    (if mode g3 =? 0 then g3
     else
       let g4 := set_hblank (set_mode g3 0) true in
       let g5 := if enable_m0_interrupt g4 then request g4 0x02 else g4 in
       set_screen_data g5 (draw_scanline g5)).

Fixpoint scan_loop (k : nat) (i cycles c : Z) (g : GPU) : GPU :=
  match k with
  | O => g
  | S k' => scan_loop k' (i + 1) cycles c (scan_step cycles c i g)
  end.

(** [GPU::update_graphics] *)
Definition update_graphics (g : GPU) (cycles : Z) : GPU :=
  let g := set_hblank g false in
  if negb (lcd_enabled g) then g
  else if cycles =? 0 then g
  else
    let c := (cycles - 1) / 80 + 1 in
    scan_loop (Z.to_nat c) 0 cycles c g.

(** The operations that change the PPU: the mode machine ticks, register
    writes that do not panic, and the bus's stores into VRAM and OAM
    (including OAM DMA). *)
Inductive reachable : GPU -> Prop :=
  | reach_new : reachable new
  | reach_tick g cycles : reachable g -> 0 <= cycles -> reachable (update_graphics g cycles)
  | reach_write g address value g' :
      reachable g -> write_registers g address value = Some g' -> reachable g'
  | reach_vram g address value g' :
      reachable g -> write_vram g address value = Some g' -> reachable g'
  | reach_oam g i value o :
      reachable g -> store (oam g) i value = Some o -> reachable (set_oam g o).

End ModeMachine.

(** The bounds part of the PPU invariant. *)
Definition ly_mode_bounds (g : GPU) : Prop :=
  0 <= current_line g <= 153 /\ 0 <= mode g <= 3.

(** The PPU invariant: LY and mode in range, and a disabled LCD shows
    line 0, mode 0 and a white framebuffer. *)
Definition ppu_inv (g : GPU) : Prop :=
  ly_mode_bounds g /\
  (lcd_enabled g = false -> current_line g = 0 /\ mode g = 0 /\ screen_data g = white_screen).

Lemma scan_step_inv draw cycles c i g :
  ly_mode_bounds g ->
  ly_mode_bounds (scan_step draw cycles c i g) /\ lcdc (scan_step draw cycles c i g) = lcdc g.
Proof.
  unfold ly_mode_bounds, scan_step, request. intros [Hl Hm]. cbn zeta.
  pose proof (Z.mod_pos_bound ((current_line g + 1) mod 256) 154 ltac:(lia)).
  repeat case_match; simpl in *; split; try split; try lia; reflexivity.
Qed.

Lemma scan_loop_inv draw k i cycles c g :
  ly_mode_bounds g ->
  ly_mode_bounds (scan_loop draw k i cycles c g) /\ lcdc (scan_loop draw k i cycles c g) = lcdc g.
Proof.
  revert i g. induction k as [|k IH]; intros i g H; simpl; [split; auto|].
  destruct (scan_step_inv draw cycles c i g H) as [H1 E1].
  destruct (IH (i + 1) _ H1) as [H2 E2]. split; [exact H2 | congruence].
Qed.

Lemma update_graphics_inv draw g cycles :
  ppu_inv g -> ppu_inv (update_graphics draw g cycles).
Proof.
  unfold update_graphics, ppu_inv, lcd_enabled. intros [Hb Hoff]. cbn zeta.
  destruct (Z.land (lcdc (set_hblank g false)) 0x80 =? 0) eqn:E; simpl in *.
  { split; [exact Hb|]. intros _. apply Hoff. rewrite E. reflexivity. }
  destruct (cycles =? 0); simpl.
  { split; [exact Hb|]. rewrite E. discriminate. }
  destruct (scan_loop_inv draw (Z.to_nat ((cycles - 1) / 80 + 1)) 0 cycles
              ((cycles - 1) / 80 + 1) (set_hblank g false) Hb) as [H1 E1].
  split; [exact H1|]. rewrite E1. simpl. rewrite E. discriminate.
Qed.

Lemma write_registers_inv g address value g' :
  ppu_inv g -> write_registers g address value = Some g' -> ppu_inv g'.
Proof.
  unfold ppu_inv, ly_mode_bounds, write_registers, lcd_off, lcd_enabled.
  intros [[Hl Hm] Hoff].
  repeat case_match; intros Heq; try discriminate; injection Heq as <-; simpl in *;
    repeat split; try lia; try discriminate; try congruence;
    intros; edestruct Hoff as (? & ? & ?); eauto.
Qed.

Lemma reachable_inv draw g : reachable draw g -> ppu_inv g.
Proof.
  induction 1 as [| g cycles _ IH _ | g address value g' _ IH Hw
                  | g address value g' _ IH Hw | g i value o _ IH _].
  - unfold ppu_inv, ly_mode_bounds. simpl. repeat split; lia.
  - apply update_graphics_inv, IH.
  - eapply write_registers_inv; eauto.
  - unfold write_vram in Hw. destruct (store _ _ _); [|discriminate].
    injection Hw as <-. exact IH.
  - exact IH.
Qed.

Lemma write_lcdc_off g value g' :
  write_registers g 0xFF40 value = Some g' -> Z.land value 0x80 = 0 ->
  current_line g' = 0 /\ mode g' = 0 /\ screen_data g' = white_screen /\ vblank g' = true /\
  lcd_enabled g' = false.
Proof.
  unfold write_registers, lcd_enabled. simpl. intros Heq Hv.
  rewrite Hv in Heq. simpl in Heq. injection Heq as <-. simpl.
  rewrite Hv. repeat split.
Qed.

End Gpu.

(** ** src/system/timer.rs

    [intflag] is the [interrupt_flag] of the [Interrupt] cell the timer
    shares with the CPU through [intref]. Counters are [u32]; their
    [+=] is written with the release-build wrap-around. *)
Module Timer.

Record Timer := {
  intflag : Z;
  tima : Z;
  clock_counter : Z;
  divider_register : Z;
  divider_counter : Z;
  tma : Z;
  input_clock_speed : Z;
  clock_enabled : bool;
}.

Definition new : Timer := {|
  intflag := 0; tima := 0; divider_register := 0; divider_counter := 0;
  tma := 0; clock_counter := 1024; input_clock_speed := 1024;
  clock_enabled := false |}.

Definition u32_add (x y : Z) : Z := (x + y) mod 2 ^ 32.

(** [Interrupt::set_interrupt(Interrupts::Timer)]: OR 0x04 into IF. *)
Definition set_timer_interrupt (t : Timer) : Timer :=
  {| intflag := Z.lor (intflag t) 0x04; tima := tima t; clock_counter := clock_counter t;
     divider_register := divider_register t; divider_counter := divider_counter t;
     tma := tma t; input_clock_speed := input_clock_speed t;
     clock_enabled := clock_enabled t |}.

Definition with_tima (t : Timer) (v : Z) : Timer :=
  {| intflag := intflag t; tima := v; clock_counter := clock_counter t;
     divider_register := divider_register t; divider_counter := divider_counter t;
     tma := tma t; input_clock_speed := input_clock_speed t;
     clock_enabled := clock_enabled t |}.

Definition with_divider (t : Timer) (reg cnt : Z) : Timer :=
  {| intflag := intflag t; tima := tima t; clock_counter := clock_counter t;
     divider_register := reg; divider_counter := cnt;
     tma := tma t; input_clock_speed := input_clock_speed t;
     clock_enabled := clock_enabled t |}.

Definition with_tma (t : Timer) (v : Z) : Timer :=
  {| intflag := intflag t; tima := tima t; clock_counter := clock_counter t;
     divider_register := divider_register t; divider_counter := divider_counter t;
     tma := v; input_clock_speed := input_clock_speed t;
     clock_enabled := clock_enabled t |}.

Definition with_tac (t : Timer) (enabled : bool) (speed : Z) : Timer :=
  {| intflag := intflag t; tima := tima t; clock_counter := clock_counter t;
     divider_register := divider_register t; divider_counter := divider_counter t;
     tma := tma t; input_clock_speed := speed; clock_enabled := enabled |}.

Definition with_clock_counter (t : Timer) (cnt : Z) : Timer :=
  {| intflag := intflag t; tima := tima t; clock_counter := cnt;
     divider_register := divider_register t; divider_counter := divider_counter t;
     tma := tma t; input_clock_speed := input_clock_speed t;
     clock_enabled := clock_enabled t |}.

(** [while self.divider_counter > 256 { DIV += 1 (wrapping); counter -= 256 }].
    The loop runs at most [counter / 256] times, so [S (counter / 256)]
    rounds of fuel always reach its exit (see [divider_loop_exits]). *)
Fixpoint divider_loop (fuel : nat) (reg cnt : Z) : Z * Z :=
  match fuel with
  | O => (reg, cnt)
  | S fuel' =>
      if cnt >? 256 then divider_loop fuel' ((reg + 1) mod 256) (cnt - 256)
      else (reg, cnt)
  end.

Definition divider_fuel (cnt : Z) : nat := S (Z.to_nat (cnt / 256)).

(** One round of [for _ in 0..rs]: TIMA wraps, and on reaching 0x00 it is
    reloaded from TMA and the Timer interrupt is requested. *)
Definition tima_tick (t : Timer) : Timer :=
  let t1 := with_tima t ((tima t + 1) mod 256) in
  if tima t1 =? 0 then set_timer_interrupt (with_tima t1 (tma t1)) else t1.

Fixpoint tima_loop (rs : nat) (t : Timer) : Timer :=
  match rs with
  | O => t
  | S rs' => tima_loop rs' (tima_tick t)
  end.

(** The divider half of [update_timers]. *)
Definition update_divider (t : Timer) (cycles : Z) : Timer :=
  let cnt := u32_add (divider_counter t) cycles in
  let '(reg, cnt') := divider_loop (divider_fuel cnt) (divider_register t) cnt in
  with_divider t reg cnt'.

(** [Timer::update_timers] *)
Definition update_timers (t : Timer) (cycles : Z) : Timer :=
  let t1 := update_divider t cycles in
  if clock_enabled t1 then
    let cc := u32_add (clock_counter t1) cycles in
    let rs := cc / input_clock_speed t1 in
    let t2 := with_clock_counter t1 (cc mod input_clock_speed t1) in
    tima_loop (Z.to_nat rs) t2
  else t1.

(** The number of TIMA increments of one call, and the state the
    increments start from. *)
Definition tima_increments (t : Timer) (cycles : Z) : nat :=
  let t1 := update_divider t cycles in
  Z.to_nat (u32_add (clock_counter t1) cycles / input_clock_speed t1).

Definition before_increments (t : Timer) (cycles : Z) : Timer :=
  let t1 := update_divider t cycles in
  with_clock_counter t1 (u32_add (clock_counter t1) cycles mod input_clock_speed t1).

Lemma divider_loop_exits fuel reg cnt :
  0 <= cnt -> (cnt / 256 < Z.of_nat fuel) ->
  snd (divider_loop fuel reg cnt) <= 256.
Proof.
  revert reg cnt. induction fuel as [|fuel IH]; intros reg cnt H0 Hf.
  { pose proof (Z.div_pos cnt 256 H0 ltac:(lia)). simpl in Hf. lia. }
  simpl.
  destruct (cnt >? 256) eqn:E; simpl.
  - apply Z.gtb_lt in E. apply IH; [lia|].
    assert ((cnt - 256) / 256 = cnt / 256 - 1) as ->.
    { replace (cnt - 256) with (cnt + (-1) * 256) by lia. rewrite Z.div_add; lia. }
    lia.
  - rewrite Z.gtb_ltb in E. apply Z.ltb_ge in E. simpl. lia.
Qed.

Lemma update_divider_counter_le t cycles :
  divider_counter (update_divider t cycles) <= 256.
Proof.
  unfold update_divider.
  pose proof (divider_loop_exits (divider_fuel (u32_add (divider_counter t) cycles))
                (divider_register t) (u32_add (divider_counter t) cycles)) as Hx.
  destruct (divider_loop _ _ _) as [reg cnt'] eqn:E. simpl in *.
  apply Hx; unfold u32_add, divider_fuel.
  - apply Z.mod_pos_bound; lia.
  - lia.
Qed.

Lemma update_timers_enabled t cycles :
  clock_enabled t = true ->
  update_timers t cycles = tima_loop (tima_increments t cycles) (before_increments t cycles).
Proof.
  intros Hen. unfold update_timers, tima_increments, before_increments.
  assert (clock_enabled (update_divider t cycles) = true) as ->.
  { unfold update_divider. destruct (divider_loop _ _ _). exact Hen. }
  reflexivity.
Qed.

Lemma tima_loop_iter n t : tima_loop n t = Nat.iter n tima_tick t.
Proof.
  revert t. induction n as [|n IH]; intros t; [reflexivity|].
  simpl. rewrite IH. rewrite <- Nat.iter_succ_r. reflexivity.
Qed.

Lemma tima_tick_intflag t k :
  Z.testbit (intflag t) k = true -> Z.testbit (intflag (tima_tick t)) k = true.
Proof.
  unfold tima_tick. destruct (_ =? 0); simpl; [|auto].
  intros H. rewrite Z.lor_spec, H. reflexivity.
Qed.

Lemma tima_loop_intflag n t k :
  Z.testbit (intflag t) k = true -> Z.testbit (intflag (tima_loop n t)) k = true.
Proof.
  revert t. induction n as [|n IH]; intros t H; simpl; auto using tima_tick_intflag.
Qed.

Lemma tima_tick_tma t : tma (tima_tick t) = tma t.
Proof. unfold tima_tick. destruct (_ =? 0); reflexivity. Qed.

Lemma update_divider_tma t cycles : tma (update_divider t cycles) = tma t.
Proof. unfold update_divider. destruct (divider_loop _ _ _). reflexivity. Qed.

Lemma before_increments_tma t cycles : tma (before_increments t cycles) = tma t.
Proof. unfold before_increments. simpl. apply update_divider_tma. Qed.

Lemma iter_tma n t : tma (Nat.iter n tima_tick t) = tma t.
Proof.
  induction n as [|n IH]; [reflexivity|]. simpl. rewrite tima_tick_tma. exact IH.
Qed.

End Timer.

(** ** src/system/interrupts.rs, joypad.rs, serial.rs, gpu.rs (HDMA) and
    bus.rs: the memory bus *)
Module Bus.

(** [Interrupt]: IE, IF, IME and the [interrupt_delay] latch. *)
Record Interrupt := {
  interrupt_enable : Z;
  interrupt_flag : Z;
  interrupt_master_enable : bool;
  interrupt_delay : bool;
}.

Record Joypad := { matrix : Z; select : Z }.

(** [Joypad::get_joypad_state] *)
Definition get_joypad_state (j : Joypad) : Z :=
  if Z.land (select j) 0x10 =? 0x00 then Z.lor (select j) (Z.land (matrix j) 0x0f)
  else if Z.land (select j) 0x20 =? 0x00 then Z.lor (select j) (Z.shiftr (matrix j) 4)
  else select j.

Record Serial := { data : Z; control : Z }.

(** [Serial::read_serial]; [unreachable!()] is [None]. *)
Definition read_serial (sr : Serial) (address : Z) : option Z :=
  if address =? 0xFF01 then Some (data sr)
  else if address =? 0xFF02 then Some (control sr)
  else None.

Definition write_serial (sr : Serial) (address value : Z) : option Serial :=
  if address =? 0xFF01 then Some {| data := value; control := control sr |}
  else if address =? 0xFF02 then Some {| data := data sr; control := value |}
  else None.

Inductive HDMAMode := GDMA | HDMAm.

Record HDMA := {
  source : Z;
  destination : Z;
  active : bool;
  hmode : HDMAMode;
  remain : Z;
}.

Definition hdma_mode_eqb (x y : HDMAMode) : bool :=
  match x, y with GDMA, GDMA | HDMAm, HDMAm => true | _, _ => false end.

(** [HDMA::read_hdma] (gpu.rs), arm for arm; [unreachable!()] is [None]. *)
Definition read_hdma (hd : HDMA) (address : Z) : option Z :=
  if address =? 0xFF51 then Some (Z.shiftr (source hd) 8 mod 256)
  else if address =? 0xFF52 then Some (source hd mod 256)
  else if address =? 0xFF43 then Some (Z.shiftr (destination hd) 8 mod 256)
  else if address =? 0xFF54 then Some (destination hd mod 256)
  else if address =? 0xFF55 then Some (Z.lor (remain hd) (if active hd then 0x00 else 0x80))
  else None.

(** [HDMA::write_hdma] *)
Definition write_hdma (hd : HDMA) (address value : Z) : option HDMA :=
  let '(Build_HDMA src dst act md rem) := hd in
  if address =? 0xFF51 then
    Some (Build_HDMA (Z.lor (Z.shiftl value 8) (Z.land src 0x00FF)) dst act md rem)
  else if address =? 0xFF52 then
    Some (Build_HDMA (Z.lor (Z.land src 0xFF00) (Z.land value 0xF0)) dst act md rem)
  else if address =? 0xFF53 then
    Some (Build_HDMA src (Z.lor (Z.lor 0x8000 (Z.shiftl (Z.land value 0x1F) 8))
                               (Z.land dst 0x00FF)) act md rem)
  else if address =? 0xFF54 then
    Some (Build_HDMA src (Z.lor (Z.land dst 0xFF00) (Z.land value 0xF0)) act md rem)
  else if address =? 0xFF55 then
    if act && hdma_mode_eqb md HDMAm then
      Some (Build_HDMA src dst (if Z.land value 0x80 =? 0x00 then false else act) md rem)
    else
      Some (Build_HDMA src dst true
              (if negb (Z.land value 0x80 =? 0x00) then HDMAm else GDMA)
              (Z.land value 0x7F))
  else None.

Inductive Speed := Regular | Double.

(** Modelled from the spec: the constants [HRAM_BEGIN]/[HRAM_END] and the
    MMU fields [wram_bank] and [hram] that bus.rs uses are not among the
    sources; the memory map puts HRAM at FF80-FFFE. *)
Definition HRAM_BEGIN : Z := 0xFF80.
Definition HRAM_END : Z := 0xFFFE.

Record MemoryBus := {
  intref : Interrupt;
  wram : list Z;
  wram_bank : Z;
  hram : list Z;
  cartridge : Cartridge.Cartridge;
  gpu : Gpu.GPU;
  keys : Joypad;
  timer : Timer.Timer;
  sound_data : list Z;
  serial : Serial;
  run_bootrom : bool;
  bootrom : list Z;
  speed : Speed;
  speed_shift : bool;
  hdma : HDMA;
}.

Definition set_intref (b : MemoryBus) (v : Interrupt) : MemoryBus :=
  {| intref := v; wram := wram b; wram_bank := wram_bank b; hram := hram b; cartridge := cartridge b; gpu := gpu b; keys := keys b; timer := timer b; sound_data := sound_data b; serial := serial b; run_bootrom := run_bootrom b; bootrom := bootrom b; speed := speed b; speed_shift := speed_shift b; hdma := hdma b |}.
Definition set_wram (b : MemoryBus) (v : list Z) : MemoryBus :=
  {| intref := intref b; wram := v; wram_bank := wram_bank b; hram := hram b; cartridge := cartridge b; gpu := gpu b; keys := keys b; timer := timer b; sound_data := sound_data b; serial := serial b; run_bootrom := run_bootrom b; bootrom := bootrom b; speed := speed b; speed_shift := speed_shift b; hdma := hdma b |}.
Definition set_wram_bank (b : MemoryBus) (v : Z) : MemoryBus :=
  {| intref := intref b; wram := wram b; wram_bank := v; hram := hram b; cartridge := cartridge b; gpu := gpu b; keys := keys b; timer := timer b; sound_data := sound_data b; serial := serial b; run_bootrom := run_bootrom b; bootrom := bootrom b; speed := speed b; speed_shift := speed_shift b; hdma := hdma b |}.
Definition set_hram (b : MemoryBus) (v : list Z) : MemoryBus :=
  {| intref := intref b; wram := wram b; wram_bank := wram_bank b; hram := v; cartridge := cartridge b; gpu := gpu b; keys := keys b; timer := timer b; sound_data := sound_data b; serial := serial b; run_bootrom := run_bootrom b; bootrom := bootrom b; speed := speed b; speed_shift := speed_shift b; hdma := hdma b |}.
Definition set_cartridge (b : MemoryBus) (v : Cartridge.Cartridge) : MemoryBus :=
  {| intref := intref b; wram := wram b; wram_bank := wram_bank b; hram := hram b; cartridge := v; gpu := gpu b; keys := keys b; timer := timer b; sound_data := sound_data b; serial := serial b; run_bootrom := run_bootrom b; bootrom := bootrom b; speed := speed b; speed_shift := speed_shift b; hdma := hdma b |}.
Definition set_gpu (b : MemoryBus) (v : Gpu.GPU) : MemoryBus :=
  {| intref := intref b; wram := wram b; wram_bank := wram_bank b; hram := hram b; cartridge := cartridge b; gpu := v; keys := keys b; timer := timer b; sound_data := sound_data b; serial := serial b; run_bootrom := run_bootrom b; bootrom := bootrom b; speed := speed b; speed_shift := speed_shift b; hdma := hdma b |}.
Definition set_keys (b : MemoryBus) (v : Joypad) : MemoryBus :=
  {| intref := intref b; wram := wram b; wram_bank := wram_bank b; hram := hram b; cartridge := cartridge b; gpu := gpu b; keys := v; timer := timer b; sound_data := sound_data b; serial := serial b; run_bootrom := run_bootrom b; bootrom := bootrom b; speed := speed b; speed_shift := speed_shift b; hdma := hdma b |}.
Definition set_timer (b : MemoryBus) (v : Timer.Timer) : MemoryBus :=
  {| intref := intref b; wram := wram b; wram_bank := wram_bank b; hram := hram b; cartridge := cartridge b; gpu := gpu b; keys := keys b; timer := v; sound_data := sound_data b; serial := serial b; run_bootrom := run_bootrom b; bootrom := bootrom b; speed := speed b; speed_shift := speed_shift b; hdma := hdma b |}.
Definition set_sound_data (b : MemoryBus) (v : list Z) : MemoryBus :=
  {| intref := intref b; wram := wram b; wram_bank := wram_bank b; hram := hram b; cartridge := cartridge b; gpu := gpu b; keys := keys b; timer := timer b; sound_data := v; serial := serial b; run_bootrom := run_bootrom b; bootrom := bootrom b; speed := speed b; speed_shift := speed_shift b; hdma := hdma b |}.
Definition set_serial (b : MemoryBus) (v : Serial) : MemoryBus :=
  {| intref := intref b; wram := wram b; wram_bank := wram_bank b; hram := hram b; cartridge := cartridge b; gpu := gpu b; keys := keys b; timer := timer b; sound_data := sound_data b; serial := v; run_bootrom := run_bootrom b; bootrom := bootrom b; speed := speed b; speed_shift := speed_shift b; hdma := hdma b |}.
Definition set_run_bootrom (b : MemoryBus) (v : bool) : MemoryBus :=
  {| intref := intref b; wram := wram b; wram_bank := wram_bank b; hram := hram b; cartridge := cartridge b; gpu := gpu b; keys := keys b; timer := timer b; sound_data := sound_data b; serial := serial b; run_bootrom := v; bootrom := bootrom b; speed := speed b; speed_shift := speed_shift b; hdma := hdma b |}.
Definition set_bootrom (b : MemoryBus) (v : list Z) : MemoryBus :=
  {| intref := intref b; wram := wram b; wram_bank := wram_bank b; hram := hram b; cartridge := cartridge b; gpu := gpu b; keys := keys b; timer := timer b; sound_data := sound_data b; serial := serial b; run_bootrom := run_bootrom b; bootrom := v; speed := speed b; speed_shift := speed_shift b; hdma := hdma b |}.
Definition set_speed (b : MemoryBus) (v : Speed) : MemoryBus :=
  {| intref := intref b; wram := wram b; wram_bank := wram_bank b; hram := hram b; cartridge := cartridge b; gpu := gpu b; keys := keys b; timer := timer b; sound_data := sound_data b; serial := serial b; run_bootrom := run_bootrom b; bootrom := bootrom b; speed := v; speed_shift := speed_shift b; hdma := hdma b |}.
Definition set_speed_shift (b : MemoryBus) (v : bool) : MemoryBus :=
  {| intref := intref b; wram := wram b; wram_bank := wram_bank b; hram := hram b; cartridge := cartridge b; gpu := gpu b; keys := keys b; timer := timer b; sound_data := sound_data b; serial := serial b; run_bootrom := run_bootrom b; bootrom := bootrom b; speed := speed b; speed_shift := v; hdma := hdma b |}.
Definition set_hdma (b : MemoryBus) (v : HDMA) : MemoryBus :=
  {| intref := intref b; wram := wram b; wram_bank := wram_bank b; hram := hram b; cartridge := cartridge b; gpu := gpu b; keys := keys b; timer := timer b; sound_data := sound_data b; serial := serial b; run_bootrom := run_bootrom b; bootrom := bootrom b; speed := speed b; speed_shift := speed_shift b; hdma := v |}.

(** [MemoryBus::read_byte], arm for arm in the order of its [match];
    a panic in any callee is [None]. *)
Definition read_byte (b : MemoryBus) (address : Z) : option Z :=
  if in_range address 0x0000 0x7FFF then
    (if run_bootrom b && (address <=? 0xFF) then index (bootrom b) address
     else Cartridge.read_byte (cartridge b) address)
  else if in_range address 0xA000 0xBFFF then Cartridge.read_byte (cartridge b) address
  else if in_range address 0x8000 0x9FFF then Gpu.read_vram (gpu b) address
  else if in_range address 0xC000 0xCFFF then index (wram b) (address - 0xC000)
  else if in_range address 0xD000 0xDFFF then
    index (wram b) (address - 0xD000 + 0x1000 * wram_bank b)
  else if in_range address 0xE000 0xEFFF then index (wram b) (address - 0xE000)
  else if in_range address 0xF000 0xFDFF then
    index (wram b) (address - 0xF000 + 0x1000 * wram_bank b)
  else if in_range address 0xFE00 0xFE9F then index (Gpu.oam (gpu b)) (address - 0xFE00)
  else if in_range address 0xFF40 0xFF4B then Gpu.read_registers (gpu b) address
  else if in_range address HRAM_BEGIN HRAM_END then index (hram b) (address - HRAM_BEGIN)
  else if in_range address 0xFEA0 0xFEFF then Some 0x00
  else if address =? 0xFF00 then Some (get_joypad_state (keys b))
  else if address =? 0xFF0F then Some (interrupt_flag (intref b))
  else if address =? 0xFFFF then Some (interrupt_enable (intref b))
  else if address =? 0xFF04 then Some (Timer.divider_register (timer b))
  else if address =? 0xFF05 then Some (Timer.tima (timer b))
  else if address =? 0xFF07 then
    let clock := if Timer.clock_enabled (timer b) then 1 else 0 in
    let sp := Timer.input_clock_speed (timer b) in
    let spd := if sp =? 1024 then 0 else if sp =? 6 then 1 else if sp =? 64 then 2
               else if sp =? 256 then 3 else 0 in
    Some (Z.lor (Z.shiftl clock 2) spd)
  else if in_range address 0xFF10 0xFF3F then index (sound_data b) (address - 0xFF10)
  else if in_range address 0xFF01 0xFF02 then read_serial (serial b) address
  else if address =? 0xFF4D then
    Some (Z.lor (match speed b with Double => 0x80 | Regular => 0x00 end)
                (if speed_shift b then 0x01 else 0x00))
  else if in_range address 0xFF51 0xFF55 then read_hdma (hdma b) address
  else if in_range address 0xFF68 0xFF6B then Gpu.read_registers (gpu b) address
  else if address =? 0xFF70 then Some (wram_bank b mod 256)
  else Some 0x00.

Definition with_cart (b : MemoryBus) (r : option Cartridge.Cartridge) : option MemoryBus :=
  match r with Some c => Some (set_cartridge b c) | None => None end.
Definition with_gpu (b : MemoryBus) (r : option Gpu.GPU) : option MemoryBus :=
  match r with Some g => Some (set_gpu b g) | None => None end.
Definition with_wram (b : MemoryBus) (r : option (list Z)) : option MemoryBus :=
  match r with Some w => Some (set_wram b w) | None => None end.
Definition set_if (b : MemoryBus) (v : Z) : MemoryBus :=
  let i := intref b in
  set_intref b {| interrupt_enable := interrupt_enable i; interrupt_flag := v;
                  interrupt_master_enable := interrupt_master_enable i;
                  interrupt_delay := interrupt_delay i |}.
Definition set_ie (b : MemoryBus) (v : Z) : MemoryBus :=
  let i := intref b in
  set_intref b {| interrupt_enable := v; interrupt_flag := interrupt_flag i;
                  interrupt_master_enable := interrupt_master_enable i;
                  interrupt_delay := interrupt_delay i |}.

(** The OAM DMA loop [for i in 0..=0x9F { oam[i] = self.read_byte(src + i) }]. *)
Fixpoint dma_loop (k : nat) (i src : Z) (b : MemoryBus) : option MemoryBus :=
  match k with
  | O => Some b
  | S k' =>
      match read_byte b (src + i) with
      | None => None
      | Some v =>
          match store (Gpu.oam (gpu b)) i v with
          | None => None
          | Some o => dma_loop k' (i + 1) src (set_gpu b (Gpu.set_oam (gpu b) o))
          end
      end
  end.

(** [MemoryBus::write_byte], arm for arm; [now] is the wall clock the
    cartridge's MBC3 latch reads. *)
Definition write_byte (b : MemoryBus) (address value now : Z) : option MemoryBus :=
  if in_range address 0x0000 0x7FFF then
    with_cart b (Cartridge.write_byte (cartridge b) address value now)
  else if in_range address 0xA000 0xBFFF then
    with_cart b (Cartridge.write_byte (cartridge b) address value now)
  else if address =? 0xFF00 then
    Some (set_keys b {| matrix := matrix (keys b); select := value |})
  else if in_range address 0x8000 0x9FFF then with_gpu b (Gpu.write_vram (gpu b) address value)
  else if in_range address 0xC000 0xCFFF then with_wram b (store (wram b) (address - 0xC000) value)
  else if in_range address 0xD000 0xDFFF then
    with_wram b (store (wram b) (address - 0xD000 + 0x1000 * wram_bank b) value)
  else if in_range address 0xE000 0xEFFF then with_wram b (store (wram b) (address - 0xE000) value)
  else if in_range address 0xF000 0xFDFF then
    with_wram b (store (wram b) (address - 0xF000 + 0x1000 * wram_bank b) value)
  else if address =? 0xFF0F then Some (set_if b value)
  else if address =? 0xFF04 then
    Some (set_timer b (Timer.with_divider (timer b) 0 (Timer.divider_counter (timer b))))
  else if address =? 0xFF05 then Some (set_timer b (Timer.with_tima (timer b) value))
  else if address =? 0xFF06 then Some (set_timer b (Timer.with_tma (timer b) value))
  else if address =? 0xFF07 then
    let new_speed := let v := Z.land value 0x03 in
      if v =? 0 then 1024 else if v =? 1 then 16 else if v =? 2 then 64
      else if v =? 3 then 256 else 1024 in
    Some (set_timer b (Timer.with_tac (timer b) (negb (Z.land value 0x04 =? 0)) new_speed))
  else if in_range address 0xFF10 0xFF3F then
    match store (sound_data b) (address - 0xFF10) value with
    | Some sd => Some (set_sound_data b sd) | None => None end
  else if in_range address 0xFF01 0xFF02 then
    match write_serial (serial b) address value with
    | Some sr => Some (set_serial b sr) | None => None end
  else if in_range address HRAM_BEGIN HRAM_END then
    match store (hram b) (address - HRAM_BEGIN) value with
    | Some hr => Some (set_hram b hr) | None => None end
  else if in_range address 0xFE00 0xFE9F then
    match store (Gpu.oam (gpu b)) (address - 0xFE00) value with
    | Some o => Some (set_gpu b (Gpu.set_oam (gpu b) o)) | None => None end
  else if in_range address 0xFEA0 0xFEFF then Some b
  else if address =? 0xFF4D then Some (set_speed_shift b (Z.land value 0x01 =? 0x01))
  else if in_range address 0xFF51 0xFF55 then
    match write_hdma (hdma b) address value with
    | Some hd => Some (set_hdma b hd) | None => None end
  else if in_range address 0xFF68 0xFF6B then
    with_gpu b (Gpu.write_registers (gpu b) address value)
  else if address =? 0xFF70 then
    Some (set_wram_bank b (let v := Z.land value 0x07 in if v =? 0 then 1 else v))
  else if address =? 0xFFFF then Some (set_ie b value)
  else if in_range address 0xFF40 0xFF4B || (address =? 0xFF4F) then
    (if address =? 0xFF46 then dma_loop 0xA0 0 (Z.shiftl value 8) b
     else with_gpu b (Gpu.write_registers (gpu b) address value))
  else Some b.

Definition u16_add (x y : Z) : Z := (x + y) mod 2 ^ 16.

Section WriteWord.

Context {B : Type}.
Variable write_byte : B -> Z -> Z -> option B.

(** [MemoryBus::write_word] of bus.rs, over any [write_byte]: [lower] is
    the high byte and [higher] the low byte, as the source names them. *)
Definition write_word (b : B) (address word : Z) : option B :=
  let lower := Z.shiftr word 8 in
  let higher := Z.land word 0xFF in
  match write_byte b address higher with
  | None => None
  | Some b1 => write_byte b1 (u16_add address 1) lower
  end.

End WriteWord.

(** A DMG-sized bus after power-on: 8 WRAM banks, 127 bytes of HRAM, an
    MBC5 cartridge without RAM, and a fresh PPU and timer. *)
Definition example : MemoryBus := {|
  intref := {| interrupt_enable := 0; interrupt_flag := 0;
               interrupt_master_enable := true; interrupt_delay := false |};
  wram := repeat 0 (Z.to_nat 0x8000); wram_bank := 1; hram := repeat 0 (Z.to_nat 0x7F);
  cartridge := {| Cartridge.game_rom := repeat 0 (Z.to_nat 0x8000); Cartridge.game_ram := [];
                  Cartridge.ram_enabled := false; Cartridge.bank_mode := Cartridge.Rom;
                  Cartridge.rtc := {| Rtc.s := 0; Rtc.m := 0; Rtc.hh := 0; Rtc.dl := 0;
                                      Rtc.dh := 0; Rtc.zero := 0 |};
                  Cartridge.rom_bank := 1; Cartridge.ram_bank := 0; Cartridge.bank := 1;
                  Cartridge.mbc := Cartridge.MBC5 |};
  gpu := Gpu.new; keys := {| matrix := 0xFF; select := 0x00 |}; timer := Timer.new;
  sound_data := repeat 0 (Z.to_nat 0x30); serial := {| data := 0; control := 0 |};
  run_bootrom := false; bootrom := []; speed := Regular; speed_shift := false;
  hdma := {| source := 0; destination := 0x8000; active := false; hmode := GDMA; remain := 0 |}
|}.

End Bus.

(** * The CPU of system/cpu.rs

    [CPU] and its [MemoryBus] are the older core that the interrupt, EI and
    SBC code lives in.  Its [Registers] and [FlagsRegister], with the two
    [From] conversions, have the same fields and bodies as those of
    registers.rs, so the [Registers] module is reused.  The bus is kept
    abstract: reads, writes and the two interrupt registers
    [bus.memory.interrupt_enable] and [bus.memory.interrupt_flag] are
    section variables.  [checked] says whether integer overflow panics
    (debug build) or wraps (release build); a panic is [None]. *)
Module Cpu.

Import Registers.

Section Core.

Context {M : Type}.
Variable read_byte : M -> Z -> option Z.
Variable write_byte : M -> Z -> Z -> option M.
Variable interrupt_enable : M -> Z.
Variable interrupt_flag : M -> Z.
Variable set_interrupt_flag : M -> Z -> M.
Variable checked : bool.

Record CPU := {
  regs : Registers;
  pc : Z;
  sp : Z;
  bus : M;
  is_halted : bool;
  ime : bool;
}.

Definition with_regs (cpu : CPU) (x : Registers) : CPU :=
  {| regs := x; pc := pc cpu; sp := sp cpu; bus := bus cpu;
     is_halted := is_halted cpu; ime := ime cpu |}.
Definition with_pc (cpu : CPU) (x : Z) : CPU :=
  {| regs := regs cpu; pc := x; sp := sp cpu; bus := bus cpu;
     is_halted := is_halted cpu; ime := ime cpu |}.
Definition with_sp (cpu : CPU) (x : Z) : CPU :=
  {| regs := regs cpu; pc := pc cpu; sp := x; bus := bus cpu;
     is_halted := is_halted cpu; ime := ime cpu |}.
Definition with_bus (cpu : CPU) (x : M) : CPU :=
  {| regs := regs cpu; pc := pc cpu; sp := sp cpu; bus := x;
     is_halted := is_halted cpu; ime := ime cpu |}.
Definition with_halted (cpu : CPU) (x : bool) : CPU :=
  {| regs := regs cpu; pc := pc cpu; sp := sp cpu; bus := bus cpu;
     is_halted := x; ime := ime cpu |}.
Definition with_ime (cpu : CPU) (x : bool) : CPU :=
  {| regs := regs cpu; pc := pc cpu; sp := sp cpu; bus := bus cpu;
     is_halted := is_halted cpu; ime := x |}.

(** Plain [+] and [-] on u16 and u8. *)
Definition add_u16 (x y : Z) : option Z :=
  if checked && (65536 <=? x + y) then None else Some ((x + y) mod 65536).
Definition sub_u16 (x y : Z) : option Z :=
  if checked && (x - y <? 0) then None else Some ((x - y) mod 65536).
Definition sub_u8 (x y : Z) : option Z :=
  if checked && (x - y <? 0) then None else Some ((x - y) mod 256).

(** [u16::wrapping_add] *)
Definition wrapping_add (x y : Z) : Z := (x + y) mod 65536.

(** [MemoryBus::write_word] of system/cpu.rs: [lower] is the high byte and
    [higher] the low byte, and both are written at [address]. *)
Definition write_word (b : M) (address word : Z) : option M :=
  let lower := Z.shiftr word 8 in
  let higher := Z.land word 0xFF in
  match write_byte b address lower with
  | None => None
  | Some b1 => write_byte b1 address higher
  end.

(** [rst40] .. [rst60], which differ only in the vector. *)
Definition rst (vector : Z) (cpu : CPU) : option CPU :=
  let cpu := with_ime cpu false in
  match sub_u16 (sp cpu) 2 with
  | None => None
  | Some sp' =>
      let cpu := with_sp cpu sp' in
      match add_u16 (pc cpu) 1 with
      | None => None
      | Some ret =>
          match write_word (bus cpu) sp' ret with
          | None => None
          | Some b' => Some (with_pc (with_bus cpu b') vector)
          end
      end
  end.

Definition clear_flag (cpu : CPU) (mask : Z) : CPU :=
  with_bus cpu (set_interrupt_flag (bus cpu) (Z.land (interrupt_flag (bus cpu)) mask)).

(** [CPU::process_interrupts], with the source's fifth test
    [(fired & 0x0F) != 0] and its final [else] arm. *)
Definition process_interrupts (cpu : CPU) : option CPU :=
  if ime cpu && negb (interrupt_enable (bus cpu) =? 0)
             && negb (interrupt_flag (bus cpu) =? 0) then
    let fired := Z.land (interrupt_enable (bus cpu)) (interrupt_flag (bus cpu)) in
    if negb (Z.land fired 0x01 =? 0) then rst 0x40 (clear_flag cpu 0xFE)
    else if negb (Z.land fired 0x02 =? 0) then rst 0x48 (clear_flag cpu 0xFD)
    else if negb (Z.land fired 0x04 =? 0) then rst 0x50 (clear_flag cpu 0xFB)
    else if negb (Z.land fired 0x08 =? 0) then rst 0x58 (clear_flag cpu 0xF7)
    else if negb (Z.land fired 0x0F =? 0) then rst 0x60 (clear_flag cpu 0xEF)
    else Some (with_ime cpu true)
  else Some cpu.

Inductive ArithmeticTarget := TA | TSP.

Inductive ArithmeticSource := A | B | C | D | E | H | L | HLAddr | U8 | I8.

(** The instructions this model decodes; the others of [Instructions] are
    not needed for the properties below. *)
Inductive Instructions :=
| NOP
| HALT
| DI
| EI
| SBC (target : ArithmeticTarget) (source : ArithmeticSource).

(** [CPU::read_next_byte] *)
Definition read_next_byte (cpu : CPU) : option Z :=
  match add_u16 (pc cpu) 1 with
  | None => None
  | Some address => read_byte (bus cpu) address
  end.

Definition source_value (cpu : CPU) (source : ArithmeticSource) : option Z :=
  match source with
  | A => Some (a (regs cpu)) | B => Some (b (regs cpu)) | C => Some (c (regs cpu))
  | D => Some (d (regs cpu)) | E => Some (e (regs cpu)) | H => Some (h (regs cpu))
  | L => Some (l (regs cpu))
  | HLAddr => read_byte (bus cpu) (get_hl (regs cpu))
  | U8 => read_next_byte cpu
  | I8 => None
  end.

Definition with_flags (r : Registers) (x : FlagsRegister) : Registers :=
  {| a := a r; b := b r; c := c r; d := d r; e := e r; f := x; h := h r; l := l r |}.
Definition with_a (r : Registers) (x : Z) : Registers :=
  {| a := x; b := b r; c := c r; d := d r; e := e r; f := f r; h := h r; l := l r |}.
Definition with_zero (x : FlagsRegister) (v : bool) : FlagsRegister :=
  {| zero := v; subtract := subtract x; half_carry := half_carry x; carry := carry x |}.
Definition with_subtract (x : FlagsRegister) (v : bool) : FlagsRegister :=
  {| zero := zero x; subtract := v; half_carry := half_carry x; carry := carry x |}.
Definition with_half_carry (x : FlagsRegister) (v : bool) : FlagsRegister :=
  {| zero := zero x; subtract := subtract x; half_carry := v; carry := carry x |}.
Definition with_carry (x : FlagsRegister) (v : bool) : FlagsRegister :=
  {| zero := zero x; subtract := subtract x; half_carry := half_carry x; carry := v |}.

(** The target-[A] arm of [Instructions::SBC], statement by statement;
    [u8::from(self.regs.f)] is re-read after each flag update. *)
Definition sbc_a (r : Registers) (source_value : Z) : option Registers :=
  let difference := a r - source_value - flags_to_u8 (f r) in
  let r := with_flags r (with_carry (f r) (difference <? 0)) in
  let r := with_flags r (with_subtract (f r) true) in
  let r := with_flags r (with_half_carry (f r)
             (Z.land (a r) 0xF - Z.land (a r) 0xF - flags_to_u8 (f r) <? 0)) in
  match sub_u8 (a r) (h r) with
  | None => None
  | Some t =>
      match sub_u8 t (flags_to_u8 (f r)) with
      | None => None
      | Some a' =>
          let r := with_a r a' in
          Some (with_flags r (with_zero (f r) (a r =? 0)))
      end
  end.

(** [CPU::decode_instruction] on the instructions above: the new CPU state
    and the [(next pc, cycles)] pair. *)
Definition decode_instruction (cpu : CPU) (instruction : Instructions)
    : option (CPU * (Z * Z)) :=
  if is_halted cpu then Some (cpu, (pc cpu, 4)) else
  match instruction with
  | NOP => Some (cpu, (wrapping_add (pc cpu) 1, 4))
  | HALT => Some (with_halted cpu true, (pc cpu, 4))
  | DI => Some (with_ime cpu false, (wrapping_add (pc cpu) 1, 4))
  | EI => Some (with_ime cpu true, (wrapping_add (pc cpu) 1, 4))
  | SBC target source =>
      match source_value cpu source with
      | None => None
      | Some v =>
          match target with
          | TA =>
              match sbc_a (regs cpu) v with
              | None => None
              | Some r' =>
                  let next := match source with
                              | U8 => (wrapping_add (pc cpu) 2, 8)
                              | HLAddr => (wrapping_add (pc cpu) 1, 8)
                              | _ => (wrapping_add (pc cpu) 1, 4)
                              end in
                  Some (with_regs cpu r', next)
              end
          | _ => None
          end
      end
  end.

(** [CPU::execute_instruction] once the opcode is decoded: [pc] takes the
    returned value and the cycle count is returned. *)
Definition execute (cpu : CPU) (instruction : Instructions) : option (CPU * Z) :=
  match decode_instruction cpu instruction with
  | None => None
  | Some (cpu', (next, cycles)) => Some (with_pc cpu' next, cycles)
  end.

End Core.

(** A bus that only records the writes made to it, with fixed interrupt
    registers; it is used to show what the CPU stores. *)
Record TraceBus := { t_ie : Z; t_if : Z; writes : list (Z * Z) }.

Definition trace_read (t : TraceBus) (address : Z) : option Z := Some 0.
Definition trace_write (t : TraceBus) (address value : Z) : option TraceBus :=
  Some {| t_ie := t_ie t; t_if := t_if t; writes := writes t ++ [(address, value)] |}.
Definition trace_set_if (t : TraceBus) (v : Z) : TraceBus :=
  {| t_ie := t_ie t; t_if := v; writes := writes t |}.

(** A powered-on register file with [A = 0x3B], [B = 0x2A] and only the
    carry flag set. *)
Definition sbc_regs : Registers.Registers := {|
  Registers.a := 0x3B; Registers.b := 0x2A; Registers.c := 0; Registers.d := 0;
  Registers.e := 0; Registers.h := 0; Registers.l := 0;
  Registers.f := {| Registers.zero := false; Registers.subtract := false;
                    Registers.half_carry := false; Registers.carry := true |} |}.

(** A CPU at [pc = 0x0150], [sp = 0xFFFE], with IME set, over a recording
    bus whose IE and IF are both [mask]. *)
Definition cpu_at (mask : Z) : CPU := {|
  regs := sbc_regs; pc := 0x0150; sp := 0xFFFE;
  bus := {| t_ie := mask; t_if := mask; writes := [] |};
  is_halted := false; ime := true |}.

End Cpu.

Lemma land_low_bits (x k v m : Z) :
  0 <= k -> Z.land x (Z.ones k) = v -> 0 <= m < 2 ^ k -> Z.land x m = Z.land v m.
Proof.
  intros Hk Hx Hm. subst v.
  rewrite <- Z.land_assoc, (Z.land_comm (Z.ones k) m), Z.land_ones by lia.
  rewrite Z.mod_small by lia. reflexivity.
Qed.

(** Evaluates [Z.land] of two literals and the [=? 0] tests on them. *)
Ltac eval_closed_land :=
  repeat match goal with
  | |- context [Z.land (Zpos ?p) (Zpos ?q)] =>
      let v := eval vm_compute in (Z.land (Zpos p) (Zpos q)) in
      change (Z.land (Zpos p) (Zpos q)) with v
  end;
  repeat match goal with
  | |- context [Zpos ?p =? 0] => change (Zpos p =? 0) with false
  | |- context [0 =? 0] => change (0 =? 0) with true
  end.

Lemma land_nonzero (x y : Z) : Z.land x y <> 0 -> x <> 0 /\ y <> 0.
Proof.
  intros H. split; intros ->; apply H; [apply Z.land_0_l | apply Z.land_0_r].
Qed.


(** ** Further operations of bus.rs and joypad.rs *)
Module BusOps.

Import Bus.

(** [MemoryBus::change_speed] *)
Definition change_speed (b : MemoryBus) : MemoryBus :=
  let b := if speed_shift b
           then set_speed b (match speed b with Double => Regular | Regular => Double end)
           else b in
  set_speed_shift b false.

(** [Keys]: the bit of each key in the matrix. *)
Inductive Keys := Right | Left | Up | Down | KA | KB | Select | Start.

Definition key_mask (k : Keys) : Z :=
  match k with
  | Right => 0x01 | Left => 0x02 | Up => 0x04 | Down => 0x08
  | KA => 0x10 | KB => 0x20 | Select => 0x40 | Start => 0x80
  end.

(** [Joypad::key_down] on the bus: the joypad's [intref] is the bus's, so
    the Joypad request lands in the bus's IF. *)
Definition key_down (b : MemoryBus) (key : Keys) : MemoryBus :=
  let b := set_keys b {| matrix := Z.land (matrix (keys b)) (Z.lxor (key_mask key) 0xFF);
                         select := select (keys b) |} in
  set_if b (Z.lor (interrupt_flag (intref b)) 0x10).

(** [Joypad::key_up] *)
Definition key_up (b : MemoryBus) (key : Keys) : MemoryBus :=
  set_keys b {| matrix := Z.lor (matrix (keys b)) (key_mask key); select := select (keys b) |}.

End BusOps.

(** CGB palette memory as [GPU::new] lays it out: 8 palettes of 4 colours
    of 3 components. *)
Definition pal_shaped (p : Gpu.Palettes) : bool :=
  (length p =? 8)%nat &&
  forallb (fun row => (length row =? 4)%nat && forallb (fun col => (length col =? 3)%nat) row) p.

(** A GPU register write followed by a read of the same register. *)
Definition write_then_read (g : Gpu.GPU) (address value : Z) : option Z :=
  g' ← Gpu.write_registers g address value; Gpu.read_registers g' address.

(** A bus write followed by a read of the same address. *)
Definition bus_write_then_read (b : Bus.MemoryBus) (address value now : Z) : option Z :=
  b' ← Bus.write_byte b address value now; Bus.read_byte b' address.

(** ** More of system/cpu.rs: the ALU helpers, the stack and relative jumps *)
Module CpuOps.

Import Registers Cpu.

(** [CPU::sub]: the new flags and the [u8] result. *)
Definition sub (r : Registers) (value : Z) : FlagsRegister * Z :=
  let new_value := a r - value in
  let fl := f r in
  let fl := with_carry fl (new_value <? 0) in
  let fl := with_zero fl (new_value =? 0) in
  let fl := with_half_carry fl (Z.land (new_value mod 256) 0xF >? Z.land (a r) 0xF) in
  let fl := with_subtract fl true in
  (fl, new_value mod 256).

(** The target-[A] arm of [Instructions::CP]. *)
Definition cp_a (r : Registers) (source_value : Z) : Registers :=
  let a_reg := a r in
  let fl := f r in
  let fl := with_zero fl (a_reg =? source_value) in
  let fl := with_subtract fl true in
  (* [(a_reg as i16 - source_value as i16) & 0xF] lies in 0..15, so its
     [as u8] is itself. *)
  let fl := with_half_carry fl (Z.land (a_reg - source_value) 0xF >? Z.land a_reg 0xF) in
  let fl := with_carry fl (source_value >? a_reg) in
  with_flags r fl.

(** The target-[A] arm of [Instructions::SUB]. *)
Definition sub_a (r : Registers) (source_value : Z) : Registers :=
  let '(fl, v) := sub r source_value in with_a (with_flags r fl) v.

(** [CPU::inc] and [CPU::dec]: the new flags and the new register value. *)
Definition inc (fl : FlagsRegister) (register : Z) : FlagsRegister * Z :=
  let new_value := (register + 1) mod 256 in
  let fl := with_zero fl (new_value =? 0) in
  let fl := with_subtract fl false in
  let fl := with_half_carry fl (Z.land register 0xF =? 0xF) in
  (fl, new_value).

Definition dec (fl : FlagsRegister) (register : Z) : FlagsRegister * Z :=
  let new_value := (register - 1) mod 256 in
  let fl := with_zero fl (new_value =? 0) in
  let fl := with_subtract fl true in
  let fl := with_half_carry fl (Z.land new_value 0xF =? 0xF) in
  (fl, new_value).

Inductive StackTarget := BC | DE | HL | AF.

Section Stack.

Context {M : Type}.
Variable read_byte : M -> Z -> option Z.
Variable write_byte : M -> Z -> Z -> option M.
Variable checked : bool.

(** [u16::wrapping_sub] *)
Definition wrapping_sub (x y : Z) : Z := (x - y) mod 65536.

(** [CPU::push] *)
Definition push (cpu : CPU) (value : Z) : option CPU :=
  let sp1 := wrapping_sub (sp cpu) 1 in
  match write_byte (bus cpu) sp1 (Z.shiftr (Z.land value 0xFF00) 8) with
  | None => None
  | Some b1 =>
      let sp2 := wrapping_sub sp1 1 in
      match write_byte b1 sp2 (Z.land value 0x00FF) with
      | None => None
      | Some b2 => Some (with_sp (with_bus cpu b2) sp2)
      end
  end.

(** [CPU::pop] *)
Definition pop (cpu : CPU) : option (CPU * Z) :=
  match read_byte (bus cpu) (sp cpu) with
  | None => None
  | Some lsb =>
      let sp1 := wrapping_add (sp cpu) 1 in
      match read_byte (bus cpu) sp1 with
      | None => None
      | Some msb => Some (with_sp cpu (wrapping_add sp1 1), Z.lor (Z.shiftl msb 8) lsb)
      end
  end.

Definition get_pair (r : Registers) (t : StackTarget) : Z :=
  match t with BC => get_bc r | DE => get_de r | HL => get_hl r | AF => get_af r end.

Definition set_pair (r : Registers) (t : StackTarget) (v : Z) : Registers :=
  match t with BC => set_bc r v | DE => set_de r v | HL => set_hl r v | AF => set_af r v end.

(** The [PUSH] and [POP] arms: the new CPU and the [(next pc, cycles)]
    pair. *)
Definition push_arm (cpu : CPU) (target : StackTarget) : option (CPU * (Z * Z)) :=
  match push cpu (get_pair (regs cpu) target) with
  | None => None
  | Some cpu' => Some (cpu', (wrapping_add (pc cpu') 1, 16))
  end.

Definition pop_arm (cpu : CPU) (target : StackTarget) : option (CPU * (Z * Z)) :=
  match pop cpu with
  | None => None
  | Some (cpu', result) =>
      let cpu' := with_regs cpu' (set_pair (regs cpu') target result) in
      Some (cpu', (wrapping_add (pc cpu') 1, 12))
  end.

(** [byte as i8] *)
Definition to_i8 (x : Z) : Z := if x <? 128 then x else x - 256.

(** [i8::abs]: overflows on [-128]. *)
Definition i8_abs (x : Z) : option Z :=
  if x =? -128 then (if checked then None else Some (-128)) else Some (Z.abs x).

(** [CPU::jump_relative]: the next [pc] and the cycle count. *)
Definition jump_relative (cpu : CPU) (should_jump : bool) : option (Z * Z) :=
  let next := wrapping_add (pc cpu) 2 in
  if should_jump then
    match add_u16 checked (pc cpu) 1 with
    | None => None
    | Some address =>
        match read_byte (bus cpu) address with
        | None => None
        | Some v =>
            let byte := to_i8 v in
            if byte >=? 0 then Some (wrapping_add next (byte mod 65536), 12)
            else match i8_abs byte with
                 | None => None
                 | Some ab => Some (wrapping_sub next (ab mod 65536), 12)
                 end
        end
    end
  else Some (next, 8).

End Stack.

(** A bus that is plain memory: a byte for every address. *)
Definition ram_read (mem : Z -> Z) (address : Z) : option Z := Some (mem address).
Definition ram_write (mem : Z -> Z) (address value : Z) : option (Z -> Z) :=
  Some (fun x => if x =? address then value else mem x).

(** Every 8-bit register holds a byte. *)
Definition regs_u8 (r : Registers) : bool :=
  forallb (fun x => (0 <=? x) && (x <? 256)) [a r; b r; c r; d r; e r; h r; l r].

(** A CPU at [pc = 0x0100] and [sp = 0xFFFE] over zeroed plain memory. *)
Definition ram_cpu : @CPU (Z -> Z) := {|
  regs := sbc_regs; pc := 0x0100; sp := 0xFFFE; bus := fun _ => 0;
  is_halted := false; ime := false |}.

End CpuOps.

(* ===================================================================== *)
(** * Claims *)

(** C9: for every 16-bit [v], [set_bc v] then [get_bc] gives back [v]
    (likewise DE and HL); [set_af v] then [get_af] gives [v & 0xFFF0];
    and for every byte [b], [FlagsRegister::from(b & 0xF0)] converted back
    to a byte is [b & 0xF0]: the low nibble of F always reads zero. *)
Theorem registers_pair_roundtrip (r : Registers.Registers) (v byte : Z)
  (Hv : 0 <= v < 65536) (Hbyte : 0 <= byte < 256) :
  Registers.get_bc (Registers.set_bc r v) = v /\
  Registers.get_de (Registers.set_de r v) = v /\
  Registers.get_hl (Registers.set_hl r v) = v /\
  Registers.get_af (Registers.set_af r v) = Z.land v 0xFFF0 /\
  Registers.flags_to_u8 (Registers.flags_from_u8 (Z.land byte 0xF0)) = Z.land byte 0xF0.
Proof.
  rewrite Registers.get_bc_set_bc, Registers.get_de_set_de,
    Registers.get_hl_set_hl, Registers.get_af_set_af.
  rewrite !Registers.pair_roundtrip_u16 by exact Hv.
  repeat split; auto using Registers.af_roundtrip_u16, Registers.flags_roundtrip_u8.
Qed.

Lemma registers_pair_roundtrip_witness :
  (0 <= 0x1234 < 65536 /\ 0 <= 0xAB < 256) /\
  Registers.get_af (Registers.set_af Registers.new 0x1234) = 0x1230.
Proof.
  split; [split; lia|].
  exact (proj1 (proj2 (proj2 (proj2
    (registers_pair_roundtrip Registers.new 0x1234 0xAB ltac:(lia) ltac:(lia)))))).
Defined.

(** C6: within one [Timer::update_timers] call, the increment that takes
    TIMA past 0xFF reloads it from TMA and ORs the Timer bit (0x04) into
    IF in that very increment, and the bit is still set when the call
    returns; an increment that does not overflow neither reloads nor
    touches IF. *)
Theorem timer_overflow_reload_same_tick (t : Timer.Timer) (cycles : Z) (k : nat)
  (Hen : Timer.clock_enabled t = true)
  (Hk : (k < Timer.tima_increments t cycles)%nat)
  (Hff : Timer.tima (Nat.iter k Timer.tima_tick (Timer.before_increments t cycles)) = 255) :
  Timer.tima (Nat.iter (S k) Timer.tima_tick (Timer.before_increments t cycles)) = Timer.tma t /\
  Z.testbit (Timer.intflag (Nat.iter (S k) Timer.tima_tick (Timer.before_increments t cycles))) 2
    = true /\
  Z.testbit (Timer.intflag (Timer.update_timers t cycles)) 2 = true /\
  (forall u, 0 <= Timer.tima u < 255 ->
     Timer.tima (Timer.tima_tick u) = Timer.tima u + 1 /\
     Timer.intflag (Timer.tima_tick u) = Timer.intflag u).
Proof.
  set (u0 := Nat.iter k Timer.tima_tick (Timer.before_increments t cycles)) in *.
  assert (Htick : Nat.iter (S k) Timer.tima_tick (Timer.before_increments t cycles)
                  = Timer.tima_tick u0) by reflexivity.
  assert (Hbit : Z.testbit (Timer.intflag (Timer.tima_tick u0)) 2 = true).
  { unfold Timer.tima_tick, Timer.set_timer_interrupt, Timer.with_tima.
    cbn [Timer.tima Timer.intflag]. rewrite Hff.
    change ((255 + 1) mod 256 =? 0) with true. cbn [Timer.intflag].
    rewrite Z.lor_spec, orb_true_iff. right. reflexivity. }
  split; [|split; [|split]].
  - rewrite Htick. unfold Timer.tima_tick, Timer.set_timer_interrupt, Timer.with_tima.
    cbn [Timer.tima Timer.tma]. rewrite Hff.
    change ((255 + 1) mod 256 =? 0) with true. cbn [Timer.tima Timer.tma].
    unfold u0. rewrite Timer.iter_tma. apply Timer.before_increments_tma.
  - rewrite Htick. exact Hbit.
  - rewrite Timer.update_timers_enabled by exact Hen.
    replace (Timer.tima_increments t cycles)
      with ((Timer.tima_increments t cycles - S k) + S k)%nat by lia.
    rewrite Timer.tima_loop_iter, Nat.iter_add.
    rewrite <- Timer.tima_loop_iter. apply Timer.tima_loop_intflag.
    rewrite Htick. exact Hbit.
  - intros u Hu. unfold Timer.tima_tick. simpl.
    rewrite Z.mod_small by lia.
    destruct (Timer.tima u + 1 =? 0) eqn:E; [apply Z.eqb_eq in E; lia|].
    split; reflexivity.
Qed.

Definition timer_overflow_example : Timer.Timer := {|
  Timer.intflag := 0; Timer.tima := 255; Timer.clock_counter := 0;
  Timer.divider_register := 0; Timer.divider_counter := 0; Timer.tma := 0x42;
  Timer.input_clock_speed := 16; Timer.clock_enabled := true |}.

Lemma timer_overflow_reload_same_tick_witness :
  Timer.tima (Timer.update_timers timer_overflow_example 16) = 0x42 /\
  Z.testbit (Timer.intflag (Timer.update_timers timer_overflow_example 16)) 2 = true.
Proof.
  destruct (timer_overflow_reload_same_tick timer_overflow_example 16 0
              eq_refl ltac:(vm_compute; lia) eq_refl) as [H1 [_ [H3 _]]].
  split; [|exact H3].
  rewrite Timer.update_timers_enabled by reflexivity. exact H1.
Defined.

(** C7 (evaluation at the failing input): from a fresh timer (divider
    accumulator 0, DIV 0), one [update_timers] tick of exactly 256 cycles
    leaves DIV at 0 with the accumulator at 256, because the loop tests
    [divider_counter > 256]; DIV reaches 1 only at the 257th cycle. A write
    to 0xFF04 does zero DIV (see the bus model). *)
Theorem divider_256_cycles_no_increment :
  Timer.divider_register (Timer.update_timers Timer.new 256) = 0 /\
  Timer.divider_counter (Timer.update_timers Timer.new 256) = 256 /\
  Timer.divider_register (Timer.update_timers (Timer.update_timers Timer.new 256) 1) = 1.
Proof. vm_compute. repeat split. Qed.

(** C7 counterexample: DIV has not advanced by [floor((0 + 256) / 256) = 1]. *)
Lemma divider_256_cycles_counterexample :
  Timer.divider_register (Timer.update_timers Timer.new 256)
  <> Timer.divider_register Timer.new + (Timer.divider_counter Timer.new + 256) / 256.
Proof. vm_compute. discriminate. Qed.

(** C8 (as amended): when RAM is enabled and an address of A000-BFFF
    designates an in-range index of external RAM, writing a byte [v] there
    and reading it back gives [v] for MBC1, MBC3 and MBC5; MBC2's RAM holds
    nibbles (its write stores [v & 0x0F]), so there the read gives
    [v & 0x0F]. *)
Theorem cartridge_ram_write_read (c : Cartridge.Cartridge) (address value now i : Z)
  (Hen : Cartridge.ram_enabled c = true)
  (Hidx : Cartridge.ram_index c address = Some i)
  (Hin : 0 <= i < Z.of_nat (length (Cartridge.game_ram c))) :
  exists c', Cartridge.write_byte c address value now = Some c' /\
    Cartridge.read_byte c' address =
      Some (match Cartridge.mbc c with Cartridge.MBC2 => Z.land value 0x0F | _ => value end).
Proof.
  unfold Cartridge.ram_index in Hidx.
  unfold Cartridge.write_byte, Cartridge.read_byte.
  destruct (Cartridge.mbc c) eqn:Hm; [discriminate| | | |].
  - (* MBC1 *)
    destruct (in_range address 0xA000 0xBFFF) eqn:Er; [|discriminate].
    injection Hidx as <-. unfold in_range in Er.
    apply andb_true_iff in Er as [E1 E2]. apply Z.leb_le in E1, E2.
    destruct (Cartridge.store_ram_in_range c _ value Hin) as [c' Hs].
    exists c'. unfold Cartridge.write_byte_mbc1.
    decide_ranges. rewrite Hen.
    replace (Nat.eqb (length (Cartridge.game_ram c)) 0) with false by
      (symmetry; apply Nat.eqb_neq; lia).
    simpl. rewrite Hs. split; [reflexivity|].
    destruct (Cartridge.store_ram_fields _ _ _ _ Hs) as (Hm' & Hen' & Hb & Hmd & _ & Hget).
    rewrite Hm', Hm. unfold Cartridge.read_byte_mbc1. decide_ranges.
    rewrite Hen', Hen. unfold Cartridge.mbc1_ram_bank in *. rewrite Hb, Hmd. exact Hget.
  - (* MBC2 *)
    destruct (in_range address 0xA000 0xA1FF) eqn:Er; [|discriminate].
    injection Hidx as <-. unfold in_range in Er.
    apply andb_true_iff in Er as [E1 E2]. apply Z.leb_le in E1, E2.
    destruct (Cartridge.store_ram_in_range c _ (Z.land value 0x0F) Hin) as [c' Hs].
    exists c'. unfold Cartridge.write_byte_mbc2.
    decide_ranges. rewrite Hen, Hs. split; [reflexivity|].
    destruct (Cartridge.store_ram_fields _ _ _ _ Hs) as (Hm' & Hen' & _ & _ & _ & Hget).
    rewrite Hm', Hm. unfold Cartridge.read_byte_mbc2. decide_ranges.
    rewrite Hen', Hen. exact Hget.
  - (* MBC3 *)
    destruct (in_range address 0xA000 0xBFFF) eqn:Er; [|discriminate].
    destruct (Cartridge.ram_bank c <=? 0x03) eqn:Eb; [|discriminate].
    injection Hidx as <-. unfold in_range in Er.
    apply andb_true_iff in Er as [E1 E2]. apply Z.leb_le in E1, E2.
    destruct (Cartridge.store_ram_in_range c _ value Hin) as [c' Hs].
    exists c'. unfold Cartridge.write_byte_mbc3.
    decide_ranges. rewrite Hen, Eb, Hs. split; [reflexivity|].
    destruct (Cartridge.store_ram_fields _ _ _ _ Hs) as (Hm' & Hen' & _ & _ & Hrb & Hget).
    rewrite Hm', Hm. unfold Cartridge.read_byte_mbc3. decide_ranges.
    rewrite Hen', Hen, Hrb, Eb. exact Hget.
  - (* MBC5 *)
    destruct (in_range address 0xA000 0xBFFF) eqn:Er; [|discriminate].
    injection Hidx as <-. unfold in_range in Er.
    apply andb_true_iff in Er as [E1 E2]. apply Z.leb_le in E1, E2.
    destruct (Cartridge.store_ram_in_range c _ value Hin) as [c' Hs].
    exists c'. unfold Cartridge.write_byte_mbc5.
    decide_ranges. rewrite Hen, Hs. split; [reflexivity|].
    destruct (Cartridge.store_ram_fields _ _ _ _ Hs) as (Hm' & Hen' & _ & _ & Hrb & Hget).
    rewrite Hm', Hm. unfold Cartridge.read_byte_mbc5. decide_ranges.
    rewrite Hen', Hen, Hrb. exact Hget.
Qed.

Definition rtc_zero : Rtc.RealTimeClock :=
  {| Rtc.s := 0; Rtc.m := 0; Rtc.hh := 0; Rtc.dl := 0; Rtc.dh := 0; Rtc.zero := 0 |}.

(** A cartridge of the given mapper with RAM enabled and [ram] as its
    external RAM, bank registers as [Cartridge::new] leaves them. *)
Definition cart_with_ram (k : Cartridge.MBC) (ram : list Z) : Cartridge.Cartridge :=
  {| Cartridge.game_rom := repeat 0 (Z.to_nat 0x8000); Cartridge.game_ram := ram;
     Cartridge.ram_enabled := true; Cartridge.bank_mode := Cartridge.Rom;
     Cartridge.rtc := rtc_zero; Cartridge.rom_bank := 1; Cartridge.ram_bank := 0;
     Cartridge.bank := 1; Cartridge.mbc := k |}.

Lemma cartridge_ram_write_read_witness :
  exists c', Cartridge.write_byte (cart_with_ram Cartridge.MBC5 (repeat 0 (Z.to_nat 0x2000))) 0xA123 0x5A 0
               = Some c' /\ Cartridge.read_byte c' 0xA123 = Some 0x5A.
Proof.
  exact (cartridge_ram_write_read (cart_with_ram Cartridge.MBC5 (repeat 0 (Z.to_nat 0x2000)))
           0xA123 0x5A 0 0x123 eq_refl eq_refl ltac:(vm_compute; split; congruence)).
Defined.

(** C8 counterexample: on an MBC2 cartridge with RAM enabled, writing 0xFF
    to 0xA000 and reading it back gives 0x0F, not 0xFF. *)
Lemma mbc2_ram_roundtrip_counterexample :
  match Cartridge.write_byte (cart_with_ram Cartridge.MBC2 (repeat 0 0x200)) 0xA000 0xFF 0 with
  | Some c' => Cartridge.read_byte c' 0xA000 = Some 0x0F
  | None => False
  end /\ 0x0F <> 0xFF.
Proof. vm_compute. split; [reflexivity | discriminate]. Qed.

(** C5: in every PPU state reachable from [GPU::new] through the mode
    machine, register writes and VRAM/OAM stores (whatever the scanline
    renderer draws), LY is in [0,153] and the STAT mode in {0,1,2,3}, and
    while the LCD is disabled LY = 0, mode = 0 and the framebuffer is
    white; the write of LCDC with bit 7 clear sets LY = 0, mode = 0, a
    white framebuffer and the [vblank] flag. *)
Theorem ppu_ly_mode_invariant (draw : Gpu.GPU -> Gpu.Screen) (g : Gpu.GPU)
  (Hr : Gpu.reachable draw g) :
  0 <= Gpu.current_line g <= 153 /\ 0 <= Gpu.mode g <= 3 /\
  (Gpu.lcd_enabled g = false ->
     Gpu.current_line g = 0 /\ Gpu.mode g = 0 /\ Gpu.screen_data g = Gpu.white_screen) /\
  (forall value g', Gpu.write_registers g 0xFF40 value = Some g' -> Z.land value 0x80 = 0 ->
     Gpu.current_line g' = 0 /\ Gpu.mode g' = 0 /\
     Gpu.screen_data g' = Gpu.white_screen /\ Gpu.vblank g' = true).
Proof.
  destruct (Gpu.reachable_inv draw g Hr) as [[Hl Hm] Hoff].
  split; [exact Hl|]. split; [exact Hm|]. split; [exact Hoff|].
  intros value g' Hw Hv.
  destruct (Gpu.write_lcdc_off g value g' Hw Hv) as (? & ? & ? & ? & _). auto.
Qed.

(** LCD switched on ([LCDC = 0x91]) and run for 1000 cycles. *)
Definition ppu_running : Gpu.GPU :=
  Gpu.update_graphics (fun g => Gpu.screen_data g) (Gpu.set_lcdc Gpu.new 0x91) 1000.

Lemma ppu_ly_mode_invariant_witness :
  Gpu.current_line ppu_running = 3 /\ 0 <= Gpu.current_line ppu_running <= 153 /\
  0 <= Gpu.mode ppu_running <= 3.
Proof.
  assert (Hr : Gpu.reachable (fun g => Gpu.screen_data g) ppu_running).
  { apply Gpu.reach_tick; [|lia].
    apply (Gpu.reach_write _ Gpu.new 0xFF40 0x91); [apply Gpu.reach_new | reflexivity]. }
  destruct (ppu_ly_mode_invariant (fun g => Gpu.screen_data g) ppu_running Hr)
    as (H1 & H2 & _).
  split; [vm_compute; reflexivity | split; assumption].
Defined.

(** C4 (evaluation at the failing inputs): [MemoryBus::read_byte] panics
    on 0xFF53, whatever the bus holds, because [HDMA::read_hdma] lists its
    arm as 0xFF43 and falls into [unreachable!()]; and on 0xFF46, which the
    bus routes to [GPU::read_registers], whose catch-all arm panics. *)
Theorem read_byte_hdma_dma_panic (b : Bus.MemoryBus) :
  Bus.read_byte b 0xFF53 = None /\ Bus.read_byte b 0xFF46 = None.
Proof. split; reflexivity. Qed.

(** C10: for every address [a <= 0xFFFE] and 16-bit word [w],
    [MemoryBus::write_word(a, w)] is exactly [write_byte(a, w & 0xFF)]
    followed by [write_byte(a + 1, w >> 8)] (little-endian), whatever
    [write_byte] does, and both written values are bytes. *)
Theorem write_word_little_endian {B : Type} (write_byte : B -> Z -> Z -> option B)
  (b : B) (address word : Z)
  (Ha : 0 <= address <= 0xFFFE) (Hw : 0 <= word < 65536) :
  Bus.write_word write_byte b address word =
    match write_byte b address (Z.land word 0xFF) with
    | None => None
    | Some b1 => write_byte b1 (address + 1) (Z.shiftr word 8)
    end /\
  0 <= Z.land word 0xFF < 256 /\ 0 <= Z.shiftr word 8 < 256.
Proof.
  unfold Bus.write_word, Bus.u16_add.
  rewrite (Z.mod_small (address + 1)) by lia.
  split; [reflexivity|].
  change 0xFF with (Z.ones 8). rewrite (Z.land_ones word 8) by lia.
  rewrite Z.shiftr_div_pow2 by lia. change (2 ^ 8) with 256.
  split; [apply Z.mod_pos_bound; lia|].
  split; [apply Z.div_pos; lia | apply Z.div_lt_upper_bound; lia].
Qed.

Lemma write_word_little_endian_witness :
  match Bus.write_word (fun b a v => Bus.write_byte b a v 0) Bus.example 0xC000 0x1234 with
  | Some b' => Bus.read_byte b' 0xC000 = Some 0x34 /\ Bus.read_byte b' 0xC001 = Some 0x12
  | None => False
  end.
Proof.
  destruct (write_word_little_endian (fun b a v => Bus.write_byte b a v 0) Bus.example
              0xC000 0x1234 ltac:(lia) ltac:(lia)) as [-> _].
  vm_compute. split; reflexivity.
Defined.

Section CpuClaims.

Import Cpu Registers.

Context {M : Type}.
Variable read_byte : M -> Z -> option Z.
Variable write_byte : M -> Z -> Z -> option M.
Variable interrupt_enable : M -> Z.
Variable interrupt_flag : M -> Z.
Variable set_interrupt_flag : M -> Z -> M.
Variable checked : bool.

Let process := process_interrupts write_byte interrupt_enable interrupt_flag
                 set_interrupt_flag checked.

(** C1 (what [process_interrupts] does): with IME set, [sp] in [2, 0xFFFF]
    and [pc < 0xFFFF], if bit [n <= 3] is the lowest set bit of IE & IF,
    IME is cleared, bit [n] of IF is cleared, [sp] drops by 2, [pc] becomes
    [0x40 | n << 3], and the word pushed is [pc + 1], not [pc]: its high
    byte and then its low byte are both written at the new [sp].  If
    IE & IF is exactly the Joypad bit 0x10, nothing happens at all: the
    fifth test masks with 0x0F and the last arm only sets IME. *)
Theorem process_interrupts_pushes_pc_plus_one (cpu : @CPU M)
  (Hime : ime cpu = true) (Hsp : 2 <= sp cpu < 65536) (Hpc : 0 <= pc cpu < 0xFFFF) :
  (forall n, 0 <= n <= 3 ->
   Z.land (Z.land (interrupt_enable (bus cpu)) (interrupt_flag (bus cpu))) (Z.ones (n + 1))
     = 2 ^ n ->
   process cpu =
     match write_byte (set_interrupt_flag (bus cpu)
                         (Z.land (interrupt_flag (bus cpu)) (0xFF - 2 ^ n)))
                      (sp cpu - 2) (Z.shiftr (pc cpu + 1) 8) with
     | None => None
     | Some b1 =>
         match write_byte b1 (sp cpu - 2) (Z.land (pc cpu + 1) 0xFF) with
         | None => None
         | Some b2 => Some {| regs := regs cpu; pc := Z.lor 0x40 (Z.shiftl n 3);
                              sp := sp cpu - 2; bus := b2;
                              is_halted := is_halted cpu; ime := false |}
         end
     end) /\
  (Z.land (interrupt_enable (bus cpu)) (interrupt_flag (bus cpu)) = 0x10 ->
   process cpu = Some cpu).
Proof.
  destruct cpu as [r pc0 sp0 m halted ime0]; cbn in Hime, Hsp, Hpc |- *; subst ime0.
  unfold process, process_interrupts; cbn [ime bus].
  split.
  - intros n Hn Hlow.
    assert (Hf : Z.land (interrupt_enable m) (interrupt_flag m) <> 0).
    { intros E. rewrite E, Z.land_0_l in Hlow. pose proof (Z.pow_pos_nonneg 2 n). lia. }
    destruct (land_nonzero _ _ Hf) as [Hie Hif].
    apply Z.eqb_neq in Hie, Hif. rewrite Hie, Hif. cbn [andb negb].
    assert (Hbits : forall k, 0 <= k < 2 ^ (n + 1) ->
      Z.land (Z.land (interrupt_enable m) (interrupt_flag m)) k = Z.land (2 ^ n) k).
    { intros k Hk. apply (land_low_bits _ (n + 1)); auto; lia. }
    assert (Hsub : (sp0 - 2) mod 65536 = sp0 - 2) by (apply Z.mod_small; lia).
    assert (Hadd : (pc0 + 1) mod 65536 = pc0 + 1) by (apply Z.mod_small; lia).
    assert (Hc1 : checked && (sp0 - 2 <? 0) = false) by (destruct checked; cbn; lia).
    assert (Hc2 : checked && (65536 <=? pc0 + 1) = false) by (destruct checked; cbn; lia).
    assert (n = 0 \/ n = 1 \/ n = 2 \/ n = 3) as [-> | [-> | [-> | ->]]] by lia;
      change (2 ^ 0) with 1 in *; change (2 ^ 1) with 2 in *;
      change (2 ^ 2) with 4 in *; change (2 ^ 3) with 8 in *;
      rewrite ?(Hbits 1), ?(Hbits 2), ?(Hbits 4), ?(Hbits 8)
        by (split; [lia | vm_compute; reflexivity]);
      unfold rst, clear_flag, sub_u16, add_u16, write_word; cbn;
      rewrite ?Hc1, ?Hc2, ?Hsub, ?Hadd; eval_closed_land; cbn;
      (destruct (write_byte _ _ _) as [b1|]; [destruct (write_byte b1 _ _)|]); reflexivity.
  - intros Hfired.
    rewrite Hfired.
    assert (Hie : interrupt_enable m <> 0 /\ interrupt_flag m <> 0)
      by (apply land_nonzero; rewrite Hfired; lia).
    destruct Hie as [Hie Hif]. apply Z.eqb_neq in Hie, Hif. rewrite Hie, Hif.
    reflexivity.
Qed.


(** C2 (what EI does): on a CPU that is not halted, [EI] sets IME at once,
    with no delay latch ([Interrupt::interrupt_delay] is used nowhere), and
    moves to the next instruction in 4 cycles.  So when VBlank is pending
    in IE & IF, the [process_interrupts] call that follows in the same
    [update_emulator] iteration already dispatches it through [rst40],
    before any further instruction runs. *)
Theorem ei_sets_ime_immediately (cpu : @CPU M) (Hh : is_halted cpu = false) :
  execute read_byte checked cpu EI =
    Some (with_pc (with_ime cpu true) (wrapping_add (pc cpu) 1), 4) /\
  ime (with_ime cpu true) = true /\
  (Z.land (Z.land (interrupt_enable (bus cpu)) (interrupt_flag (bus cpu))) 1 = 1 ->
   process (with_pc (with_ime cpu true) (wrapping_add (pc cpu) 1)) =
   rst write_byte checked 0x40
     (clear_flag interrupt_flag set_interrupt_flag
        (with_pc (with_ime cpu true) (wrapping_add (pc cpu) 1)) 0xFE)).
Proof.
  destruct cpu as [r pc0 sp0 m halted ime0]; cbn in Hh; subst halted.
  split; [reflexivity | split; [reflexivity |]].
  intros Hv. cbn [bus] in Hv.
  assert (Hf : Z.land (interrupt_enable m) (interrupt_flag m) <> 0).
  { intros E. rewrite E in Hv. discriminate. }
  destruct (land_nonzero _ _ Hf) as [Hie Hif].
  apply Z.eqb_neq in Hie, Hif.
  unfold process, process_interrupts; cbn [ime bus with_pc with_ime].
  rewrite Hie, Hif, Hv. reflexivity.
Qed.


(** C3 (what SBC A,B does): from [A = 0x3B], [B = 0x2A] and flags
    Z=0 N=0 H=0 C=1 on a CPU that is not halted, [SBC A,B] computes the
    carry from [A - B - u8::from(F)] = 0x3B - 0x2A - 0x10 = 1 (no carry),
    the half carry from [(A & 0xF) - (A & 0xF) - u8::from(F)] with N
    already set (so H = 1), and then subtracts register [H] and the whole
    flag byte 0x60 from [A].  That last subtraction always goes below
    zero: a debug build panics, a release build stores
    [(0x3B - H - 0x60) mod 256].  The result is never A = 0x10 with
    H = 0. *)
Theorem sbc_a_b_subtracts_h_and_flags (cpu : @CPU M) (Hh : is_halted cpu = false)
  (Ha : a (regs cpu) = 0x3B) (Hb : b (regs cpu) = 0x2A)
  (Hf : f (regs cpu) = {| zero := false; subtract := false;
                          half_carry := false; carry := true |})
  (Hhr : 0 <= h (regs cpu) < 256) :
  execute read_byte checked cpu (SBC TA B) =
    if checked then None
    else Some (with_pc (with_regs cpu
           {| a := (0x3B - h (regs cpu) - 0x60) mod 256; b := 0x2A;
              c := c (regs cpu); d := d (regs cpu); e := e (regs cpu);
              f := {| zero := (0x3B - h (regs cpu) - 0x60) mod 256 =? 0;
                      subtract := true; half_carry := true; carry := false |};
              h := h (regs cpu); l := l (regs cpu) |})
           (wrapping_add (pc cpu) 1), 4).
Proof.
  destruct cpu as [[ra rb rc rd re rf rh rl] pc0 sp0 m halted ime0];
    cbn in Hh, Ha, Hb, Hf, Hhr |- *; subst.
  unfold execute, decode_instruction, sbc_a, sub_u8; cbn.
  repeat match goal with
  | |- context [flags_to_u8 ?F] =>
      let v := eval vm_compute in (flags_to_u8 F) in change (flags_to_u8 F) with v
  end.
  destruct checked; cbn.
  - destruct (0x3B - rh <? 0) eqn:E1; [reflexivity|].
    apply Z.ltb_ge in E1. rewrite Z.mod_small by lia.
    replace (59 - rh - 96 <? 0) with true by (symmetry; apply Z.ltb_lt; lia).
    reflexivity.
  - rewrite Zminus_mod_idemp_l. reflexivity.
Qed.

End CpuClaims.

Lemma process_interrupts_pushes_pc_plus_one_witness :
  Cpu.process_interrupts Cpu.trace_write Cpu.t_ie Cpu.t_if Cpu.trace_set_if false
      (Cpu.cpu_at 0x01) =
    Some {| Cpu.regs := Cpu.sbc_regs; Cpu.pc := 0x40; Cpu.sp := 0xFFFC;
            Cpu.bus := {| Cpu.t_ie := 0x01; Cpu.t_if := 0x00;
                          Cpu.writes := [(0xFFFC, 0x01); (0xFFFC, 0x51)] |};
            Cpu.is_halted := false; Cpu.ime := false |} /\
  Cpu.process_interrupts Cpu.trace_write Cpu.t_ie Cpu.t_if Cpu.trace_set_if false
      (Cpu.cpu_at 0x10) = Some (Cpu.cpu_at 0x10).
Proof.
  split.
  - destruct (process_interrupts_pushes_pc_plus_one Cpu.trace_write Cpu.t_ie Cpu.t_if
                Cpu.trace_set_if false (Cpu.cpu_at 0x01) eq_refl
                ltac:(simpl; lia) ltac:(simpl; lia)) as [Hn _].
    rewrite (Hn 0 ltac:(lia) eq_refl). reflexivity.
  - destruct (process_interrupts_pushes_pc_plus_one Cpu.trace_write Cpu.t_ie Cpu.t_if
                Cpu.trace_set_if false (Cpu.cpu_at 0x10) eq_refl
                ltac:(simpl; lia) ltac:(simpl; lia)) as [_ Hj].
    apply Hj. reflexivity.
Defined.

Lemma ei_sets_ime_immediately_witness :
  match Cpu.execute Cpu.trace_read false (Cpu.with_ime (Cpu.cpu_at 0x01) false) Cpu.EI with
  | Some (c1, cycles) =>
      Cpu.ime c1 = true /\ cycles = 4 /\
      option_map Cpu.pc (Cpu.process_interrupts Cpu.trace_write Cpu.t_ie Cpu.t_if
                           Cpu.trace_set_if false c1) = Some 0x40
  | None => False
  end.
Proof.
  destruct (ei_sets_ime_immediately Cpu.trace_read Cpu.trace_write Cpu.t_ie Cpu.t_if
              Cpu.trace_set_if false (Cpu.with_ime (Cpu.cpu_at 0x01) false) eq_refl)
    as [-> [Hime Hv]].
  split; [exact Hime | split; [reflexivity |]].
  rewrite (Hv eq_refl). reflexivity.
Defined.

Lemma sbc_a_b_subtracts_h_and_flags_witness :
  match Cpu.execute Cpu.trace_read false (Cpu.cpu_at 0x00) (Cpu.SBC Cpu.TA Cpu.B) with
  | Some (c1, cycles) =>
      Registers.a (Cpu.regs c1) = 0xDB /\ Registers.f (Cpu.regs c1) =
        {| Registers.zero := false; Registers.subtract := true;
           Registers.half_carry := true; Registers.carry := false |} /\ cycles = 4
  | None => False
  end /\
  Cpu.execute Cpu.trace_read true (Cpu.cpu_at 0x00) (Cpu.SBC Cpu.TA Cpu.B) = None.
Proof.
  split.
  - rewrite (sbc_a_b_subtracts_h_and_flags Cpu.trace_read Cpu.trace_write Cpu.t_ie Cpu.t_if
               Cpu.trace_set_if false (Cpu.cpu_at 0x00)
               eq_refl eq_refl eq_refl eq_refl ltac:(simpl; lia)).
    split; [reflexivity | split; reflexivity].
  - exact (sbc_a_b_subtracts_h_and_flags Cpu.trace_read Cpu.trace_write Cpu.t_ie Cpu.t_if
               Cpu.trace_set_if true (Cpu.cpu_at 0x00)
             eq_refl eq_refl eq_refl eq_refl ltac:(simpl; lia)).
Defined.

(* ===================================================================== *)
(** * Further properties of the code *)

Lemma wrapping_sub_1 x :
  0 <= x < 65536 -> CpuOps.wrapping_sub x 1 = if x =? 0 then 65535 else x - 1.
Proof.
  intros Hx. unfold CpuOps.wrapping_sub. destruct (x =? 0) eqn:E.
  - apply Z.eqb_eq in E. subst. reflexivity.
  - apply Z.eqb_neq in E. apply Z.mod_small. lia.
Qed.

Lemma wrapping_add_1 x :
  0 <= x < 65536 -> Cpu.wrapping_add x 1 = if x =? 65535 then 0 else x + 1.
Proof.
  intros Hx. unfold Cpu.wrapping_add. destruct (x =? 65535) eqn:E.
  - apply Z.eqb_eq in E. subst. reflexivity.
  - apply Z.eqb_neq in E. apply Z.mod_small. lia.
Qed.

Lemma land15_mod256 x : Z.land (x mod 256) 0xF = Z.land x 0xF.
Proof.
  change 0xF with (Z.ones 4). rewrite !Z.land_ones by lia.
  apply Z.mod_mod_divide. exists 16. reflexivity.
Qed.

Lemma nibble_borrow x y : (x - y) mod 16 > x mod 16 <-> x mod 16 < y mod 16.
Proof.
  rewrite Zminus_mod.
  pose proof (Z.mod_pos_bound x 16 ltac:(lia)).
  pose proof (Z.mod_pos_bound y 16 ltac:(lia)).
  set (a := x mod 16) in *. set (b := y mod 16) in *.
  destruct (Z.lt_ge_cases a b).
  - rewrite <- (Z.mod_unique (a - b) 16 (-1) (a - b + 16)) by lia. lia.
  - rewrite Z.mod_small by lia. lia.
Qed.

(** [CPU::sub] on bytes: the result is [(A - v) mod 256]; C is set
    exactly when [v > A], Z exactly when [A = v], H exactly when the low
    nibble of [A] is below that of [v], and N is set. *)
Theorem cpu_sub_flags (r : Registers.Registers) (v : Z)
  (Ha : 0 <= Registers.a r < 256) (Hv : 0 <= v < 256) :
  CpuOps.sub r v =
    ({| Registers.zero := Registers.a r =? v; Registers.subtract := true;
        Registers.half_carry := Z.land (Registers.a r) 0xF <? Z.land v 0xF;
        Registers.carry := Registers.a r <? v |},
     (Registers.a r - v) mod 256).
Proof.
  unfold CpuOps.sub, Cpu.with_subtract, Cpu.with_half_carry, Cpu.with_zero,
    Cpu.with_carry. cbn. rewrite land15_mod256. f_equal. f_equal.
  - apply eq_true_iff_eq. rewrite !Z.eqb_eq. lia.
  - pose proof (Z.land_ones (Registers.a r - v) 4) as E1.
    pose proof (Z.land_ones (Registers.a r) 4) as E2.
    pose proof (Z.land_ones v 4) as E3. change (Z.ones 4) with 0xF in *.
    rewrite E1, E2, E3 by lia. change (2 ^ 4) with 16.
    apply eq_true_iff_eq. rewrite Z.gtb_lt, Z.ltb_lt.
    pose proof (nibble_borrow (Registers.a r) v). lia.
  - apply eq_true_iff_eq. rewrite Z.ltb_lt, Z.ltb_lt. lia.
Qed.

(** The [CP] arm keeps [A] and sets exactly the flags [SUB] sets. *)
Theorem cp_a_is_sub_flags (r : Registers.Registers) (v : Z) :
  CpuOps.cp_a r v = Cpu.with_flags r (fst (CpuOps.sub r v)) /\
  Registers.a (CpuOps.cp_a r v) = Registers.a r /\
  CpuOps.sub_a r v = Cpu.with_a (CpuOps.cp_a r v) (snd (CpuOps.sub r v)).
Proof.
  unfold CpuOps.cp_a, CpuOps.sub_a, CpuOps.sub, Cpu.with_subtract,
    Cpu.with_half_carry, Cpu.with_zero, Cpu.with_carry. cbn.
  rewrite land15_mod256.
  replace (v >? Registers.a r) with (Registers.a r - v <? 0)
    by (apply eq_true_iff_eq; rewrite Z.gtb_lt, Z.ltb_lt; lia).
  replace (Registers.a r =? v) with (Registers.a r - v =? 0)
    by (apply eq_true_iff_eq; rewrite !Z.eqb_eq; lia).
  repeat split.
Qed.

(** [CPU::inc] and [CPU::dec] on a byte [x]: INC sets Z exactly when [x]
    is 0xFF and H exactly when the low nibble of [x] is 0xF; DEC sets Z
    exactly when [x] is 1 and H exactly when the low nibble of [x] is 0;
    neither touches C; and each undoes the other. *)
Theorem cpu_inc_dec (fl fl' : Registers.FlagsRegister) (x : Z) (Hx : 0 <= x < 256) :
  CpuOps.inc fl x =
    ({| Registers.zero := x =? 0xFF; Registers.subtract := false;
        Registers.half_carry := Z.land x 0xF =? 0xF;
        Registers.carry := Registers.carry fl |}, (x + 1) mod 256) /\
  CpuOps.dec fl x =
    ({| Registers.zero := x =? 1; Registers.subtract := true;
        Registers.half_carry := Z.land x 0xF =? 0;
        Registers.carry := Registers.carry fl |}, (x - 1) mod 256) /\
  snd (CpuOps.inc fl' (snd (CpuOps.dec fl x))) = x /\
  snd (CpuOps.dec fl' (snd (CpuOps.inc fl x))) = x.
Proof.
  pose proof (Zrange_all_Z
    (fun x => Bool.eqb ((x + 1) mod 256 =? 0) (x =? 0xFF) &&
              Bool.eqb ((x - 1) mod 256 =? 0) (x =? 1) &&
              Bool.eqb (Z.land ((x - 1) mod 256) 0xF =? 0xF) (Z.land x 0xF =? 0) &&
              ((((x - 1) mod 256) + 1) mod 256 =? x) &&
              ((((x + 1) mod 256) - 1) mod 256 =? x)) 0 256
    ltac:(vm_compute; reflexivity) x ltac:(lia)) as H.
  cbn beta in H. rewrite !andb_true_iff in H.
  destruct H as [[[[H1 H2] H3] H4] H5].
  apply Bool.eqb_prop in H1, H2, H3. apply Z.eqb_eq in H4, H5.
  unfold CpuOps.inc, CpuOps.dec, Cpu.with_zero, Cpu.with_subtract,
    Cpu.with_half_carry. cbn. rewrite H1, H2, H3, H4, H5. auto.
Qed.

Lemma lor_shift_u16 hi lo :
  0 <= hi < 256 -> 0 <= lo < 256 -> 0 <= Z.lor (Z.shiftl hi 8) lo < 65536.
Proof.
  intros Hhi Hlo.
  pose proof (Zrange_all_Z
    (fun hi => forallb (fun lo => (0 <=? Z.lor (Z.shiftl hi 8) lo) &&
                                  (Z.lor (Z.shiftl hi 8) lo <? 65536))
                       (Zrange 0 (Z.to_nat 256))) 0 256
    ltac:(vm_compute; reflexivity) hi ltac:(lia)) as H.
  pose proof (Zrange_all_Z _ 0 256 H lo ltac:(lia)) as H'.
  cbn beta in H'. apply andb_true_iff in H' as [H1 H2].
  apply Z.leb_le in H1. apply Z.ltb_lt in H2. lia.
Qed.

Lemma flags_to_u8_byte fl : 0 <= Registers.flags_to_u8 fl < 256.
Proof.
  assert (H : (0 <=? Registers.flags_to_u8 fl) && (Registers.flags_to_u8 fl <? 256) = true)
    by (destruct fl as [[] [] [] []]; vm_compute; reflexivity).
  rewrite andb_true_iff, Z.leb_le, Z.ltb_lt in H. exact H.
Qed.

Lemma get_pair_u16 r t :
  CpuOps.regs_u8 r = true -> 0 <= CpuOps.get_pair r t < 65536.
Proof.
  intros H. unfold CpuOps.regs_u8 in H. cbn in H.
  rewrite !andb_true_iff, !Z.leb_le, !Z.ltb_lt in H.
  destruct t; cbn; unfold Registers.get_bc, Registers.get_de, Registers.get_hl,
    Registers.get_af; apply lor_shift_u16; try apply flags_to_u8_byte; lia.
Qed.

Lemma stack_addresses s :
  0 <= s < 65536 ->
  let s1 := CpuOps.wrapping_sub s 1 in
  let s2 := CpuOps.wrapping_sub s1 1 in
  Cpu.wrapping_add s2 1 = s1 /\ s1 <> s2 /\ Cpu.wrapping_add s1 1 = s.
Proof.
  intros Hs.
  pose proof (Zrange_all_Z
    (fun s => let s1 := CpuOps.wrapping_sub s 1 in
              let s2 := CpuOps.wrapping_sub s1 1 in
              (Cpu.wrapping_add s2 1 =? s1) && negb (s1 =? s2) &&
              (Cpu.wrapping_add s1 1 =? s)) 0 65536
    ltac:(vm_compute; reflexivity) s Hs) as H.
  cbn beta zeta in H. rewrite !andb_true_iff, negb_true_iff, !Z.eqb_eq, Z.eqb_neq in H.
  cbn zeta. tauto.
Qed.

Lemma ram_write_read (m : Z -> Z) x v m' :
  CpuOps.ram_write m x v = Some m' ->
  CpuOps.ram_read m' x = Some v /\
  forall y, y <> x -> CpuOps.ram_read m' y = CpuOps.ram_read m y.
Proof.
  unfold CpuOps.ram_write, CpuOps.ram_read. intros H. injection H as <-.
  rewrite Z.eqb_refl. split; [reflexivity|].
  intros y Hy. apply Z.eqb_neq in Hy. rewrite Hy. reflexivity.
Qed.

(** [PUSH rr] then [POP rr'] over a bus that reads back what was last
    written at an address: the popped pair is the pushed one (masked to
    [0xFFF0] when it lands in AF), [sp] is back to its old value, and both
    arms return [pc + 1], PUSH with 16 cycles and POP with 12. *)
Theorem push_pop_roundtrip {M : Type}
  (read_byte : M -> Z -> option Z) (write_byte : M -> Z -> Z -> option M)
  (Hmem : forall m x v m', write_byte m x v = Some m' ->
     read_byte m' x = Some v /\ forall y, y <> x -> read_byte m' y = read_byte m y)
  (cpu : Cpu.CPU) (t t' : CpuOps.StackTarget)
  (Hregs : CpuOps.regs_u8 (Cpu.regs cpu) = true) (Hsp : 0 <= Cpu.sp cpu < 65536)
  (cpu1 : Cpu.CPU) (n1 : Z * Z)
  (Hpush : CpuOps.push_arm write_byte cpu t = Some (cpu1, n1)) :
  let v := CpuOps.get_pair (Cpu.regs cpu) t in
  n1 = (Cpu.wrapping_add (Cpu.pc cpu) 1, 16) /\
  exists cpu2,
    CpuOps.pop_arm read_byte cpu1 t' =
      Some (cpu2, (Cpu.wrapping_add (Cpu.pc cpu) 1, 12)) /\
    CpuOps.get_pair (Cpu.regs cpu2) t' =
      (match t' with CpuOps.AF => Z.land v 0xFFF0 | _ => v end) /\
    Cpu.sp cpu2 = Cpu.sp cpu.
Proof.
  intros v. pose proof (get_pair_u16 _ t Hregs) as Hv. fold v in Hv.
  destruct (stack_addresses _ Hsp) as (E1 & N & E2).
  unfold CpuOps.push_arm, CpuOps.push in Hpush. fold v in Hpush.
  destruct (write_byte (Cpu.bus cpu) _ _) as [b1|] eqn:W1; [|discriminate].
  destruct (write_byte b1 _ _) as [b2|] eqn:W2; [|discriminate].
  injection Hpush as <- <-. split; [reflexivity|].
  destruct (Hmem _ _ _ _ W1) as [R1 _]. destruct (Hmem _ _ _ _ W2) as [R2 O2].
  unfold CpuOps.pop_arm, CpuOps.pop. cbn.
  rewrite R2, E1, O2, R1 by exact N.
  eexists; split; [reflexivity|]. cbn. split; [|exact E2].
  change (Z.lor (Z.shiftl (Z.shiftr (Z.land v 0xFF00) 8) 8) (Z.land v 0x00FF))
    with (Registers.pair_roundtrip v).
  rewrite Registers.pair_roundtrip_u16 by exact Hv.
  destruct t'; cbn.
  - apply Registers.pair_roundtrip_u16; exact Hv.
  - apply Registers.pair_roundtrip_u16; exact Hv.
  - apply Registers.pair_roundtrip_u16; exact Hv.
  - apply Registers.af_roundtrip_u16; exact Hv.
Qed.

(** [CPU::jump_relative] with a byte [v] at [pc + 1]: a taken jump goes to
    [pc + 2 + (v as i8)] (mod 2^16) in 12 cycles, except for [v = 0x80],
    where [i8::abs] overflows: a debug build panics and a release build
    jumps forward to [pc + 2 + 128]. A jump not taken goes to [pc + 2] in
    8 cycles. *)
Theorem jump_relative_target {M : Type} (read_byte : M -> Z -> option Z)
  (checked : bool) (cpu : Cpu.CPU) (v : Z)
  (Hpc : 0 <= Cpu.pc cpu < 0xFFFF)
  (Hread : read_byte (Cpu.bus cpu) (Cpu.pc cpu + 1) = Some v) (Hv : 0 <= v < 256) :
  CpuOps.jump_relative read_byte checked cpu true =
    (if v =? 0x80 then (if checked then None else Some ((Cpu.pc cpu + 2 + 128) mod 65536, 12))
     else Some ((Cpu.pc cpu + 2 + CpuOps.to_i8 v) mod 65536, 12)) /\
  CpuOps.jump_relative read_byte checked cpu false = Some ((Cpu.pc cpu + 2) mod 65536, 8).
Proof.
  split; [|reflexivity].
  unfold CpuOps.jump_relative, Cpu.add_u16.
  replace (checked && (65536 <=? Cpu.pc cpu + 1)) with false
    by (destruct checked; [symmetry; apply Z.leb_gt; lia | reflexivity]).
  rewrite (Z.mod_small (Cpu.pc cpu + 1)) by lia. rewrite Hread.
  unfold CpuOps.to_i8, Cpu.wrapping_add, CpuOps.wrapping_sub, CpuOps.i8_abs.
  destruct (v <? 128) eqn:Hlt.
  - apply Z.ltb_lt in Hlt.
    replace (v >=? 0) with true by (symmetry; apply Z.geb_le; lia).
    replace (v =? 0x80) with false by (symmetry; apply Z.eqb_neq; lia).
    rewrite (Z.mod_small v) by lia. rewrite Zplus_mod_idemp_l. reflexivity.
  - apply Z.ltb_ge in Hlt.
    replace (v - 256 >=? 0) with false by (symmetry; rewrite Z.geb_leb; apply Z.leb_gt; lia).
    destruct (v =? 0x80) eqn:H80.
    + apply Z.eqb_eq in H80. subst v. change (0x80 - 256 =? -128) with true.
      destruct checked; [reflexivity|].
      rewrite Zminus_mod_idemp_r, Zminus_mod_idemp_l. repeat f_equal; lia.
    + apply Z.eqb_neq in H80.
      replace (v - 256 =? -128) with false by (symmetry; apply Z.eqb_neq; lia).
      rewrite Zminus_mod_idemp_r, Zminus_mod_idemp_l. repeat f_equal; lia.
Qed.

(** [impl From<u8> for FlagsRegister] undoes [impl From<FlagsRegister> for
    u8], and for every byte the opposite trip keeps exactly its high
    nibble. *)
Theorem flags_u8_roundtrip (fl : Registers.FlagsRegister) (byte : Z)
  (Hbyte : 0 <= byte < 256) :
  Registers.flags_from_u8 (Registers.flags_to_u8 fl) = fl /\
  Registers.flags_to_u8 (Registers.flags_from_u8 byte) = Z.land byte 0xF0.
Proof.
  split.
  - destruct fl as [[] [] [] []]; vm_compute; reflexivity.
  - apply Z.eqb_eq.
    apply (Zrange_all_Z
      (fun byte => Registers.flags_to_u8 (Registers.flags_from_u8 byte) =? Z.land byte 0xF0)
      0 256); [vm_compute; reflexivity | lia].
Qed.

(** [RealTimeClock::write_rtc] then [read_rtc] at the same register gives
    the written value back, and leaves the other registers as they were. *)
Theorem rtc_write_read (r r' : Rtc.RealTimeClock) (address value : Z)
  (Hw : Rtc.write_rtc r address value = Some r') :
  Rtc.read_rtc r' address = Some value /\
  forall address', address' <> address ->
    Rtc.read_rtc r' address' = Rtc.read_rtc r address'.
Proof.
  destruct r as [s0 m0 h0 dl0 dh0 z0]. unfold Rtc.write_rtc in Hw.
  repeat (match type of Hw with context [address =? ?k] =>
            destruct (Z.eqb_spec address k) end;
    [subst address; cbn in Hw; injection Hw as <-; split;
       [reflexivity
       | intros a' Ha'; unfold Rtc.read_rtc; cbn;
         repeat match goal with |- context [a' =? ?k] => destruct (Z.eqb_spec a' k) end;
         solve [reflexivity | lia]]
    |]).
  discriminate.
Qed.

(** [read_rtc] and [write_rtc] are [unreachable!()] outside the RTC
    registers 0x08..=0x0C. *)
Theorem rtc_bad_register (r : Rtc.RealTimeClock) (address value : Z) :
  (Rtc.read_rtc r address = None <-> ~ (0x08 <= address <= 0x0C)) /\
  (Rtc.write_rtc r address value = None <-> ~ (0x08 <= address <= 0x0C)).
Proof.
  destruct r as [s0 m0 h0 dl0 dh0 z0]. unfold Rtc.read_rtc, Rtc.write_rtc. cbn.
  repeat match goal with |- context [address =? ?k] => destruct (Z.eqb_spec address k) end;
    split; split; intros; solve [discriminate | lia | reflexivity].
Qed.

(** [RealTimeClock::tick] once the clock is not ahead of [now]: seconds
    and minutes below 60, hours below 24, DL a byte, [zero] kept, the bits
    already set in DH kept; and ticking again at the same time changes
    nothing. *)
Theorem rtc_tick_bounds (r : Rtc.RealTimeClock) (now : Z) (Hnow : Rtc.zero r <= now) :
  exists r', Rtc.tick r now = Some r' /\
    0 <= Rtc.s r' < 60 /\ 0 <= Rtc.m r' < 60 /\ 0 <= Rtc.hh r' < 24 /\
    0 <= Rtc.dl r' < 256 /\ Rtc.zero r' = Rtc.zero r /\
    Z.lor (Rtc.dh r) (Rtc.dh r') = Rtc.dh r' /\
    Rtc.tick r' now = Some r'.
Proof.
  unfold Rtc.tick.
  replace (now - Rtc.zero r <? 0) with false by (symmetry; apply Z.ltb_ge; lia).
  eexists; split; [reflexivity|]. cbn.
  replace (now - Rtc.zero r <? 0) with false by (symmetry; apply Z.ltb_ge; lia).
  set (d := now - Rtc.zero r).
  pose proof (Z.mod_pos_bound d 60 ltac:(lia)).
  pose proof (Z.mod_pos_bound (d / 60) 60 ltac:(lia)).
  pose proof (Z.mod_pos_bound (d / 3600) 24 ltac:(lia)).
  pose proof (Z.mod_pos_bound ((d / 3600 / 24) mod 2 ^ 16) 256 ltac:(lia)).
  repeat split; try lia.
  - destruct (_ <=? 0xFF); [|destruct (_ <=? 0x1FF)];
      rewrite ?Z.lor_assoc, Z.lor_diag; reflexivity.
  - do 2 f_equal.
    destruct (_ <=? 0xFF); [reflexivity|destruct (_ <=? 0x1FF)];
      rewrite <- ?Z.lor_assoc, ?Z.lor_diag; reflexivity.
Qed.

Lemma land_lor_mask_clear b m x k :
  Z.land m k = 0 -> Z.land (Z.lor (Z.land b m) x) k = Z.land x k.
Proof.
  intros H. rewrite Z.land_lor_distr_l, <- Z.land_assoc, H, Z.land_0_r, Z.lor_0_l.
  reflexivity.
Qed.

Lemma land_ones_bound x k : 0 <= k -> 0 <= Z.land x (Z.ones k) < 2 ^ k.
Proof.
  intros Hk. rewrite Z.land_ones by exact Hk.
  apply Z.mod_pos_bound. apply Z.pow_pos_nonneg; lia.
Qed.

(** [write_byte_mbc1]: writing the low bank bits at 0x2000..=0x3FFF and
    then the high bits at 0x4000..=0x5FFF selects bank
    [(hi & 3) << 5 | low], where [low] is [lo & 0x1F] with 0 read as 1,
    whatever the bank was before and in either order. In ROM mode the ROM
    bank is that whole bank and the RAM bank 0; in RAM mode the ROM bank is
    [low] and the RAM bank [hi & 3]. The low five bits of the ROM bank are
    never 0. *)
Theorem mbc1_bank_select (c c1 c2 : Cartridge.Cartridge) (a1 a2 lo hi now : Z)
  (Hm : Cartridge.mbc c = Cartridge.MBC1)
  (Ha1 : 0x2000 <= a1 <= 0x3FFF) (Ha2 : 0x4000 <= a2 <= 0x5FFF)
  (H1 : Cartridge.write_byte c a1 lo now = Some c1)
  (H2 : Cartridge.write_byte c1 a2 hi now = Some c2) :
  let low := if Z.land lo 0x1F =? 0 then 1 else Z.land lo 0x1F in
  Cartridge.bank c2 = Z.lor (Z.shiftl (Z.land hi 0x03) 5) low /\
  Cartridge.mbc1_rom_bank c2 =
    (match Cartridge.bank_mode c with Cartridge.Rom => Cartridge.bank c2
     | Cartridge.Ram => low end) /\
  Cartridge.mbc1_ram_bank c2 =
    (match Cartridge.bank_mode c with Cartridge.Rom => 0
     | Cartridge.Ram => Z.land hi 0x03 end) /\
  Z.land (Cartridge.mbc1_rom_bank c2) 0x1F <> 0 /\
  (forall c1' c2', Cartridge.write_byte c a2 hi now = Some c1' ->
     Cartridge.write_byte c1' a1 lo now = Some c2' ->
     Cartridge.bank c2' = Cartridge.bank c2).
Proof.
  intros low.
  assert (Hlow : 1 <= low < 32).
  { pose proof (land_ones_bound lo 5 ltac:(lia)) as B. change (Z.ones 5) with 0x1F in B.
    change (2 ^ 5) with 32 in B. unfold low.
    destruct (Z.eqb_spec (Z.land lo 0x1F) 0); lia. }
  assert (Hy : 0 <= Z.land hi 0x03 < 4).
  { pose proof (land_ones_bound hi 2 ltac:(lia)) as B. exact B. }
  pose proof (Zrange_all_Z
    (fun x => forallb (fun y =>
       let bk := Z.lor (Z.land x 0x9F) (Z.shiftl y 5) in
       (bk =? Z.lor (Z.shiftl y 5) x) &&
       (Z.lor (Z.land (Z.shiftl y 5) 0x60) x =? bk) &&
       (Z.land bk 0x7F =? bk) && (Z.land bk 0x1F =? x) &&
       (Z.shiftr (Z.land bk 0x60) 5 =? y) && (Z.land x 0x1F =? x))
       (Zrange 0 (Z.to_nat 4))) 0 32
    ltac:(vm_compute; reflexivity) low ltac:(lia)) as P.
  pose proof (Zrange_all_Z _ 0 4 P (Z.land hi 0x03) ltac:(lia)) as Q. cbn beta zeta in Q.
  rewrite !andb_true_iff, !Z.eqb_eq in Q. destruct Q as [[[[[Q1 Q2] Q3] Q4] Q5] Q6].
  unfold Cartridge.write_byte in H1. rewrite Hm in H1.
  unfold Cartridge.write_byte_mbc1 in H1. revert H1. decide_ranges. fold low.
  intros [= <-].
  unfold Cartridge.write_byte in H2. cbn in H2. rewrite Hm in H2.
  unfold Cartridge.write_byte_mbc1 in H2. revert H2. decide_ranges.
  intros [= <-]. cbn.
  rewrite land_lor_mask_clear by reflexivity.
  unfold Cartridge.mbc1_rom_bank, Cartridge.mbc1_ram_bank. cbn.
  rewrite Q1 in Q3, Q4, Q5. split; [exact Q1|].
  split; [destruct (Cartridge.bank_mode c); rewrite Q1; [exact Q3 | exact Q4]|].
  split; [destruct (Cartridge.bank_mode c); [reflexivity | rewrite Q1; exact Q5]|].
  split; [destruct (Cartridge.bank_mode c); rewrite Q1; [rewrite Q3, Q4 | rewrite Q4, Q6]; lia|].
  intros c1' c2' H3 H4.
  unfold Cartridge.write_byte in H3. rewrite Hm in H3.
  unfold Cartridge.write_byte_mbc1 in H3. revert H3. decide_ranges.
  intros [= <-].
  unfold Cartridge.write_byte in H4. cbn in H4. rewrite Hm in H4.
  unfold Cartridge.write_byte_mbc1 in H4. revert H4. decide_ranges. fold low.
  intros [= <-]. cbn.
  rewrite !land_lor_mask_clear by reflexivity. exact Q2.
Qed.

(** [Cartridge::write_byte] of a value whose low nibble is not 0xA to the
    RAM-enable range 0x0000..=0x1FFF (for MBC2, at an address with bit 8
    clear) disables the external RAM: from then on every read of it gives
    0x00 and every write to it leaves the cartridge unchanged. *)
Theorem cart_ram_disabled (c c1 : Cartridge.Cartridge) (address value a v now now' : Z)
  (Hm : Cartridge.mbc c <> Cartridge.MBCNone)
  (Ha : 0x0000 <= address <= 0x1FFF)
  (H8 : Cartridge.mbc c = Cartridge.MBC2 -> Z.land address 0x0100 = 0)
  (Hv : Z.land value 0x0F <> 0x0A)
  (Hw : Cartridge.write_byte c address value now = Some c1)
  (Hr : 0xA000 <= a <=
        match Cartridge.mbc c with Cartridge.MBC2 => 0xA1FF | _ => 0xBFFF end) :
  Cartridge.read_byte c1 a = Some 0x00 /\ Cartridge.write_byte c1 a v now' = Some c1.
Proof.
  apply Z.eqb_neq in Hv.
  unfold Cartridge.write_byte, Cartridge.read_byte in *.
  destruct (Cartridge.mbc c) eqn:Em; [congruence| | | |].
  - unfold Cartridge.write_byte_mbc1 in Hw. revert Hw. decide_ranges.
    rewrite Hv. intros [= <-]. cbn. rewrite Em.
    unfold Cartridge.read_byte_mbc1, Cartridge.write_byte_mbc1. cbn. decide_ranges.
    split; reflexivity.
  - specialize (H8 eq_refl).
    unfold Cartridge.write_byte_mbc2 in Hw. revert Hw. decide_ranges.
    rewrite H8. cbn. rewrite Hv. intros [= <-]. cbn. rewrite Em.
    unfold Cartridge.read_byte_mbc2, Cartridge.write_byte_mbc2. cbn. decide_ranges.
    split; reflexivity.
  - unfold Cartridge.write_byte_mbc3 in Hw. revert Hw. decide_ranges.
    rewrite Hv. intros [= <-]. cbn. rewrite Em.
    unfold Cartridge.read_byte_mbc3, Cartridge.write_byte_mbc3. cbn. decide_ranges.
    split; reflexivity.
  - unfold Cartridge.write_byte_mbc5 in Hw. revert Hw. decide_ranges.
    rewrite Hv. intros [= <-]. cbn. rewrite Em.
    unfold Cartridge.read_byte_mbc5, Cartridge.write_byte_mbc5. cbn. decide_ranges.
    split; reflexivity.
Qed.

(** [write_byte_mbc1] panics exactly on a banking-mode write
    (0x6000..=0x7FFF) of a value other than 0 and 1, and on a write to
    enabled, non-empty external RAM whose index falls outside it. *)
Theorem mbc1_write_panics (c : Cartridge.Cartridge) (a v now : Z)
  (Hm : Cartridge.mbc c = Cartridge.MBC1) :
  Cartridge.write_byte c a v now = None <->
    (0x6000 <= a <= 0x7FFF /\ v <> 0 /\ v <> 1) \/
    (0xA000 <= a <= 0xBFFF /\ Cartridge.ram_enabled c = true /\
     Cartridge.game_ram c <> [] /\
     ~ (0 <= Cartridge.mbc1_ram_bank c * 0x2000 + a - 0xA000
          < Z.of_nat (length (Cartridge.game_ram c)))).
Proof.
  unfold Cartridge.write_byte. rewrite Hm. unfold Cartridge.write_byte_mbc1.
  decide_ranges.
  all: try (split; [discriminate | intros [(? & ? & ?)|(? & ?)]; lia]).
  - destruct (Cartridge.ram_enabled c); cbn;
      [| split; [discriminate | intros [[? ?]|(? & ? & ?)]; [lia | discriminate]]].
    destruct (Cartridge.game_ram c) as [|x xs] eqn:Er; cbn.
    + split; [discriminate | intros [[? ?]|(? & ? & ? & ?)]; [lia | congruence]].
    + unfold Cartridge.store_ram, store. rewrite Er.
      set (i := Cartridge.mbc1_ram_bank c * 0x2000 + a - 0xA000).
      destruct ((0 <=? i) && (i <? Z.of_nat (length (x :: xs)))) eqn:Ei.
      * apply andb_true_iff in Ei as [Ei1 Ei2]. apply Z.leb_le in Ei1.
        apply Z.ltb_lt in Ei2. cbn [length] in *.
        split; [discriminate | intros [[? ?]|(? & ? & ? & Hn)]; [lia | exfalso; apply Hn; lia]].
      * apply andb_false_iff in Ei. cbn [length] in *.
        split; [intros _; right; repeat split; try lia; try discriminate|reflexivity].
        destruct Ei as [Ei|Ei]; [apply Z.leb_gt in Ei | apply Z.ltb_ge in Ei]; lia.
  - destruct (Z.eqb_spec v 0); [split; [discriminate | intros [(? & ? & ?)|[? ?]]; lia]|].
    destruct (Z.eqb_spec v 1); [split; [discriminate | intros [(? & ? & ?)|[? ?]]; lia]|].
    split; [intros _; left; lia | reflexivity].
Qed.

Lemma read_rtc_none r k : Rtc.read_rtc r k = None <-> ~ (0x08 <= k <= 0x0C).
Proof.
  unfold Rtc.read_rtc.
  repeat match goal with |- context [k =? ?n] => destruct (Z.eqb_spec k n) end;
    split; intros; solve [discriminate | lia | reflexivity].
Qed.

Lemma write_rtc_read_same r k v r' :
  Rtc.write_rtc r k v = Some r' -> Rtc.read_rtc r' k = Some v.
Proof.
  destruct r as [s0 m0 h0 dl0 dh0 z0]. unfold Rtc.write_rtc.
  repeat match goal with |- context [k =? ?n] => destruct (Z.eqb_spec k n) end;
    intros H; try discriminate; injection H as <-; subst k; reflexivity.
Qed.

(** MBC3 with RAM enabled, once a value [sel] with [sel & 0xF >= 4] is
    written to the RAM-bank register 0x4000..=0x5FFF: a read anywhere in
    0xA000..=0xBFFF panics unless [sel & 0xF] names an RTC register
    (0x08..=0x0C), and a write anywhere there is read back at every address
    of the range, since all of them map to the one RTC register. *)
Theorem mbc3_rtc_select (c c1 : Cartridge.Cartridge) (a sel a' now : Z)
  (Hm : Cartridge.mbc c = Cartridge.MBC3) (Hen : Cartridge.ram_enabled c = true)
  (Ha : 0x4000 <= a <= 0x5FFF)
  (Hw : Cartridge.write_byte c a sel now = Some c1)
  (Hsel : 4 <= Z.land sel 0x0F) (Ha' : 0xA000 <= a' <= 0xBFFF) :
  (Cartridge.read_byte c1 a' = None <-> ~ (0x08 <= Z.land sel 0x0F <= 0x0C)) /\
  forall v now' c2, Cartridge.write_byte c1 a' v now' = Some c2 ->
    forall a'', 0xA000 <= a'' <= 0xBFFF -> Cartridge.read_byte c2 a'' = Some v.
Proof.
  unfold Cartridge.write_byte in Hw. rewrite Hm in Hw.
  unfold Cartridge.write_byte_mbc3 in Hw. revert Hw. decide_ranges.
  intros [= <-].
  replace (Z.land sel 0x0F <=? 0x03) with false by (symmetry; apply Z.leb_gt; lia).
  unfold Cartridge.read_byte, Cartridge.write_byte. cbn. rewrite Hm.
  unfold Cartridge.read_byte_mbc3, Cartridge.write_byte_mbc3. cbn. rewrite Hen.
  decide_ranges.
  replace (Z.land sel 0x0F <=? 0x03) with false by (symmetry; apply Z.leb_gt; lia).
  split; [apply read_rtc_none|].
  intros v now' c2 H a'' Ha''.
  destruct (Rtc.write_rtc _ _ _) as [r'|] eqn:Er; [|discriminate].
  injection H as <-. cbn. rewrite Hm, Hen. decide_ranges.
  replace (Z.land sel 0x0F <=? 0x03) with false by (symmetry; apply Z.leb_gt; lia).
  eapply write_rtc_read_same. exact Er.
Qed.

(** [write_byte_mbc5]: writing [lo] to 0x2000..=0x2FFF and [hi] to
    0x3000..=0x3FFF, in either order, selects ROM bank
    [(hi & 1) << 8 | lo], whatever the bank was before; bank 0 can be
    selected. *)
Theorem mbc5_bank_select (c c1 c2 c1' c2' : Cartridge.Cartridge) (a1 a2 lo hi now : Z)
  (Hm : Cartridge.mbc c = Cartridge.MBC5)
  (Ha1 : 0x2000 <= a1 <= 0x2FFF) (Ha2 : 0x3000 <= a2 <= 0x3FFF) (Hlo : 0 <= lo < 256)
  (H1 : Cartridge.write_byte c a1 lo now = Some c1)
  (H2 : Cartridge.write_byte c1 a2 hi now = Some c2)
  (H1' : Cartridge.write_byte c a2 hi now = Some c1')
  (H2' : Cartridge.write_byte c1' a1 lo now = Some c2') :
  Cartridge.rom_bank c2 = Z.lor (Z.shiftl (Z.land hi 0x01) 8) lo /\
  Cartridge.rom_bank c2' = Cartridge.rom_bank c2.
Proof.
  assert (Hy : 0 <= Z.land hi 0x01 < 2) by exact (land_ones_bound hi 1 ltac:(lia)).
  pose proof (Zrange_all_Z
    (fun x => forallb (fun y =>
       (Z.lor (Z.land x 0xFF) (Z.shiftl y 8) =? Z.lor (Z.shiftl y 8) x) &&
       (Z.lor (Z.land (Z.shiftl y 8) 0x100) x =? Z.lor (Z.shiftl y 8) x))
       (Zrange 0 (Z.to_nat 2))) 0 256
    ltac:(vm_compute; reflexivity) lo ltac:(lia)) as P.
  pose proof (Zrange_all_Z _ 0 2 P (Z.land hi 0x01) ltac:(lia)) as Q. cbn beta in Q.
  rewrite !andb_true_iff, !Z.eqb_eq in Q. destruct Q as [Q1 Q2].
  unfold Cartridge.write_byte in H1, H1'. rewrite Hm in H1, H1'.
  unfold Cartridge.write_byte_mbc5 in H1, H1'.
  revert H1. decide_ranges. intros [= <-].
  revert H1'. decide_ranges. intros [= <-].
  unfold Cartridge.write_byte in H2, H2'. cbn in H2, H2'. rewrite Hm in H2, H2'.
  unfold Cartridge.write_byte_mbc5 in H2, H2'.
  revert H2. decide_ranges. intros [= <-].
  revert H2'. decide_ranges. intros [= <-]. cbn.
  rewrite !land_lor_mask_clear by reflexivity. rewrite Q1, Q2. split; reflexivity.
Qed.

(** [GPU::write_registers] then [GPU::read_registers] at the same register:
    LCDC, SCY, SCX, LYC, BGP, OBP0, OBP1, WY and WX read back the byte
    written; STAT reads back bits 3..6 of it with the LY=LYC bit and the
    mode; LY reads 0 (a write resets it); VBK reads [0xFE | (v & 1)]; BGPI
    and OBPI read back everything but bit 6. *)
Theorem gpu_register_readback (g : Gpu.GPU) (v : Z)
  (Hv : 0 <= v < 256) (Hm : 0 <= Gpu.mode g <= 3) :
  (forall address, In address [0xFF40; 0xFF42; 0xFF43; 0xFF45; 0xFF47; 0xFF48;
                               0xFF49; 0xFF4A; 0xFF4B] ->
     write_then_read g address v = Some v) /\
  write_then_read g 0xFF41 v =
    Some (Z.lor (Z.lor (Z.land v 0x78)
                       (if Gpu.current_line g =? Gpu.lyc g then 0x04 else 0x00))
                (Gpu.mode g)) /\
  write_then_read g 0xFF44 v = Some 0 /\
  write_then_read g 0xFF4F v = Some (Z.lor 0xFE (Z.land v 0x01)) /\
  write_then_read g 0xFF68 v = Some (Z.land v 0xBF) /\
  write_then_read g 0xFF6A v = Some (Z.land v 0xBF).
Proof.
  pose proof (Zrange_all_Z
    (fun v => forallb (fun m => forallb (fun cb =>
       (Z.lor (Z.lor (Z.lor (Z.lor (Z.lor
          (if negb (Z.land v 0x40 =? 0x00) then 0x40 else 0x00)
          (if negb (Z.land v 0x20 =? 0x00) then 0x20 else 0x00))
          (if negb (Z.land v 0x10 =? 0x00) then 0x10 else 0x00))
          (if negb (Z.land v 0x08 =? 0x00) then 0x08 else 0x00)) cb) m
        =? Z.lor (Z.lor (Z.land v 0x78) cb) m)) [0; 4]) (Zrange 0 (Z.to_nat 4)) &&
       (Z.lor (if negb (Z.land v 0x80 =? 0x00) then 0x80 else 0x00) (Z.land v 0x3F)
        =? Z.land v 0xBF)) 0 256
    ltac:(vm_compute; reflexivity) v Hv) as P.
  cbn beta in P. apply andb_true_iff in P as [P1 P2]. apply Z.eqb_eq in P2.
  pose proof (Zrange_all_Z _ 0 4 P1 (Gpu.mode g) ltac:(lia)) as Q. cbn beta in Q.
  apply andb_true_iff in Q as [Q0 Q]. apply andb_true_iff in Q as [Q4 _].
  apply Z.eqb_eq in Q0, Q4.
  unfold write_then_read.
  split; [|split; [|split; [reflexivity|split; [reflexivity|split]]]].
  - intros address Ha. cbn in Ha.
    repeat destruct Ha as [<-|Ha]; [| | | | | | | | | contradiction];
      unfold Gpu.write_registers, Gpu.read_registers; cbn;
      try reflexivity.
    destruct (Gpu.lcd_enabled _); reflexivity.
  - unfold Gpu.write_registers, Gpu.read_registers. cbn.
    destruct (Gpu.current_line g =? Gpu.lyc g); [rewrite Q4 | rewrite Q0]; reflexivity.
  - unfold Gpu.write_registers, Gpu.read_registers, Gpu.gpi_read. cbn. rewrite P2.
    reflexivity.
  - unfold Gpu.write_registers, Gpu.read_registers, Gpu.gpi_read. cbn. rewrite P2.
    reflexivity.
Qed.

Lemma pal_set_get p r c k v p' :
  0 <= k -> Gpu.pal_set p r c k v = Some p' ->
  forall k', 0 <= k' -> Gpu.pal_get p' r c k' = if k' =? k then Some v else Gpu.pal_get p r c k'.
Proof.
  intros Hk. unfold Gpu.pal_set, Gpu.pal_get.
  destruct (p !! Z.to_nat r) as [row|] eqn:Er; [|cbn; intros; discriminate]. cbn -[Nat.ltb].
  destruct (row !! Z.to_nat c) as [col|] eqn:Ec; [|cbn; intros; discriminate]. cbn -[Nat.ltb].
  destruct (Z.to_nat k <? length col)%nat eqn:Elt; [|cbn; intros; discriminate].
  apply Nat.ltb_lt in Elt. intros [= <-] k' Hk'.
  apply lookup_lt_Some in Er as Hr. apply lookup_lt_Some in Ec as Hc.
  rewrite (list_lookup_insert_eq p (Z.to_nat r)) by exact Hr. cbn.
  rewrite (list_lookup_insert_eq row (Z.to_nat c)) by exact Hc. cbn.
  destruct (Z.eqb_spec k' k).
  - subst k'. apply list_lookup_insert_eq. exact Elt.
  - apply list_lookup_insert_ne. lia.
Qed.

Lemma pal_set_some p r c k v x :
  Gpu.pal_get p r c k = Some x -> exists p', Gpu.pal_set p r c k v = Some p'.
Proof.
  unfold Gpu.pal_set, Gpu.pal_get.
  destruct (p !! Z.to_nat r) as [row|]; [|cbn; intros; discriminate]. cbn -[Nat.ltb].
  destruct (row !! Z.to_nat c) as [col|]; [|cbn; intros; discriminate]. cbn -[Nat.ltb].
  intros H. apply lookup_lt_Some in H.
  destruct (Z.to_nat k <? length col)%nat eqn:Elt; [eauto|].
  apply Nat.ltb_ge in Elt. lia.
Qed.

Lemma pal_shaped_get p r c k :
  pal_shaped p = true -> 0 <= r < 8 -> 0 <= c < 4 -> 0 <= k < 3 ->
  exists x, Gpu.pal_get p r c k = Some x.
Proof.
  intros Hp Hr Hc Hk. unfold pal_shaped in Hp.
  apply andb_true_iff in Hp as [Hl Hf]. apply Nat.eqb_eq in Hl.
  rewrite forallb_forall in Hf.
  destruct (lookup_lt_is_Some_2 p (Z.to_nat r)) as [row Er]; [lia|].
  specialize (Hf row (proj1 (list_elem_of_In _ _) (list_elem_of_lookup_2 _ _ _ Er))).
  apply andb_true_iff in Hf as [Hl' Hf]. apply Nat.eqb_eq in Hl'.
  rewrite forallb_forall in Hf.
  destruct (lookup_lt_is_Some_2 row (Z.to_nat c)) as [col Ec]; [lia|].
  specialize (Hf col (proj1 (list_elem_of_In _ _) (list_elem_of_lookup_2 _ _ _ Ec))).
  apply Nat.eqb_eq in Hf.
  destruct (lookup_lt_is_Some_2 col (Z.to_nat k)) as [x Ek]; [lia|].
  exists x. unfold Gpu.pal_get. apply bind_Some. exists row. split; [exact Er|].
  apply bind_Some. exists col. split; [exact Ec | exact Ek].
Qed.

Lemma palette_write_read p idx v :
  pal_shaped p = true -> 0 <= idx < 64 -> 0 <= v < 256 ->
  exists p', Gpu.palette_write p idx v = Some p' /\
    Gpu.palette_read p' idx = Some (if Z.land idx 0x01 =? 0 then v else Z.land v 0x7F).
Proof.
  intros Hp Hi Hv. unfold Gpu.palette_write, Gpu.palette_read. cbv zeta.
  set (r := Z.shiftr idx 3). set (c := Z.land (Z.shiftr idx 1) 3).
  assert (Hr : 0 <= r < 8)
    by (unfold r; rewrite Z.shiftr_div_pow2 by lia; change (2 ^ 3) with 8;
        split; [apply Z.div_pos | apply Z.div_lt_upper_bound]; lia).
  assert (Hc : 0 <= c < 4) by exact (land_ones_bound (Z.shiftr idx 1) 2 ltac:(lia)).
  destruct (pal_shaped_get p r c 0 Hp Hr Hc ltac:(lia)) as [x0 H0].
  destruct (pal_shaped_get p r c 1 Hp Hr Hc ltac:(lia)) as [x1 H1].
  destruct (Z.land idx 1 =? 0) eqn:Ep.
  - destruct (pal_set_some p r c 0 (Z.land v 0x1F) x0 H0) as [p1 E1].
    pose proof (pal_set_get p r c 0 _ p1 ltac:(lia) E1) as G1.
    assert (G11 : Gpu.pal_get p1 r c 1 = Some x1) by (rewrite G1 by lia; exact H1).
    destruct (pal_set_some p1 r c 1 (Z.lor (Z.land x1 0x18) (Z.shiftr v 5)) x1 G11)
      as [p2 E2].
    pose proof (pal_set_get p1 r c 1 _ p2 ltac:(lia) E2) as G2.
    exists p2. rewrite E1. cbn -[Gpu.pal_get Gpu.pal_set]. rewrite G11.
    cbn -[Gpu.pal_get Gpu.pal_set]. split; [exact E2|].
    rewrite (G2 0), (G2 1), (G1 0) by lia. cbn -[Gpu.pal_get Gpu.pal_set].
    pose proof (land_ones_bound x1 5 ltac:(lia)) as B. change (Z.ones 5) with 0x1F in B.
    replace (Z.land x1 0x18) with (Z.land (Z.land x1 0x1F) 0x18)
      by (rewrite <- Z.land_assoc; reflexivity).
    pose proof (Zrange_all_Z
      (fun v => forallb (fun o =>
         Z.lor (Z.land v 0x1F) (Z.shiftl (Z.lor (Z.land o 0x18) (Z.shiftr v 5)) 5 mod 256) =? v)
         (Zrange 0 (Z.to_nat 32))) 0 256 ltac:(vm_compute; reflexivity) v Hv) as P.
    pose proof (Zrange_all_Z _ 0 32 P (Z.land x1 0x1F) ltac:(lia)) as Q. cbn beta in Q.
    apply Z.eqb_eq in Q. rewrite Q. reflexivity.
  - destruct (pal_set_some p r c 1 (Z.lor (Z.land x1 0x07) (Z.shiftl (Z.land v 0x03) 3)) x1 H1)
      as [p1 E1].
    pose proof (pal_set_get p r c 1 _ p1 ltac:(lia) E1) as G1.
    destruct (pal_shaped_get p r c 2 Hp Hr Hc ltac:(lia)) as [x2 H2].
    assert (G12 : Gpu.pal_get p1 r c 2 = Some x2) by (rewrite G1 by lia; exact H2).
    destruct (pal_set_some p1 r c 2 (Z.land (Z.shiftr v 2) 0x1F) x2 G12) as [p2 E2].
    pose proof (pal_set_get p1 r c 2 _ p2 ltac:(lia) E2) as G2.
    exists p2. rewrite H1. cbn -[Gpu.pal_get Gpu.pal_set]. rewrite E1.
    cbn -[Gpu.pal_get Gpu.pal_set]. split; [exact E2|].
    rewrite (G2 1), (G2 2), (G1 1) by lia. cbn -[Gpu.pal_get Gpu.pal_set].
    pose proof (land_ones_bound x1 3 ltac:(lia)) as B. change (Z.ones 3) with 0x07 in B.
    pose proof (Zrange_all_Z
      (fun v => forallb (fun o =>
         Z.lor (Z.shiftr (Z.lor o (Z.shiftl (Z.land v 0x03) 3)) 3)
               (Z.shiftl (Z.land (Z.shiftr v 2) 0x1F) 2 mod 256) =? Z.land v 0x7F)
         (Zrange 0 (Z.to_nat 8))) 0 256 ltac:(vm_compute; reflexivity) v Hv) as P.
    pose proof (Zrange_all_Z _ 0 8 P (Z.land x1 0x07) ltac:(lia)) as Q. cbn beta in Q.
    apply Z.eqb_eq in Q. rewrite Q. reflexivity.
Qed.

(** A BGPD (0xFF69) or OBPD (0xFF6B) write of a byte [v] in
    [GPU::write_registers], on CGB palette memory laid out as [GPU::new]
    has it: the colour byte at the current index then reads back as [v]
    (for an odd index, [v & 0x7F], the unused top bit dropped), and the
    index moves to [(index + 1) & 0x3F] exactly when auto-increment is on. *)
Theorem cgb_palette_data_write (g : Gpu.GPU) (v : Z) (Hv : 0 <= v < 256)
  (Hb : pal_shaped (Gpu.bgpd g) = true) (Hbi : 0 <= Gpu.bgpi_index g < 64)
  (Ho : pal_shaped (Gpu.obpd g) = true) (Hoi : 0 <= Gpu.obpi_index g < 64) :
  (exists g', Gpu.write_registers g 0xFF69 v = Some g' /\
     Gpu.palette_read (Gpu.bgpd g') (Gpu.bgpi_index g) =
       Some (if Z.land (Gpu.bgpi_index g) 0x01 =? 0 then v else Z.land v 0x7F) /\
     Gpu.bgpi_index g' =
       (if Gpu.bgpi_auto_increment g then Z.land (Gpu.bgpi_index g + 1) 0x3F
        else Gpu.bgpi_index g)) /\
  (exists g', Gpu.write_registers g 0xFF6B v = Some g' /\
     Gpu.palette_read (Gpu.obpd g') (Gpu.obpi_index g) =
       Some (if Z.land (Gpu.obpi_index g) 0x01 =? 0 then v else Z.land v 0x7F) /\
     Gpu.obpi_index g' =
       (if Gpu.obpi_auto_increment g then Z.land (Gpu.obpi_index g + 1) 0x3F
        else Gpu.obpi_index g)).
Proof.
  destruct (palette_write_read (Gpu.bgpd g) (Gpu.bgpi_index g) v Hb Hbi Hv) as (pb & Eb & Rb).
  destruct (palette_write_read (Gpu.obpd g) (Gpu.obpi_index g) v Ho Hoi Hv) as (po & Eo & Ro).
  split.
  - eexists; split.
    + unfold Gpu.write_registers. cbn -[Gpu.palette_write]. rewrite Eb. reflexivity.
    + destruct (Gpu.bgpi_auto_increment g); cbn; split; assumption || reflexivity.
  - eexists; split.
    + unfold Gpu.write_registers. cbn -[Gpu.palette_write]. rewrite Eo. reflexivity.
    + destruct (Gpu.obpi_auto_increment g); cbn; split; assumption || reflexivity.
Qed.

Lemma index_store_other xs i v xs' j :
  store xs i v = Some xs' -> j <> i -> index xs' j = index xs j.
Proof.
  unfold store, index. destruct (_ && _) eqn:E; [|discriminate].
  intros [= <-] Hj. apply andb_true_iff in E as [E1 E2]. apply Z.leb_le in E1.
  destruct (0 <=? j) eqn:Ej; [|reflexivity]. apply Z.leb_le in Ej.
  apply list_lookup_insert_ne. lia.
Qed.

(** VRAM banking through [GPU::write_registers] (VBK, 0xFF4F) and
    [GPU::write_vram]/[GPU::read_vram] on the 16 KiB VRAM of [GPU::new]:
    after selecting bank [b & 1], a write at 0x8000..=0x9FFF reads back at
    the same address, VBK reads [0xFE | (b & 1)], and every other cell of
    either bank keeps its value. *)
Theorem vram_bank_write_read (g g1 : Gpu.GPU) (b address value : Z)
  (Hlen : Z.of_nat (length (Gpu.vram g)) = 0x4000) (Ha : 0x8000 <= address <= 0x9FFF)
  (H1 : Gpu.write_registers g 0xFF4F b = Some g1) :
  exists g2, Gpu.write_vram g1 address value = Some g2 /\
    Gpu.read_vram g2 address = Some value /\
    Gpu.read_registers g2 0xFF4F = Some (Z.lor 0xFE (Z.land b 0x01)) /\
    forall bank' address', 0 <= bank' <= 1 -> 0x8000 <= address' <= 0x9FFF ->
      (bank', address') <> (Z.land b 0x01, address) ->
      Gpu.read_vram (Gpu.set_vram_bank g2 bank') address' =
      Gpu.read_vram (Gpu.set_vram_bank g bank') address'.
Proof.
  injection H1 as <-.
  pose proof (land_ones_bound b 1 ltac:(lia)) as B. change (Z.ones 1) with 0x01 in B.
  change (2 ^ 1) with 2 in B.
  destruct (store_in_range (Gpu.vram g) (Z.land b 0x01 * 0x2000 + address - 0x8000) value)
    as [xs Es]; [rewrite Hlen; lia|].
  exists (Gpu.set_vram (Gpu.set_vram_bank g (Z.land b 0x01)) xs).
  unfold Gpu.write_vram. cbn. rewrite Es. split; [reflexivity|].
  split; [unfold Gpu.read_vram; cbn; eapply index_store; exact Es|].
  split; [reflexivity|].
  intros bank' address' Hb' Ha' Hne. unfold Gpu.read_vram. cbn.
  eapply index_store_other; [exact Es|].
  intros E. apply Hne. f_equal; lia.
Qed.

Lemma divider_loop_bounds fuel reg cnt :
  0 <= reg < 256 -> 0 <= cnt ->
  0 <= fst (Timer.divider_loop fuel reg cnt) < 256 /\
  0 <= snd (Timer.divider_loop fuel reg cnt).
Proof.
  revert reg cnt. induction fuel as [|fuel IH]; intros reg cnt Hr Hc; cbn; [lia|].
  destruct (cnt >? 256) eqn:E; cbn; [|lia].
  apply Z.gtb_lt in E. apply IH; [|lia].
  apply Z.mod_pos_bound. lia.
Qed.

Lemma tima_loop_fields n t :
  0 <= Timer.tima t < 256 -> 0 <= Timer.tma t < 256 ->
  0 <= Timer.tima (Timer.tima_loop n t) < 256 /\
  Timer.clock_counter (Timer.tima_loop n t) = Timer.clock_counter t /\
  Timer.divider_register (Timer.tima_loop n t) = Timer.divider_register t /\
  Timer.divider_counter (Timer.tima_loop n t) = Timer.divider_counter t /\
  Timer.tma (Timer.tima_loop n t) = Timer.tma t.
Proof.
  revert t. induction n as [|n IH]; intros t Ht Hm; cbn; [repeat split; lia|].
  assert (Hs : 0 <= Timer.tima (Timer.tima_tick t) < 256 /\
               Timer.clock_counter (Timer.tima_tick t) = Timer.clock_counter t /\
               Timer.divider_register (Timer.tima_tick t) = Timer.divider_register t /\
               Timer.divider_counter (Timer.tima_tick t) = Timer.divider_counter t /\
               Timer.tma (Timer.tima_tick t) = Timer.tma t).
  { unfold Timer.tima_tick. cbn. destruct (_ =? 0); cbn; repeat split; try lia;
      apply Z.mod_pos_bound; lia. }
  destruct Hs as (H1 & H2 & H3 & H4 & H5).
  destruct (IH (Timer.tima_tick t) H1 ltac:(lia)) as (I1 & I2 & I3 & I4 & I5).
  repeat split; lia.
Qed.

(** [Timer::update_timers] keeps TIMA and DIV bytes, leaves TMA alone,
    ends with the divider counter in 0..=256 and, when the timer is
    enabled, the clock counter below the input clock period; when the
    timer is disabled TIMA and the clock counter do not move. Interrupt
    requests already pending stay pending. *)
Theorem update_timers_invariant (t : Timer.Timer) (cycles : Z)
  (Htima : 0 <= Timer.tima t < 256) (Htma : 0 <= Timer.tma t < 256)
  (Hdiv : 0 <= Timer.divider_register t < 256) (Hspeed : 0 < Timer.input_clock_speed t) :
  let t' := Timer.update_timers t cycles in
  0 <= Timer.tima t' < 256 /\ 0 <= Timer.divider_register t' < 256 /\
  0 <= Timer.divider_counter t' <= 256 /\ Timer.tma t' = Timer.tma t /\
  (Timer.clock_enabled t = true ->
     0 <= Timer.clock_counter t' < Timer.input_clock_speed t) /\
  (Timer.clock_enabled t = false ->
     Timer.tima t' = Timer.tima t /\ Timer.clock_counter t' = Timer.clock_counter t) /\
  (forall k, Z.testbit (Timer.intflag t) k = true -> Z.testbit (Timer.intflag t') k = true).
Proof.
  intros t'.
  pose proof (Timer.update_divider_counter_le t cycles) as Hle.
  unfold t', Timer.update_timers. unfold Timer.update_divider in *.
  set (cnt := Timer.u32_add (Timer.divider_counter t) cycles) in *.
  assert (Hcnt : 0 <= cnt) by (unfold cnt, Timer.u32_add; apply Z.mod_pos_bound; lia).
  destruct (divider_loop_bounds (Timer.divider_fuel cnt) (Timer.divider_register t) cnt Hdiv Hcnt)
    as [B1 B2].
  destruct (Timer.divider_loop _ _ _) as [reg cnt'] eqn:E. cbn in B1, B2, Hle |- *.
  destruct (Timer.clock_enabled t) eqn:Hen.
  - set (t2 := Timer.with_clock_counter _ _).
    destruct (tima_loop_fields (Z.to_nat (Timer.u32_add (Timer.clock_counter t) cycles /
                                          Timer.input_clock_speed t)) t2 Htima Htma)
      as (I1 & I2 & I3 & I4 & I5).
    unfold t2 in *. cbn in I2, I3, I4, I5.
    rewrite I2, I3, I4, I5.
    repeat split; try lia; try discriminate.
    + apply Z.mod_pos_bound. exact Hspeed.
    + apply Z.mod_pos_bound. exact Hspeed.
    + intros k Hk. apply Timer.tima_loop_intflag. exact Hk.
  - cbn. repeat split; try lia; try discriminate; auto.
Qed.

(** Echo RAM through [MemoryBus::read_byte] and [MemoryBus::write_byte]:
    E000-FDFF reads and writes exactly what C000-DDFF does, the F000 half
    following the switchable bank as D000 does. *)
Theorem bus_echo_ram (b : Bus.MemoryBus) (x v now : Z) (Hx : 0 <= x < 0x1E00) :
  Bus.read_byte b (0xE000 + x) = Bus.read_byte b (0xC000 + x) /\
  Bus.write_byte b (0xE000 + x) v now = Bus.write_byte b (0xC000 + x) v now.
Proof.
  unfold Bus.read_byte, Bus.write_byte, Bus.HRAM_BEGIN, Bus.HRAM_END.
  destruct (Z.ltb_spec x 0x1000); split; settle_addr;
    first [reflexivity | f_equal; lia | f_equal; f_equal; lia].
Qed.

(** SVBK (0xFF70) through the bus: the bank selected is [value & 7], with 0
    meaning 1, so bank 0 is never mapped at D000; the register reads the
    bank back, C000-CFFF is unaffected and D000-DFFF shows that bank. *)
Theorem bus_wram_bank_select (b : Bus.MemoryBus) (v now : Z) :
  let sel := if Z.land v 0x07 =? 0 then 1 else Z.land v 0x07 in
  exists b', Bus.write_byte b 0xFF70 v now = Some b' /\
    1 <= sel <= 7 /\ Bus.read_byte b' 0xFF70 = Some sel /\
    Bus.wram b' = Bus.wram b /\
    (forall x, 0 <= x < 0x1000 ->
       Bus.read_byte b' (0xC000 + x) = Bus.read_byte b (0xC000 + x) /\
       Bus.read_byte b' (0xD000 + x) = index (Bus.wram b) (0x1000 * sel + x)).
Proof.
  intros sel. exists (Bus.set_wram_bank b sel).
  assert (Hsel : 1 <= sel <= 7).
  { pose proof (land_ones_bound v 3 ltac:(lia)) as B. change (Z.ones 3) with 0x07 in B.
    unfold sel. destruct (Z.eqb_spec (Z.land v 0x07) 0); lia. }
  split; [reflexivity|]. split; [exact Hsel|]. split.
  { transitivity (Some (sel mod 256)); [reflexivity|]. f_equal. apply Z.mod_small. lia. }
  split; [reflexivity|].
  intros x Hx. unfold Bus.read_byte, Bus.HRAM_BEGIN, Bus.HRAM_END.
  split; settle_addr; cbn [Bus.wram Bus.wram_bank Bus.set_wram_bank];
    first [reflexivity | f_equal; lia].
Qed.

(** I/O registers through the bus: IF, IE, TIMA and the serial registers
    read back what was written; a DIV write zeroes it; KEY1 reads its
    current speed in bit 7 and the armed switch in bit 0; TMA (0xFF06) and
    VBK (0xFF4F) are stored by a write but read as 0x00 on the bus, which
    has no arm for them. *)
Theorem bus_io_readback (b : Bus.MemoryBus) (v now : Z) :
  bus_write_then_read b 0xFF0F v now = Some v /\
  bus_write_then_read b 0xFFFF v now = Some v /\
  bus_write_then_read b 0xFF05 v now = Some v /\
  bus_write_then_read b 0xFF01 v now = Some v /\
  bus_write_then_read b 0xFF02 v now = Some v /\
  bus_write_then_read b 0xFF04 v now = Some 0 /\
  bus_write_then_read b 0xFF06 v now = Some 0 /\
  bus_write_then_read b 0xFF4F v now = Some 0 /\
  bus_write_then_read b 0xFF4D v now =
    Some (Z.lor (match Bus.speed b with Bus.Double => 0x80 | Bus.Regular => 0x00 end)
                (Z.land v 0x01)).
Proof.
  split; [reflexivity|]. split; [reflexivity|]. split; [reflexivity|].
  split; [reflexivity|]. split; [reflexivity|]. split; [reflexivity|].
  split; [reflexivity|]. split; [reflexivity|].
  pose proof (land_ones_bound v 1 ltac:(lia)) as B. change (Z.ones 1) with 0x01 in B.
  unfold bus_write_then_read. cbn.
  assert (E : Z.land v 0x01 = 0 \/ Z.land v 0x01 = 1) by lia.
  destruct E as [E|E]; rewrite E; destruct (Bus.speed b); reflexivity.
Qed.

(** TAC (0xFF07) through the bus: the clock-enable bit reads back, and so
    does the speed field, except the 16-cycle speed (field 1): the read
    looks for a speed of 6, so that field reads back as 0. *)
Theorem bus_tac_readback (b : Bus.MemoryBus) (v now : Z) :
  bus_write_then_read b 0xFF07 v now =
    Some (if Z.land v 0x03 =? 1 then Z.land v 0x04 else Z.land v 0x07).
Proof.
  pose proof (land_ones_bound v 3 ltac:(lia)) as B. change (Z.ones 3) with 0x07 in B.
  unfold bus_write_then_read, Bus.write_byte. cbn -[Z.land].
  replace (Z.land v 0x03) with (Z.land (Z.land v 0x07) 0x03)
    by (rewrite <- Z.land_assoc; reflexivity).
  replace (Z.land v 0x04) with (Z.land (Z.land v 0x07) 0x04)
    by (rewrite <- Z.land_assoc; reflexivity).
  generalize dependent (Z.land v 0x07). intros r Hr.
  assert (r = 0 \/ r = 1 \/ r = 2 \/ r = 3 \/ r = 4 \/ r = 5 \/ r = 6 \/ r = 7) as Er by lia.
  destruct Er as [->|[->|[->|[->|[->|[->|[->| ->]]]]]]]; reflexivity.
Qed.

(** KEY1 and [MemoryBus::change_speed]: writing bit 0 of 0xFF4D arms the
    switch; [change_speed] then toggles the speed only if armed, always
    disarms, reads back in 0xFF4D, and a second call changes nothing. *)
Theorem bus_speed_switch (b : Bus.MemoryBus) (v now : Z) :
  exists b', Bus.write_byte b 0xFF4D v now = Some b' /\
    let b2 := BusOps.change_speed b' in
    Bus.speed b2 = (if Z.land v 0x01 =? 0x01
                    then match Bus.speed b with Bus.Double => Bus.Regular
                                              | Bus.Regular => Bus.Double end
                    else Bus.speed b) /\
    Bus.speed_shift b2 = false /\
    Bus.read_byte b2 0xFF4D =
      Some (match Bus.speed b2 with Bus.Double => 0x80 | Bus.Regular => 0x00 end) /\
    BusOps.change_speed b2 = b2.
Proof.
  eexists. split; [reflexivity|].
  unfold BusOps.change_speed, Bus.set_speed_shift, Bus.set_speed. cbn.
  destruct (Z.land v 0x01 =? 0x01); destruct (Bus.speed b);
    (split; [reflexivity|]); (split; [reflexivity|]); split; reflexivity.
Qed.

Lemma land_zero_testbit s c j :
  Z.land s c = 0 -> Z.testbit c j = true -> Z.testbit s j = false.
Proof.
  intros H Hc. pose proof (Z.land_spec s c j) as E. rewrite H, Z.bits_0, Hc in E.
  rewrite andb_true_r in E. auto.
Qed.

Lemma key_up_after_down m c :
  0 <= m < 256 -> In c [0x01; 0x02; 0x04; 0x08; 0x10; 0x20; 0x40; 0x80] ->
  Z.lor (Z.land m (Z.lxor c 0xFF)) c = Z.lor m c.
Proof.
  intros Hm Hc.
  pose proof (Zrange_all_Z (fun m => forallb (fun c => Z.lor (Z.land m (Z.lxor c 0xFF)) c =? Z.lor m c)
    [0x01; 0x02; 0x04; 0x08; 0x10; 0x20; 0x40; 0x80]) 0 256 ltac:(vm_compute; reflexivity) m ltac:(lia)) as P.
  cbn beta in P. rewrite forallb_forall in P. apply Z.eqb_eq. apply P. exact Hc.
Qed.

(** [Joypad::key_down] and [key_up] on the bus: a press requests the
    Joypad interrupt (IF bit 4) and leaves the other IF bits, clears the
    key's bit of the matrix, and a release sets it again; when the key's
    row is selected in P1 (bit 4 low for the direction keys; bit 4 high and
    bit 5 low for the buttons) and P1's low nibble was written as 0, a read
    of 0xFF00 shows the key's bit as 0 while pressed and 1 once released. *)
Theorem joypad_press_release (b : Bus.MemoryBus) (k : BusOps.Keys)
  (Hm : 0 <= Bus.matrix (Bus.keys b) < 256) :
  let b1 := BusOps.key_down b k in
  let b2 := BusOps.key_up b1 k in
  let s := Bus.select (Bus.keys b) in
  let j := match k with BusOps.Right | BusOps.KA => 0 | BusOps.Left | BusOps.KB => 1
           | BusOps.Up | BusOps.Select => 2 | BusOps.Down | BusOps.Start => 3 end in
  let row_selected := if BusOps.key_mask k <? 0x10 then Z.land s 0x10 =? 0
                      else negb (Z.land s 0x10 =? 0) && (Z.land s 0x20 =? 0) in
  Z.testbit (Bus.interrupt_flag (Bus.intref b1)) 4 = true /\
  (forall n, n <> 4 -> Z.testbit (Bus.interrupt_flag (Bus.intref b1)) n =
                       Z.testbit (Bus.interrupt_flag (Bus.intref b)) n) /\
  Z.land (Bus.matrix (Bus.keys b1)) (BusOps.key_mask k) = 0 /\
  Bus.matrix (Bus.keys b2) = Z.lor (Bus.matrix (Bus.keys b)) (BusOps.key_mask k) /\
  (row_selected = true -> Z.land s 0x0F = 0 ->
     option_map (fun r => Z.testbit r j) (Bus.read_byte b1 0xFF00) = Some false /\
     option_map (fun r => Z.testbit r j) (Bus.read_byte b2 0xFF00) = Some true).
Proof.
  intros b1 b2 s j row_selected.
  set (m := Bus.matrix (Bus.keys b)) in *.
  split; [|split; [|split; [|split]]].
  - cbn -[Z.lor Z.testbit]. rewrite Z.lor_spec. apply orb_true_r.
  - intros n Hn. cbn -[Z.lor Z.testbit]. rewrite Z.lor_spec.
    change 0x10 with (2 ^ 4). destruct (Z.ltb_spec n 0).
    + rewrite !Z.testbit_neg_r by lia. reflexivity.
    + rewrite Z.pow2_bits_false by lia. apply orb_false_r.
  - cbn -[Z.land Z.lxor]. rewrite <- Z.land_assoc. destruct k; apply Z.land_0_r.
  - cbn -[Z.land Z.lor Z.lxor]. apply key_up_after_down; [exact Hm|]. destruct k; cbn; tauto.
  - intros Hrow Hlow. unfold row_selected in Hrow.
    unfold b2, b1, BusOps.key_up, BusOps.key_down. cbn -[Z.land Z.lor Z.lxor Z.testbit Z.shiftr].
    unfold Bus.get_joypad_state. cbn -[Z.land Z.lor Z.lxor Z.testbit Z.shiftr].
    change (Bus.select (Bus.keys b)) with s. clearbody s.
    destruct k; cbn in Hrow; unfold j; cbn [BusOps.key_mask];
      repeat match goal with
      | H : (_ && _) = true |- _ => apply andb_true_iff in H as [? ?]
      | H : negb _ = true |- _ => apply negb_true_iff in H
      | H : (Z.land s _ =? 0) = _ |- _ => rewrite H; clear H
      end;
      cbn -[Z.land Z.lor Z.lxor Z.testbit Z.shiftr];
      rewrite !Z.lor_spec, (land_zero_testbit s 0x0F) by (assumption || reflexivity);
      rewrite ?Z.shiftr_spec by lia; rewrite ?Z.land_spec, ?Z.lxor_spec, ?Z.lor_spec;
      cbn; rewrite ?andb_false_r, ?orb_true_r; split; reflexivity.
Qed.




(** Only the OAM changes in the DMA loop. *)
Lemma dma_loop_frame (k : nat) : forall i src b b',
  Bus.dma_loop k i src b = Some b' ->
  b' = Bus.set_gpu b (Gpu.set_oam (Bus.gpu b) (Gpu.oam (Bus.gpu b'))).
Proof.
  induction k as [|k IH]; intros i src b b' H; cbn in H.
  - injection H as <-. destruct b as [? ? ? ? ? [] ? ? ? ? ? ? ? ? ?]. reflexivity.
  - destruct (Bus.read_byte b (src + i)) as [x|]; [|discriminate].
    destruct (store _ i x) as [o|]; [|discriminate].
    apply IH in H. rewrite H at 1. reflexivity.
Qed.



(** Turn the range and comparison tests of the context into arithmetic. *)
Ltac bool_facts :=
  repeat match goal with
  | H : in_range _ _ _ = true |- _ => unfold in_range in H; apply andb_true_iff in H as [? ?]
  | H : in_range _ _ _ = false |- _ => unfold in_range in H; apply andb_false_iff in H
  | H : (_ <=? _) = true |- _ => apply Z.leb_le in H
  | H : (_ <=? _) = false |- _ => apply Z.leb_gt in H
  | H : (_ =? _) = true |- _ => apply Z.eqb_eq in H
  | H : (_ =? _) = false |- _ => apply Z.eqb_neq in H
  | H : (_ || _) = true |- _ => apply orb_true_iff in H
  | H : (_ || _) = false |- _ => apply orb_false_iff in H as [? ?]
  end.

(** Split [Bus.write_byte b a v now = Some b'] into its arms, with [b']
    given by each arm. *)
Ltac write_byte_arms H :=
  unfold Bus.write_byte, Bus.with_cart, Bus.with_gpu, Bus.with_wram in H;
  repeat match type of H with
  | context [if ?c then _ else _] => let E := fresh "E" in destruct c eqn:E
  | context [match ?o with Some _ => _ | None => _ end] =>
      let E := fresh "E" in destruct o eqn:E; [|discriminate]
  end;
  first [ apply dma_loop_frame in H; rewrite H | injection H as <- ].

(** What a bus write leaves alone: no write changes the speed or the boot
    ROM; only 0000-7FFF and A000-BFFF reach the cartridge, only C000-FDFF
    the work RAM, only 0xFF0F and 0xFFFF the interrupt registers, only
    0xFF70 the WRAM bank, only 0xFF00 the joypad, only FF04-FF07 the timer
    and only FF51-FF55 the HDMA registers. *)
Theorem bus_write_frame (b b' : Bus.MemoryBus) (a v now : Z)
  (H : Bus.write_byte b a v now = Some b') :
  Bus.speed b' = Bus.speed b /\ Bus.run_bootrom b' = Bus.run_bootrom b /\
  Bus.bootrom b' = Bus.bootrom b /\
  (in_range a 0x0000 0x7FFF = false -> in_range a 0xA000 0xBFFF = false ->
     Bus.cartridge b' = Bus.cartridge b) /\
  (in_range a 0xC000 0xFDFF = false -> Bus.wram b' = Bus.wram b) /\
  (a <> 0xFF0F -> a <> 0xFFFF -> Bus.intref b' = Bus.intref b) /\
  (a <> 0xFF70 -> Bus.wram_bank b' = Bus.wram_bank b) /\
  (a <> 0xFF00 -> Bus.keys b' = Bus.keys b) /\
  (in_range a 0xFF04 0xFF07 = false -> Bus.timer b' = Bus.timer b) /\
  (in_range a 0xFF51 0xFF55 = false -> Bus.hdma b' = Bus.hdma b).
Proof.
  write_byte_arms H;
    (split; [reflexivity|]); (split; [reflexivity|]); (split; [reflexivity|]);
    repeat split; intros; try reflexivity; exfalso; bool_facts; lia.
Qed.

Lemma lor_disjoint x y : Z.land x y = 0 -> Z.lor x y = x + y.
Proof. intros H. rewrite <- Z.lxor_lor by exact H. symmetry. apply Z.add_nocarry_lxor. exact H. Qed.

Lemma land_F0_bound v : 0 <= Z.land v 0xF0 <= 0xF0.
Proof.
  pose proof (land_ones_bound v 8 ltac:(lia)) as Bw. change (Z.ones 8) with 0xFF in Bw.
  replace (Z.land v 0xF0) with (Z.land (Z.land v 0xFF) 0xF0)
    by (rewrite <- Z.land_assoc; reflexivity).
  pose proof (Zrange_all_Z (fun w => (0 <=? Z.land w 0xF0) && (Z.land w 0xF0 <=? 0xF0))
    0 256 ltac:(vm_compute; reflexivity) (Z.land v 0xFF) ltac:(lia)) as R.
  cbn beta in R. apply andb_true_iff in R as [R1 R2]. apply Z.leb_le in R1, R2. lia.
Qed.

Lemma write_hdma_destination (h h' : Bus.HDMA) (a v : Z) :
  Bus.write_hdma h a v = Some h' ->
  0x8000 <= Bus.destination h <= 0x9FFF -> 0x8000 <= Bus.destination h' <= 0x9FFF.
Proof.
  destruct h as [src dst act md rem]. unfold Bus.write_hdma. cbn. intros H Hd.
  repeat match type of H with context [if ?c then _ else _] => destruct c end;
    try discriminate; injection H as <-; cbn; try lia.
  - pose proof (land_ones_bound v 5 ltac:(lia)) as Bx. change (Z.ones 5) with 0x1F in Bx.
    pose proof (land_ones_bound dst 8 ltac:(lia)) as By. change (Z.ones 8) with 0xFF in By.
    generalize dependent (Z.land v 0x1F). generalize dependent (Z.land dst 0xFF).
    intros y Hy x Hx.
    pose proof (Zrange_all_Z (fun x => forallb (fun y =>
       let d := Z.lor (Z.lor 0x8000 (Z.shiftl x 8)) y in (0x8000 <=? d) && (d <=? 0x9FFF))
       (Zrange 0 (Z.to_nat 256))) 0 32 ltac:(vm_compute; reflexivity) x ltac:(lia)) as P.
    pose proof (Zrange_all_Z _ 0 256 P y ltac:(lia)) as Q. cbn beta zeta in Q.
    apply andb_true_iff in Q as [Q1 Q2]. apply Z.leb_le in Q1, Q2. lia.
  - rewrite lor_disjoint.
    + pose proof (Zrange_all_Z (fun d => (0x8000 <=? Z.land d 0xFF00) && (Z.land d 0xFF00 <=? 0x9F00))
        0x8000 0x2000 ltac:(vm_compute; reflexivity) dst ltac:(lia)) as P.
      cbn beta in P. apply andb_true_iff in P as [P1 P2]. apply Z.leb_le in P1, P2.
      pose proof (land_F0_bound v). lia.
    + rewrite (Z.land_comm v), Z.land_assoc, <- (Z.land_assoc dst).
      change (Z.land 0xFF00 0xF0) with 0. rewrite Z.land_0_r. apply Z.land_0_l.
Qed.

(** The HDMA destination stays in VRAM: from a state whose destination lies
    in 8000-9FFF, no bus write moves it out, the HDMA1-HDMA4 writes
    included. *)
Theorem bus_hdma_destination_in_vram (b b' : Bus.MemoryBus) (a v now : Z)
  (Hd : 0x8000 <= Bus.destination (Bus.hdma b) <= 0x9FFF)
  (H : Bus.write_byte b a v now = Some b') :
  0x8000 <= Bus.destination (Bus.hdma b') <= 0x9FFF.
Proof.
  write_byte_arms H; cbn; try exact Hd.
  eapply write_hdma_destination; eassumption.
Qed.

Lemma hdma_source_bytes (hi y z : Z) :
  0 <= hi < 256 -> 0 <= y < 256 -> 0 <= z < 256 ->
  Z.lor (Z.land (Z.lor (Z.shiftl hi 8) y) 0xFF00) z = hi * 256 + z.
Proof.
  intros Hhi Hy Hz.
  pose proof (Zrange_all_Z (fun hi => forallb (fun y =>
     Z.land (Z.lor (Z.shiftl hi 8) y) 0xFF00 =? hi * 256)
     (Zrange 0 (Z.to_nat 256))) 0 256 ltac:(vm_compute; reflexivity) hi ltac:(lia)) as P.
  pose proof (Zrange_all_Z _ 0 256 P y ltac:(lia)) as Q. cbn beta in Q.
  apply Z.eqb_eq in Q. rewrite Q. apply lor_disjoint.
  change 256 with (2 ^ 8). rewrite <- Z.shiftl_mul_pow2 by lia.
  apply Z.bits_inj'. intros n Hn. rewrite Z.land_spec, Z.bits_0.
  destruct (Z.ltb_spec n 8).
  - rewrite Z.shiftl_spec_low by lia. reflexivity.
  - rewrite (Z.bits_above_log2 z n); [apply andb_false_r|lia|].
    destruct (Z.eq_dec z 0) as [->|Hz0]; [cbn; lia|].
    assert (Z.log2 z < 8) by (apply Z.log2_lt_pow2; lia). lia.
Qed.

(** The HDMA source through the bus: writing HDMA1 then HDMA2 sets the
    source to [hi << 8 | lo & 0xF0] whatever it was, and the two registers
    read back [hi] and [lo & 0xF0]. *)
Theorem bus_hdma_source_readback (b : Bus.MemoryBus) (hi lo now : Z)
  (Hhi : 0 <= hi < 256) :
  exists b1 b2, Bus.write_byte b 0xFF51 hi now = Some b1 /\
    Bus.write_byte b1 0xFF52 lo now = Some b2 /\
    Bus.source (Bus.hdma b2) = hi * 256 + Z.land lo 0xF0 /\
    Bus.read_byte b2 0xFF51 = Some hi /\ Bus.read_byte b2 0xFF52 = Some (Z.land lo 0xF0).
Proof.
  destruct b as [? ? ? ? ? ? ? ? ? ? ? ? ? ? [src dst act md rem]].
  do 2 eexists. split; [reflexivity|]. split; [reflexivity|].
  pose proof (land_ones_bound src 8 ltac:(lia)) as By. change (Z.ones 8) with 0xFF in By.
  pose proof (land_F0_bound lo) as Bz.
  assert (Hs : Z.lor (Z.land (Z.lor (Z.shiftl hi 8) (Z.land src 0xFF)) 0xFF00) (Z.land lo 0xF0) =
               hi * 256 + Z.land lo 0xF0) by (apply hdma_source_bytes; lia).
  cbn -[Z.lor Z.land Z.shiftl Z.shiftr Z.modulo]. rewrite Hs.
  split; [reflexivity|]. split; f_equal.
  - rewrite Z.shiftr_div_pow2 by lia. change (2 ^ 8) with 256.
    rewrite Z.div_add_l, Z.div_small, Z.add_0_r by lia. apply Z.mod_small. lia.
  - rewrite Z.add_comm, Z.mod_add by lia. apply Z.mod_small. lia.
Qed.




(** ** Instances of the properties above at concrete inputs *)

Lemma cpu_sub_flags_witness :
  snd (CpuOps.sub Cpu.sbc_regs 0x2A) = 0x11 /\
  Registers.half_carry (fst (CpuOps.sub Cpu.sbc_regs 0x2A)) = false.
Proof.
  rewrite (cpu_sub_flags Cpu.sbc_regs 0x2A ltac:(cbn; lia) ltac:(lia)).
  split; reflexivity.
Defined.

Lemma cpu_inc_dec_witness :
  CpuOps.inc (Registers.f Cpu.sbc_regs) 0xFF =
    ({| Registers.zero := true; Registers.subtract := false;
        Registers.half_carry := true; Registers.carry := true |}, 0).
Proof.
  rewrite (proj1 (cpu_inc_dec (Registers.f Cpu.sbc_regs) (Registers.f Cpu.sbc_regs)
                    0xFF ltac:(lia))).
  reflexivity.
Defined.

Lemma push_pop_roundtrip_witness :
  exists cpu1 cpu2,
    CpuOps.push_arm CpuOps.ram_write CpuOps.ram_cpu CpuOps.BC = Some (cpu1, (0x101, 16)) /\
    CpuOps.pop_arm CpuOps.ram_read cpu1 CpuOps.DE = Some (cpu2, (0x101, 12)) /\
    CpuOps.get_pair (Cpu.regs cpu2) CpuOps.DE = CpuOps.get_pair (Cpu.regs CpuOps.ram_cpu) CpuOps.BC.
Proof.
  eexists. destruct (push_pop_roundtrip CpuOps.ram_read CpuOps.ram_write ram_write_read
                      CpuOps.ram_cpu CpuOps.BC CpuOps.DE eq_refl ltac:(cbn; lia) _ _ eq_refl)
    as (_ & cpu2 & E & G & _).
  exists cpu2. split; [reflexivity|]. split; [exact E|exact G].
Defined.

Lemma jump_relative_target_witness :
  CpuOps.jump_relative CpuOps.ram_read true
    {| Cpu.regs := Cpu.sbc_regs; Cpu.pc := 0x0150; Cpu.sp := 0xFFFE;
       Cpu.bus := (fun _ => 0xFE) : Z -> Z; Cpu.is_halted := false; Cpu.ime := false |}
    true = Some (0x0150, 12).
Proof.
  rewrite (proj1 (jump_relative_target CpuOps.ram_read true
    {| Cpu.regs := Cpu.sbc_regs; Cpu.pc := 0x0150; Cpu.sp := 0xFFFE;
       Cpu.bus := (fun _ => 0xFE) : Z -> Z; Cpu.is_halted := false; Cpu.ime := false |}
    0xFE ltac:(cbn; lia) eq_refl ltac:(lia))).
  reflexivity.
Defined.

Lemma flags_u8_roundtrip_witness :
  Registers.flags_to_u8 (Registers.flags_from_u8 0xB7) = 0xB0.
Proof.
  rewrite (proj2 (flags_u8_roundtrip (Registers.f Cpu.sbc_regs) 0xB7 ltac:(lia))).
  reflexivity.
Defined.

Lemma rtc_write_read_witness :
  exists r', Rtc.write_rtc rtc_zero 0x08 30 = Some r' /\ Rtc.read_rtc r' 0x08 = Some 30.
Proof.
  eexists. split; [reflexivity|].
  exact (proj1 (rtc_write_read rtc_zero _ 0x08 30 eq_refl)).
Defined.

Lemma rtc_tick_bounds_witness :
  exists r', Rtc.tick rtc_zero 100000 = Some r' /\ 0 <= Rtc.s r' < 60 /\ 0 <= Rtc.hh r' < 24.
Proof.
  destruct (rtc_tick_bounds rtc_zero 100000 ltac:(cbn; lia))
    as (r' & E & Hs & _ & Hh & _).
  exists r'. split; [exact E|]. split; [exact Hs|exact Hh].
Defined.

Lemma mbc1_bank_select_witness :
  exists c1 c2,
    Cartridge.write_byte (cart_with_ram Cartridge.MBC1 []) 0x2000 0x05 0 = Some c1 /\
    Cartridge.write_byte c1 0x4000 0x02 0 = Some c2 /\ Cartridge.bank c2 = 0x45.
Proof.
  do 2 eexists. split; [reflexivity|]. split; [reflexivity|].
  exact (proj1 (mbc1_bank_select (cart_with_ram Cartridge.MBC1 []) _ _ 0x2000 0x4000 0x05 0x02 0
                  eq_refl ltac:(lia) ltac:(lia) eq_refl eq_refl)).
Defined.

Lemma cart_ram_disabled_witness :
  exists c1,
    Cartridge.write_byte (cart_with_ram Cartridge.MBC5 (repeat 0 (Z.to_nat 0x2000))) 0x0000 0x00 0
      = Some c1 /\ Cartridge.read_byte c1 0xA000 = Some 0x00.
Proof.
  eexists. split; [reflexivity|].
  exact (proj1 (cart_ram_disabled (cart_with_ram Cartridge.MBC5 (repeat 0 (Z.to_nat 0x2000))) _
                  0x0000 0x00 0xA000 0 0 0 ltac:(discriminate) ltac:(lia) ltac:(discriminate)
                  ltac:(discriminate) eq_refl ltac:(cbn; lia))).
Defined.

Lemma mbc1_write_panics_witness :
  Cartridge.write_byte (cart_with_ram Cartridge.MBC1 []) 0x6000 0x02 0 = None.
Proof.
  apply (proj2 (mbc1_write_panics (cart_with_ram Cartridge.MBC1 []) 0x6000 0x02 0 eq_refl)).
  left. lia.
Defined.

Lemma mbc3_rtc_select_witness :
  exists c1,
    Cartridge.write_byte (cart_with_ram Cartridge.MBC3 (repeat 0 (Z.to_nat 0x2000))) 0x4000 0x08 0
      = Some c1 /\ Cartridge.read_byte c1 0xA000 <> None.
Proof.
  eexists. split; [reflexivity|].
  rewrite (proj1 (mbc3_rtc_select (cart_with_ram Cartridge.MBC3 (repeat 0 (Z.to_nat 0x2000))) _
                    0x4000 0x08 0xA000 0 eq_refl eq_refl ltac:(lia) eq_refl
                    ltac:(vm_compute; discriminate) ltac:(lia))).
  change (Z.land 0x08 0x0F) with 0x08. lia.
Defined.

Lemma mbc5_bank_select_witness :
  exists c1 c2,
    Cartridge.write_byte (cart_with_ram Cartridge.MBC5 []) 0x2000 0x34 0 = Some c1 /\
    Cartridge.write_byte c1 0x3000 0x01 0 = Some c2 /\ Cartridge.rom_bank c2 = 0x134.
Proof.
  do 2 eexists. split; [reflexivity|]. split; [reflexivity|].
  exact (proj1 (mbc5_bank_select (cart_with_ram Cartridge.MBC5 []) _ _ _ _ 0x2000 0x3000 0x34 0x01 0
                  eq_refl ltac:(lia) ltac:(lia) ltac:(lia) eq_refl eq_refl eq_refl eq_refl)).
Defined.

Lemma gpu_register_readback_witness :
  write_then_read Gpu.new 0xFF47 0xE4 = Some 0xE4 /\
  write_then_read Gpu.new 0xFF41 0xFF = Some 0x7C.
Proof.
  destruct (gpu_register_readback Gpu.new 0xE4 ltac:(lia) ltac:(cbn; lia)) as [H _].
  destruct (gpu_register_readback Gpu.new 0xFF ltac:(lia) ltac:(cbn; lia)) as [_ [H' _]].
  split.
  - apply H. do 4 right. left. reflexivity.
  - rewrite H'. reflexivity.
Defined.

Lemma cgb_palette_data_write_witness :
  exists g', Gpu.write_registers Gpu.new 0xFF69 0x1F = Some g' /\
    Gpu.palette_read (Gpu.bgpd g') 0 = Some 0x1F.
Proof.
  destruct (cgb_palette_data_write Gpu.new 0x1F ltac:(lia) ltac:(vm_compute; reflexivity)
              ltac:(cbn; lia) ltac:(vm_compute; reflexivity) ltac:(cbn; lia))
    as [(g' & E & R & _) _].
  exists g'. split; [exact E|exact R].
Defined.

Lemma vram_bank_write_read_witness :
  exists g2, Gpu.read_vram g2 0x8000 = Some 0x55 /\ Gpu.read_registers g2 0xFF4F = Some 0xFF.
Proof.
  destruct (vram_bank_write_read Gpu.new _ 1 0x8000 0x55 ltac:(vm_compute; reflexivity)
              ltac:(lia) eq_refl) as (g2 & _ & R & V & _).
  exists g2. split; [exact R|exact V].
Defined.

Lemma update_timers_invariant_witness :
  0 <= Timer.tima (Timer.update_timers Timer.new 5000) < 256 /\
  0 <= Timer.divider_register (Timer.update_timers Timer.new 5000) < 256.
Proof.
  destruct (update_timers_invariant Timer.new 5000 ltac:(cbn; lia) ltac:(cbn; lia)
              ltac:(cbn; lia) ltac:(cbn; lia)) as [H1 [H2 _]].
  split; [exact H1|exact H2].
Defined.

Lemma bus_echo_ram_witness :
  Bus.read_byte Bus.example 0xF123 = Bus.read_byte Bus.example 0xD123.
Proof. exact (proj1 (bus_echo_ram Bus.example 0x1123 0 0 ltac:(lia))). Defined.

Lemma joypad_press_release_witness :
  option_map (fun r => Z.testbit r 0)
    (Bus.read_byte (BusOps.key_down Bus.example BusOps.Right) 0xFF00) = Some false /\
  Z.testbit (Bus.interrupt_flag (Bus.intref (BusOps.key_down Bus.example BusOps.Right))) 4 = true.
Proof.
  destruct (joypad_press_release Bus.example BusOps.Right ltac:(cbn; lia))
    as (I & _ & _ & _ & H).
  split; [exact (proj1 (H eq_refl eq_refl))|exact I].
Defined.


Lemma bus_write_frame_witness :
  exists b', Bus.write_byte Bus.example 0xC000 0x07 0 = Some b' /\
    Bus.timer b' = Bus.timer Bus.example /\ Bus.hdma b' = Bus.hdma Bus.example.
Proof.
  eexists. split; [reflexivity|].
  destruct (bus_write_frame Bus.example _ 0xC000 0x07 0 eq_refl)
    as (_ & _ & _ & _ & _ & _ & _ & _ & T & D).
  split; [exact (T eq_refl)|exact (D eq_refl)].
Defined.

Lemma bus_hdma_destination_in_vram_witness :
  exists b', Bus.write_byte Bus.example 0xFF53 0xFF 0 = Some b' /\
    0x8000 <= Bus.destination (Bus.hdma b') <= 0x9FFF.
Proof.
  eexists. split; [reflexivity|].
  exact (bus_hdma_destination_in_vram Bus.example _ 0xFF53 0xFF 0 ltac:(cbn; lia) eq_refl).
Defined.

Lemma bus_hdma_source_readback_witness :
  exists b1 b2, Bus.write_byte Bus.example 0xFF51 0x12 0 = Some b1 /\
    Bus.write_byte b1 0xFF52 0x34 0 = Some b2 /\
    Bus.source (Bus.hdma b2) = 0x1230 /\ Bus.read_byte b2 0xFF52 = Some 0x30.
Proof.
  destruct (bus_hdma_source_readback Bus.example 0x12 0x34 0 ltac:(lia))
    as (b1 & b2 & E1 & E2 & S & _ & R).
  exists b1, b2. split; [exact E1|]. split; [exact E2|]. split; [exact S|exact R].
Defined.

